(** * CoinMoa, Lighter reconstruction pipeline

    A shallow embedding of the reconciliation and normalisation core of the
    repository (directory [archive/Lighter 복사본]):

    - [extractors/trades.py]     side resolution, trade normalisation, merge
    - [extractors/transfers.py]  transfer normalisation, merge
    - [extractors/balances.py]   balance snapshots, merge
    - [extractors/airdrops.py]   airdrop rows, token sales
    - [api_client.py]            list payloads, offset pagination
    - [transform.py]             deposit inference and its exposure proxy,
                                 deposit verification, reconstructed history
    - [legacy/reports.py]        initial-capital inference and profit report
    - [legacy/extractors_tokens.py]  the legacy token helpers
    - [main.py]                  the API coverage guard, the profit snapshot

    and, from the root of the repository, the fee of a trade as
    [lighter_txlog.py] computes it.

    Numbers.  Python [float] is modelled by the exact rationals [Q]: every
    arithmetic step is the real-number operation, without rounding, infinities
    or NaN.  Inputs used in the concrete evaluations below are small integers
    and short decimals, on which binary64 arithmetic is exact as well.  What
    rounding does to the reconciliation ledger is read off a second embedding
    of [legacy/reports.py], on the binary64 floats of the kernel (module
    [Binary64]).  The exceptions a normaliser lets through ([float] on an
    integer too large, [parse_timestamp] on a number out of range) end the
    loop of the endpoint that called it (module [Collect]).

    Text.  Python [str] is modelled by [string]: an ASCII text is the
    sequence of its characters, and [lower] and [upper] are computed on it;
    on any other text they are left to the runtime. *)

From Stdlib Require Import ZArith QArith Qabs Lqa String Ascii List.
From Stdlib Require Import DecimalString Permutation Sorted.
From Stdlib Require PrimFloat FloatOps SpecFloat.
From stdpp Require Import gmap strings list.

#[local] Set Warnings "-register-all".
#[local] Open Scope string_scope.
#[local] Open Scope list_scope.

(** ** Python values and the built-ins the pipeline relies on *)

Module Py.

(** A JSON-like Python value.  A [dict] keeps its insertion order, so it is
    an association list; [get] returns the first binding of a key. *)
Inductive pyval : Type :=
| PNone
| PBool (b : bool)
| PInt (z : Z)
| PFloat (q : Q)
| PStr (s : string)
| PList (l : list pyval)
| PDict (d : list (string * pyval)).

Abbreviation dict := (list (string * pyval)).

(** [d.get(k)]: the value bound to [k], or [None]. *)
Fixpoint get (d : dict) (k : string) : pyval :=
  match d with
  | [] => PNone
  | (k', v) :: rest => if String.eqb k k' then v else get rest k
  end.

Definition is_none (v : pyval) : bool :=
  match v with PNone => true | _ => false end.

(** Truth value of an object, as tested by [if], [and], [or], [not]. *)
Definition truthy (v : pyval) : bool :=
  match v with
  | PNone => false
  | PBool b => b
  | PInt z => negb (z =? 0)%Z
  | PFloat q => negb (Qeq_bool q 0)
  | PStr s => negb (String.eqb s "")
  | PList l => match l with [] => false | _ :: _ => true end
  | PDict d => match d with [] => false | _ :: _ => true end
  end.

(** [a or b]: [a] when it is truthy, [b] otherwise. *)
Definition py_or (a b : pyval) : pyval := if truthy a then a else b.

Definition lower_ascii (c : ascii) : ascii :=
  let n := nat_of_ascii c in
  if ((65 <=? n) && (n <=? 90))%nat then ascii_of_nat (n + 32) else c.

Definition upper_ascii (c : ascii) : ascii :=
  let n := nat_of_ascii c in
  if ((97 <=? n) && (n <=? 122))%nat then ascii_of_nat (n - 32) else c.

Fixpoint map_string (f : ascii -> ascii) (s : string) : string :=
  match s with
  | EmptyString => EmptyString
  | String c rest => String (f c) (map_string f rest)
  end.

(** [text.isascii()] *)
Fixpoint is_ascii (s : string) : bool :=
  match s with
  | EmptyString => true
  | String c rest => (nat_of_ascii c <? 128)%nat && is_ascii rest
  end.

(** [needle in hay] for two strings. *)
Fixpoint contains (needle hay : string) : bool :=
  String.prefix needle hay
  || match hay with
     | EmptyString => false
     | String _ rest => contains needle rest
     end.

(** [x in {s1, ..., sn}] for a set of string literals. *)
Definition str_in (x : string) (l : list string) : bool :=
  existsb (String.eqb x) l.

Definition is_space (c : ascii) : bool :=
  let n := nat_of_ascii c in
  ((n =? 32) || ((9 <=? n) && (n <=? 13)) || ((28 <=? n) && (n <=? 31)))%nat.

(** [not text.strip()]: the text holds white space only. *)
Fixpoint is_blank (s : string) : bool :=
  match s with
  | EmptyString => true
  | String c rest => is_space c && is_blank rest
  end.

(** [str(z)] for an [int]. *)
Definition str_of_int (z : Z) : string := NilZero.string_of_int (Z.to_int z).

(** The part of the Python runtime and of [api_client] that no property
    below depends on, left uninterpreted:
    - [float_of_str text] is [float(text)], [None] when it raises ValueError;
    - [int_of_str text] is [int(text)], [None] when it raises ValueError;
    - [str_of_float x] is [str(x)] for a float;
    - [format_4f x] is [f"{x:.4f}"];
    - [parse_timestamp v] is what [api_client.parse_timestamp] returns when
      it returns: the UTC instant in microseconds since the epoch (the
      resolution of [datetime]), [None] when the input does not parse;
    - [timestamp_error v] is the message of the exception the same call
      raises instead of returning ([datetime.fromtimestamp] raises
      ValueError, OverflowError or OSError on a number out of its range),
      [None] when the call returns;
    - [regex_search pattern text] is [re.search(pattern, text) is not None]
      for a pattern that holds a character special to [re];
    - [unicode_lower text] and [unicode_upper text] are [text.lower()] and
      [text.upper()] for a text that holds a character outside ASCII. *)
Class Runtime := {
  float_of_str : string -> option Q;
  int_of_str : string -> option Z;
  str_of_float : Q -> string;
  format_4f : Q -> string;
  parse_timestamp : pyval -> option Z;
  timestamp_error : pyval -> option string;
  regex_search : string -> string -> bool;
  unicode_lower : string -> string;
  unicode_upper : string -> string;
}.

Section WithRuntime.
Context {R : Runtime}.

(** [text.lower()] and [text.upper()]: letter by letter on an ASCII text. *)
Definition lower (s : string) : string :=
  if is_ascii s then map_string lower_ascii s else unicode_lower s.

Definition upper (s : string) : string :=
  if is_ascii s then map_string upper_ascii s else unicode_upper s.

Definition join_comma (l : list string) : string :=
  String.concat ", " l.

(** [repr(v)]; string escapes are not rendered. *)
Fixpoint repr (v : pyval) : string :=
  match v with
  | PNone => "None"
  | PBool b => if b then "True" else "False"
  | PInt z => str_of_int z
  | PFloat q => str_of_float q
  | PStr s => ("'" ++ s ++ "'")%string
  | PList l => ("[" ++ join_comma (List.map repr l) ++ "]")%string
  | PDict d =>
      ("{" ++ join_comma
                (List.map
                   (fun kv => "'" ++ fst kv ++ "': " ++ repr (snd kv)) d)
           ++ "}")%string
  end.

(** [str(v)]. *)
Definition str (v : pyval) : string :=
  match v with
  | PStr s => s
  | _ => repr v
  end.

(** [float(v)], [None] when it raises TypeError or ValueError. *)
Definition float (v : pyval) : option Q :=
  match v with
  | PNone => None
  | PBool b => Some (if b then 1 else 0)%Q
  | PInt z => Some (inject_Z z)
  | PFloat q => Some q
  | PStr s => float_of_str s
  | PList _ => None
  | PDict _ => None
  end.

(** [int(v)], [None] when it raises TypeError or ValueError; a float is
    truncated towards zero. *)
Definition int (v : pyval) : option Z :=
  match v with
  | PNone => None
  | PBool b => Some (if b then 1 else 0)%Z
  | PInt z => Some z
  | PFloat q => Some (Z.quot (Qnum q) (Zpos (Qden q)))
  | PStr s => int_of_str s
  | PList _ => None
  | PDict _ => None
  end.

(** [api_client.to_float], when it returns. *)
Definition to_float (value : pyval) (default : Q) : Q :=
  if is_none value then default
  else match float value with
       | Some x => x
       | None => default
       end.

End WithRuntime.

(** The exception [api_client.to_float] lets through: it catches TypeError
    and ValueError only, and [float] raises OverflowError on an [int] that
    rounds to 2^1024 or beyond, that is from 2^1024 - 2^970 on. *)
Definition float_error (value : pyval) : option string :=
  match value with
  | PInt z =>
      if (2 ^ 1024 - 2 ^ 970 <=? Z.abs z)%Z
      then Some "int too large to convert to float"
      else None
  | _ => None
  end.

(** The exception a sequence of calls ends with: that of the first call
    that raises. *)
Fixpoint first_error (calls : list (option string)) : option string :=
  match calls with
  | [] => None
  | Some e :: _ => Some e
  | None :: rest => first_error rest
  end.

(** The characters that have a meaning of their own in a pattern of [re];
    a pattern without any of them matches as the literal text it is. *)
Definition regex_special : list ascii :=
  list_ascii_of_string ".^$*+?{}[]\|()".

Fixpoint is_literal_pattern (pattern : string) : bool :=
  match pattern with
  | EmptyString => true
  | String c rest =>
      negb (existsb (Ascii.eqb c) regex_special) && is_literal_pattern rest
  end.

(** Equality of two hashable scalars, as [==] decides it: numbers compare
    by value across [bool], [int] and [float]. *)
Definition number (v : pyval) : option Q :=
  match v with
  | PBool b => Some (if b then 1 else 0)%Q
  | PInt z => Some (inject_Z z)
  | PFloat q => Some q
  | _ => None
  end.

Definition hashable (v : pyval) : bool :=
  match v with
  | PList _ | PDict _ => false
  | _ => true
  end.

Definition py_eq (a b : pyval) : bool :=
  match number a, number b with
  | Some x, Some y => Qeq_bool x y
  | _, _ =>
      match a, b with
      | PNone, PNone => true
      | PStr s, PStr t => String.eqb s t
      | _, _ => false
      end
  end.

Definition Qltb (x y : Q) : bool := negb (Qle_bool y x).

(** [Series.sum()] *)
Definition Qsum (l : list Q) : Q := fold_left Qplus l 0%Q.

(** [Series.cumsum()] *)
Fixpoint cumsum_from (acc : Q) (l : list Q) : list Q :=
  match l with
  | [] => []
  | x :: rest => (acc + x)%Q :: cumsum_from (acc + x)%Q rest
  end.

Definition cumsum (l : list Q) : list Q := cumsum_from 0%Q l.

Definition Qmin2 (x y : Q) : Q := if Qle_bool x y then x else y.
Definition Qmax2 (x y : Q) : Q := if Qle_bool x y then y else x.

(** [Series.min()] of a series that is not empty. *)
Definition series_min (first : Q) (rest : list Q) : Q :=
  fold_left Qmin2 rest first.

End Py.

(** ** The pandas operations used by the extractors *)

Module Frame.

(** A [DataFrame] is the list of its rows in positional order, each with
    its index label. *)
Definition DataFrame (row : Type) : Type := list (nat * row).

(** [pd.DataFrame(rows)]: a fresh [RangeIndex]. *)
Definition of_rows {row : Type} (rows : list row) : DataFrame row :=
  combine (seq 0 (length rows)) rows.

Definition rows_of {row : Type} (df : DataFrame row) : list row :=
  List.map snd df.

Definition labels_of {row : Type} (df : DataFrame row) : list nat :=
  List.map fst df.

(** [df.empty] *)
Definition empty {row : Type} (df : DataFrame row) : bool :=
  match df with [] => true | _ :: _ => false end.

(** [df.reset_index(drop=True)] *)
Definition reset_index {row : Type} (df : DataFrame row) : DataFrame row :=
  of_rows (rows_of df).

Section DropDuplicates.
Context {row : Type}.
(** [same a b]: the two rows agree on every column of [subset]. *)
Variable same : row -> row -> bool.
(** [hashable_key a]: every [subset] cell of the row can be hashed. *)
Variable hashable_key : row -> bool.

(** With [keep="last"] a row is marked as a duplicate when a later row
    has the same key; the rows that stay keep their order and label. *)
Fixpoint keep_last (df : DataFrame row) : DataFrame row :=
  match df with
  | [] => []
  | (i, r) :: rest =>
      if existsb (fun jr => same r (snd jr)) rest
      then keep_last rest
      else (i, r) :: keep_last rest
  end.

(** [df.drop_duplicates(subset=..., keep="last")]; [None] stands for the
    TypeError pandas raises on an unhashable cell in a key column. *)
Definition drop_duplicates (df : DataFrame row) : option (DataFrame row) :=
  if forallb (fun ir => hashable_key (snd ir)) df
  then Some (keep_last df)
  else None.
End DropDuplicates.

Section SortValues.
Context {row : Type}.
(** The sort column; [None] is a missing value (NaT). *)
Variable ts : row -> option Z.

Definition present (ir : nat * row) : bool :=
  match ts (snd ir) with Some _ => true | None => false end.

Definition missing (ir : nat * row) : bool := negb (present ir).

(** [a] may stand before [b] in ascending order of the column, missing
    values last. *)
Definition le_ts (a b : row) : Prop :=
  match ts a, ts b with
  | Some x, Some y => (x <= y)%Z
  | Some _, None => True
  | None, Some _ => False
  | None, None => True
  end.

Definition le_tsb (a b : row) : bool :=
  match ts a, ts b with
  | Some x, Some y => (x <=? y)%Z
  | Some _, None => true
  | None, Some _ => false
  | None, None => true
  end.

(** [df.sort_values(col)] with the defaults [kind="quicksort"],
    [na_position="last"].  The rows with a value are arranged in
    ascending order by NumPy's quicksort, which is not a stable sort:
    which of the ascending arrangements comes out is not fixed by the
    call, so the operation is a relation.  The rows with a missing value
    follow in their original order. *)
Definition sort_values (df out : DataFrame row) : Prop :=
  exists sorted_part,
    Permutation sorted_part (List.filter present df)
    /\ StronglySorted le_ts (rows_of sorted_part)
    /\ out = sorted_part ++ List.filter missing df.

(** One arrangement the call may return: the stable one. *)
Fixpoint insert_sorted (x : nat * row) (l : DataFrame row) : DataFrame row :=
  match l with
  | [] => [x]
  | y :: rest =>
      if le_tsb (snd x) (snd y) then x :: l else y :: insert_sorted x rest
  end.

Definition stable_sort (df : DataFrame row) : DataFrame row :=
  fold_right insert_sorted [] (List.filter present df)
    ++ List.filter missing df.

(** Rows with equal sort values keep their relative order: restricted to
    any one value of the column, [out] lists the rows as [df] does. *)
Definition same_ts (t : option Z) (ir : nat * row) : bool :=
  match t, ts (snd ir) with
  | Some x, Some y => (x =? y)%Z
  | None, None => true
  | _, _ => false
  end.

Definition ties_in_order (df out : DataFrame row) : Prop :=
  forall t, rows_of (List.filter (same_ts t) out)
            = rows_of (List.filter (same_ts t) df).
End SortValues.

(** The closing lines shared by [fetch_trades], [fetch_transfers] and
    [fetch_balance_history]:
    [df = pd.DataFrame(rows)], an empty frame when [df.empty], otherwise
    [df.drop_duplicates(subset, keep="last")] followed by
    [.sort_values("timestamp").reset_index(drop=True)].
    [out] is a table the function may return; no [out] is related to
    [rows] when the call raises. *)
Definition merge_rows {row : Type} (same : row -> row -> bool)
    (hashable_key : row -> bool) (ts : row -> option Z)
    (rows : list row) (out : DataFrame row) : Prop :=
  let df := of_rows rows in
  if empty df then out = []
  else exists deduped sorted,
      drop_duplicates same hashable_key df = Some deduped
      /\ sort_values ts deduped sorted
      /\ out = reset_index sorted.

End Frame.

(** ** extractors/trades.py *)

Module Trades.
Import Py.

Infix "|||" := py_or (at level 50, left associativity).

(** A normalised trade, the dictionary [_normalize_trade] returns. *)
Record TradeRow := {
  timestamp : option Z;
  side : string;
  market : string;
  price : Q;
  size : Q;
  notional_quote : Q;
  fee_quote : Q;
  funding_quote : Q;
  realized_pnl : Q;
  liquidation : bool;
  tx_hash : pyval;
  source : string;
  raw : dict;
}.

Section WithRuntime.
Context {R : Runtime}.

Definition opposite (taker_side : string) : string :=
  if String.eqb taker_side "sell" then "buy" else "sell".

(** Lines 59-63: the side of the local account once the taker's side is
    known. *)
Definition side_for_account (taker_side taker_idx maker_idx me : string)
  : string :=
  if negb (String.eqb taker_idx "") && String.eqb taker_idx me
  then taker_side
  else if negb (String.eqb maker_idx "") && String.eqb maker_idx me
  then opposite taker_side
  else taker_side.

Definition _resolve_side (raw : dict) (account_index : Z) : string :=
  let side :=
    lower (str (get raw "side" ||| get raw "direction"
                ||| get raw "trade_side" ||| PStr "")) in
  if str_in side ["b"; "bid"] then "buy"
  else if str_in side ["s"; "ask"] then "sell"
  else if str_in side ["buy"; "sell"] then side
  else
    let is_taker_ask := get raw "is_taker_ask" in
    let taker_idx := str (get raw "taker_account_index" ||| PStr "") in
    let maker_idx := str (get raw "maker_account_index" ||| PStr "") in
    let me := str (PInt account_index) in
    if str_in (lower (str is_taker_ask)) ["1"; "true"]
    then side_for_account "sell" taker_idx maker_idx me
    else if str_in (lower (str is_taker_ask)) ["0"; "false"]
    then side_for_account "buy" taker_idx maker_idx me
    else "unknown".

(** Lines 80-90 and 120: the market label. *)
Definition resolve_market (raw : dict) (market_map : gmap Z string)
  : string :=
  let market := get raw "symbol" ||| get raw "market" ||| get raw "pair" in
  let market_index := get raw "market_index" ||| get raw "market_id" in
  let market :=
    if is_none market_index then market
    else match int market_index with
         | Some i =>
             match market_map !! i with
             | Some mapped =>
                 if String.eqb mapped "" then market else PStr mapped
             | None => market
             end
         | None => market
         end in
  let market :=
    if negb (truthy market) && negb (is_none market_index)
    then PStr ("market_" ++ str market_index)%string
    else market in
  str (market ||| PStr "").

(** Lines 95-97: the notional before its sign is dropped. *)
Definition raw_notional (raw : dict) (size price : Q) : Q :=
  let notional := to_float (get raw "notional" ||| get raw "quote_qty") 0 in
  if Qeq_bool notional 0
     && negb (Qeq_bool size 0) && negb (Qeq_bool price 0)
  then Qabs (size * price)
  else notional.

(** Lines 101-109: the fee, explicit or estimated from basis points. *)
Definition resolve_fee (raw : dict) (side : string) (notional : Q) : Q :=
  let maker_fee_bps := to_float (get raw "maker_fee") 0 in
  let taker_fee_bps := to_float (get raw "taker_fee") 0 in
  let explicit_fee := to_float (get raw "fee" ||| get raw "fee_usd") 0 in
  if Qeq_bool explicit_fee 0 && negb (Qeq_bool notional 0)
  then
    let bps :=
      if str_in side ["buy"; "sell"] then taker_fee_bps
      else maker_fee_bps in
    if negb (Qeq_bool bps 0)
    then notional * bps / 10000
    else explicit_fee
  else explicit_fee.

Definition _normalize_trade (raw : dict) (source : string)
    (account_index : Z) (market_map : gmap Z string) : TradeRow :=
  let ts :=
    parse_timestamp
      (get raw "time" ||| get raw "timestamp" ||| get raw "created_at"
       ||| get raw "executed_at" ||| get raw "updated_at") in
  let size :=
    to_float (get raw "size" ||| get raw "quantity"
              ||| get raw "filled_size") 0 in
  let price := to_float (get raw "price") 0 in
  let notional := raw_notional raw size price in
  let side := _resolve_side raw account_index in
  let fee_quote := resolve_fee raw side notional in
  let funding_quote :=
    to_float (get raw "funding" ||| get raw "funding_fee"
              ||| get raw "funding_payment") 0 in
  let realized_pnl :=
    to_float (get raw "realized_pnl" ||| get raw "realizedPnl"
              ||| get raw "pnl") 0 in
  let tx_type := str (get raw "tx_type" ||| get raw "trade_type" ||| PStr "") in
  let liquidation :=
    contains "liq" (lower tx_type)
    || String.eqb (lower tx_type) "liquidation" in
  {| timestamp := ts;
     side := side;
     market := resolve_market raw market_map;
     price := price;
     size := Qabs size;
     notional_quote := Qabs notional;
     fee_quote := fee_quote;
     funding_quote := funding_quote;
     realized_pnl := realized_pnl;
     liquidation := liquidation;
     tx_hash := get raw "hash" ||| get raw "tx_hash"
                ||| get raw "trade_id" ||| get raw "id";
     source := source;
     raw := raw |}.

(** The exception [_normalize_trade] raises instead of returning, if any:
    that of [parse_timestamp] (line 72) or of one of the eight calls of
    [to_float] (lines 92-112), in the order of the calls.  [None] when the
    call returns, with the row above. *)
Definition _normalize_trade_error (raw : dict) : option string :=
  first_error
    [timestamp_error
       (get raw "time" ||| get raw "timestamp" ||| get raw "created_at"
        ||| get raw "executed_at" ||| get raw "updated_at");
     float_error (get raw "size" ||| get raw "quantity"
                  ||| get raw "filled_size");
     float_error (get raw "price");
     float_error (get raw "notional" ||| get raw "quote_qty");
     float_error (get raw "maker_fee");
     float_error (get raw "taker_fee");
     float_error (get raw "fee" ||| get raw "fee_usd");
     float_error (get raw "funding" ||| get raw "funding_fee"
                  ||| get raw "funding_payment");
     float_error (get raw "realized_pnl" ||| get raw "realizedPnl"
                  ||| get raw "pnl")].

End WithRuntime.

Definition eq_ts (a b : option Z) : bool :=
  match a, b with
  | Some x, Some y => (x =? y)%Z
  | None, None => true
  | _, _ => false
  end.

(** Agreement on [subset=["timestamp", "side", "market", "size", "price",
    "tx_hash"]]. *)
Definition same_key (a b : TradeRow) : bool :=
  eq_ts (timestamp a) (timestamp b)
  && String.eqb (side a) (side b)
  && String.eqb (market a) (market b)
  && Qeq_bool (size a) (size b)
  && Qeq_bool (price a) (price b)
  && py_eq (tx_hash a) (tx_hash b).

Definition hashable_key (a : TradeRow) : bool := hashable (tx_hash a).

(** [fetch_trades] from line 221 on: [rows] are the normalised records
    gathered from the endpoints. *)
Definition fetch_trades (rows : list TradeRow)
    (out : Frame.DataFrame TradeRow) : Prop :=
  Frame.merge_rows same_key hashable_key timestamp rows out.

End Trades.

(** ** extractors/transfers.py *)

Module Transfers.
Import Py.

Infix "|||" := py_or (at level 50, left associativity).

(** A normalised transfer, the dictionary [_normalize] returns. *)
Record TransferRow := {
  timestamp : option Z;
  event_type : string;
  asset : string;
  amount_quote : Q;
  fee_quote : Q;
  tx_hash : pyval;
  source : string;
  raw : dict;
}.

(** The first result of [f] over [l], as a [for] loop that returns from
    its body does. *)
Fixpoint first_some {A B : Type} (f : A -> option B) (l : list A)
  : option B :=
  match l with
  | [] => None
  | x :: rest =>
      match f x with
      | Some y => Some y
      | None => first_some f rest
      end
  end.

Definition pubdata_blocks : list string :=
  ["l1_deposit_pubdata_v2"; "l1_withdraw_pubdata_v2";
   "l2_transfer_pubdata_v2"].

(** [raw.get("pubdata") if isinstance(raw.get("pubdata"), dict) else {}] *)
Definition pubdata (raw : dict) : dict :=
  match get raw "pubdata" with
  | PDict d => d
  | _ => []
  end.

Section WithRuntime.
Context {R : Runtime}.

Definition nonzero (v : Q) : option Q :=
  if Qeq_bool v 0 then None else Some v.

Definition _pick_amount (raw : dict) : Q :=
  let top :=
    first_some
      (fun key =>
         if is_none (get raw key) then None
         else nonzero (to_float (get raw key) 0))
      ["amount"; "accepted_amount"; "usdc_amount"; "value"] in
  match top with
  | Some v => v
  | None =>
      let pub := pubdata raw in
      let nested :=
        first_some
          (fun block_key =>
             match get pub block_key with
             | PDict block =>
                 first_some
                   (fun key => nonzero (to_float (get block key) 0))
                   ["accepted_amount"; "amount"]
             | _ => None
             end)
          pubdata_blocks in
      match nested with
      | Some v => v
      | None => 0
      end
  end.

Definition _pick_asset (raw : dict) : string :=
  let top :=
    first_some
      (fun key =>
         let value := get raw key in
         if negb (is_none value) && negb (is_blank (str value))
         then Some (str value) else None)
      ["asset"; "asset_index"; "token"] in
  match top with
  | Some a => a
  | None =>
      let pub := pubdata raw in
      let nested :=
        first_some
          (fun block_key =>
             match get pub block_key with
             | PDict block =>
                 if negb (is_none (get block "asset_index"))
                 then Some (str (get block "asset_index")) else None
             | _ => None
             end)
          pubdata_blocks in
      match nested with
      | Some a => a
      | None => "USDC"
      end
  end.

Definition _normalize (raw : dict) (source fallback_type : string)
  : TransferRow :=
  let tx_type :=
    lower (str (get raw "tx_type" ||| get raw "type"
                ||| PStr fallback_type)) in
  let event_type :=
    if contains "deposit" tx_type then "deposit"
    else if contains "withdraw" tx_type then "withdraw"
    else if contains "transfer" tx_type then "transfer"
    else fallback_type in
  let ts :=
    parse_timestamp
      (get raw "time" ||| get raw "timestamp" ||| get raw "created_at"
       ||| get raw "updated_at" ||| get raw "executed_at") in
  {| timestamp := ts;
     event_type := event_type;
     asset := _pick_asset raw;
     amount_quote := _pick_amount raw;
     fee_quote := to_float (get raw "fee" ||| get raw "usdc_fee") 0;
     tx_hash := get raw "hash" ||| get raw "tx_hash" ||| get raw "id";
     source := source;
     raw := raw |}.

(** How the two loops of [_pick_amount] end on the values they convert, in
    order: with a value other than 0, with the exception of [to_float], or
    without either. *)
Inductive scan : Type :=
| Found
| Raised (message : string)
| NotFound.

Fixpoint scan_values (values : list pyval) : scan :=
  match values with
  | [] => NotFound
  | v :: rest =>
      match float_error v with
      | Some e => Raised e
      | None =>
          if Qeq_bool (to_float v 0) 0 then scan_values rest else Found
      end
  end.

(** The exception [_pick_amount] raises, if any.  A top-level value that is
    [None] converts to 0 and is passed over, as the test of line 13 does. *)
Definition _pick_amount_error (raw : dict) : option string :=
  match scan_values
          (List.map (get raw)
             ["amount"; "accepted_amount"; "usdc_amount"; "value"]) with
  | Found => None
  | Raised e => Some e
  | NotFound =>
      let pub := pubdata raw in
      let nested :=
        List.concat
          (List.map
             (fun block_key =>
                match get pub block_key with
                | PDict block =>
                    [get block "accepted_amount"; get block "amount"]
                | _ => []
                end)
             pubdata_blocks) in
      match scan_values nested with
      | Raised e => Some e
      | _ => None
      end
  end.

(** The exception [_normalize] raises instead of returning, if any:
    that of [parse_timestamp] (line 56), of [_pick_amount] or of the
    [to_float] of the fee, in the order of the calls. *)
Definition _normalize_error (raw : dict) : option string :=
  first_error
    [timestamp_error
       (get raw "time" ||| get raw "timestamp" ||| get raw "created_at"
        ||| get raw "updated_at" ||| get raw "executed_at");
     _pick_amount_error raw;
     float_error (get raw "fee" ||| get raw "usdc_fee")].

End WithRuntime.

(** Agreement on [subset=["timestamp", "event_type", "asset",
    "amount_quote", "tx_hash"]]. *)
Definition same_key (a b : TransferRow) : bool :=
  Trades.eq_ts (timestamp a) (timestamp b)
  && String.eqb (event_type a) (event_type b)
  && String.eqb (asset a) (asset b)
  && Qeq_bool (amount_quote a) (amount_quote b)
  && py_eq (tx_hash a) (tx_hash b).

Definition hashable_key (a : TransferRow) : bool := hashable (tx_hash a).

(** [fetch_transfers] from line 114 on. *)
Definition fetch_transfers (rows : list TransferRow)
    (out : Frame.DataFrame TransferRow) : Prop :=
  Frame.merge_rows same_key hashable_key timestamp rows out.

End Transfers.

(** ** extractors/balances.py *)

Module Balances.
Import Py.

Infix "|||" := py_or (at level 50, left associativity).

(** A balance snapshot, the dictionary [_snapshot_row] returns. *)
Record BalanceRow := {
  timestamp : option Z;
  collateral_quote : Q;
  available_balance_quote : Q;
  total_asset_value_quote : Q;
  realized_pnl_quote : Q;
  unrealized_pnl_quote : Q;
  source : string;
  raw : dict;
}.

Section WithRuntime.
Context {R : Runtime}.

(** [now] is the value of [datetime.now(timezone.utc)] at the call. *)
Definition _snapshot_row (now : Z) (raw : dict) (source : string)
  : BalanceRow :=
  let positions :=
    match get raw "positions" with PList l => l | _ => [] end in
  let add (field alt : string) (acc : Q) (pos : pyval) : Q :=
    match pos with
    | PDict d => (acc + to_float (get d field ||| get d alt) 0)%Q
    | _ => acc
    end in
  let realized := fold_left (add "realized_pnl" "realizedPnl") positions 0%Q in
  let unrealized :=
    fold_left (add "unrealized_pnl" "unrealizedPnl") positions 0%Q in
  let ts :=
    match parse_timestamp (get raw "updated_at" ||| get raw "timestamp") with
    | Some t => Some t
    | None => Some now
    end in
  {| timestamp := ts;
     collateral_quote := to_float (get raw "collateral") 0;
     available_balance_quote := to_float (get raw "available_balance") 0;
     total_asset_value_quote := to_float (get raw "total_asset_value") 0;
     realized_pnl_quote := realized;
     unrealized_pnl_quote := unrealized;
     source := source;
     raw := raw |}.

(** The exception [_snapshot_row] raises instead of returning, if any: that
    of a [to_float] in the loop over the positions, of [parse_timestamp]
    (line 21) or of one of the three last calls of [to_float], in the order
    of the calls. *)
Definition _snapshot_row_error (raw : dict) : option string :=
  let positions :=
    match get raw "positions" with PList l => l | _ => [] end in
  first_error
    (List.concat
       (List.map
          (fun pos =>
             match pos with
             | PDict d =>
                 [float_error (get d "realized_pnl" ||| get d "realizedPnl");
                  float_error
                    (get d "unrealized_pnl" ||| get d "unrealizedPnl")]
             | _ => []
             end)
          positions)
     ++ [timestamp_error (get raw "updated_at" ||| get raw "timestamp");
         float_error (get raw "collateral");
         float_error (get raw "available_balance");
         float_error (get raw "total_asset_value")]).

End WithRuntime.

(** Agreement on [subset=["timestamp", "total_asset_value_quote",
    "collateral_quote", "source"]]; every key cell is hashable. *)
Definition same_key (a b : BalanceRow) : bool :=
  Trades.eq_ts (timestamp a) (timestamp b)
  && Qeq_bool (total_asset_value_quote a) (total_asset_value_quote b)
  && Qeq_bool (collateral_quote a) (collateral_quote b)
  && String.eqb (source a) (source b).

Definition hashable_key (a : BalanceRow) : bool := true.

(** [fetch_balance_history] from line 69 on. *)
Definition fetch_balance_history (rows : list BalanceRow)
    (out : Frame.DataFrame BalanceRow) : Prop :=
  Frame.merge_rows same_key hashable_key timestamp rows out.

End Balances.

(** ** transform.py *)

Module Transform.
Import Py.

(** Line 148-149: the signed cash flow of one trade,
    [sign * notional_quote - fee_quote + funding_quote] with
    [sign] -1 for a buy, +1 for a sell and 0 otherwise. *)
Definition sign_of (side : string) : Q :=
  if String.eqb side "buy" then (-1)%Q
  else if String.eqb side "sell" then 1%Q
  else 0%Q.

Definition signed_value (t : Trades.TradeRow) : Q :=
  (sign_of (Trades.side t) * Trades.notional_quote t
   - Trades.fee_quote t + Trades.funding_quote t)%Q.

(** Lines 144-151 of [infer_initial_deposit_if_missing]; [t] is the trade
    table as [trades.sort_values("timestamp")] leaves it. *)
Definition exposure_proxy (t : list Trades.TradeRow) : Q :=
  match cumsum (List.map signed_value t) with
  | [] => 0%Q
  | first :: rest => Qmax2 0 (- series_min first rest)
  end.

(** One line of the reconstructed history (the columns of
    [OUTPUT_COLUMNS] without the two derived ones: "Unnamed: 0" is the
    position of the row, "일시" is [utc_iso] of [timestamp]). [kind] is the
    column "유형", [pair] the column "페어", [value] the column "원화가치". *)
Record OutputRow := {
  timestamp : option Z;
  exchange : string;
  kind : string;
  pair : option string;
  price : option Q;
  value : Q;
  fx_rate : Q;
}.

Definition _event_type_from_trade (side : string) (liquidation : bool)
  : string :=
  if liquidation then "청산"
  else if String.eqb side "buy" then "매수"
  else if String.eqb side "sell" then "매도"
  else "거래".

(** [_build_trade_rows]: rows without a timestamp are skipped. *)
Definition _build_trade_rows (trades : Frame.DataFrame Trades.TradeRow)
    (fx_rate : Q) (exchange_label : string) : list OutputRow :=
  omap
    (fun ir =>
       let t := snd ir in
       match Trades.timestamp t with
       | None => None
       | Some ts =>
           Some {| timestamp := Some ts;
                   exchange := exchange_label;
                   kind := _event_type_from_trade (Trades.side t)
                             (Trades.liquidation t);
                   pair := if String.eqb (Trades.market t) "" then None
                           else Some (Trades.market t);
                   price := Some (Trades.price t);
                   value := (Trades.notional_quote t * fx_rate)%Q;
                   fx_rate := fx_rate |}
       end)
    trades.

Definition type_map (event_type : string) : string :=
  if String.eqb event_type "deposit" then "입금"
  else if String.eqb event_type "withdraw" then "출금"
  else "이체".

(** [_build_transfer_rows] *)
Definition _build_transfer_rows
    (transfers : Frame.DataFrame Transfers.TransferRow)
    (fx_rate : Q) (exchange_label : string) : list OutputRow :=
  omap
    (fun ir =>
       let x := snd ir in
       match Transfers.timestamp x with
       | None => None
       | Some ts =>
           let event_type :=
             if String.eqb (Transfers.event_type x) "" then "transfer"
             else Transfers.event_type x in
           Some {| timestamp := Some ts;
                   exchange := exchange_label;
                   kind := type_map event_type;
                   pair := None;
                   price := None;
                   value := (Transfers.amount_quote x * fx_rate)%Q;
                   fx_rate := fx_rate |}
       end)
    transfers.

(** [build_reconstructed_schema]: [out] is a table the function may
    return; the label of a row is its "Unnamed: 0" cell. *)
Definition build_reconstructed_schema
    (trades : Frame.DataFrame Trades.TradeRow)
    (transfers : Frame.DataFrame Transfers.TransferRow)
    (fx_rate : Q) (exchange_label : string)
    (out : Frame.DataFrame OutputRow) : Prop :=
  let rows :=
    _build_trade_rows trades fx_rate exchange_label
    ++ _build_transfer_rows transfers fx_rate exchange_label in
  match rows with
  | [] => out = []
  | _ :: _ =>
      exists sorted,
        Frame.sort_values timestamp (Frame.of_rows rows) sorted
        /\ out = Frame.reset_index sorted
  end.

End Transform.

(** The exposure proxy as the specification words it,
    [max(0, -min(running_sum))] over the signed quote values in
    chronological order, 0 for an empty table. *)
Definition exposure_proxy_spec (signed : list Q) : Q :=
  match Py.cumsum signed with
  | [] => 0%Q
  | first :: rest => Py.Qmax2 0 (- Py.series_min first rest)
  end.

(** ** legacy/reports.py *)

Module Reports.
Import Py.

Record InitialCapitalInference := {
  estimated_beginning_equity : Q;
  method : string;
  confidence : string;
  caveats : list string;
}.

Record ProfitSummary := {
  net_deposits : Q;
  realized_pnl : Q;
  unrealized_pnl : Q;
  fees_plus_funding : Q;
  airdrop_tokens_received : Q;
  token_sold_qty : Q;
  token_vwap_sell_price : Q;
  token_sale_proceeds : Q;
  token_sales_pnl : Q;
  ending_equity : Q;
  beginning_equity_estimate : Q;
  total_profit : Q;
}.

(** One row of the unified table, with the columns the report reads.
    A numeric cell holds the value [pd.to_numeric(..., errors="coerce")]
    gives it, [None] for NaN.  [pair], [kind] and [time_text] are the
    columns "페어", "유형" and "일시". *)
Record UnifiedRow := {
  event_group : option string;
  event_subtype : option string;
  quote_value : option Q;
  signed_quote_value : option Q;
  fee_usd : option Q;
  funding_usd : option Q;
  quantity : option Q;
  is_airdrop : option bool;
  pair : option string;
  kind : option string;
  time_text : option string;
}.

(** [.fillna(0.0)] on a numeric cell. *)
Definition fillna0 (c : option Q) : Q :=
  match c with Some x => x | None => 0%Q end.

(** [.fillna("")] on a text cell. *)
Definition fillna_str (c : option string) : string :=
  match c with Some x => x | None => "" end.

(** [col == text], false on a missing cell. *)
Definition cell_is (c : option string) (text : string) : bool :=
  match c with Some x => String.eqb x text | None => false end.

(** [pd.to_numeric(df.get(col), errors="coerce").fillna(0.0).sum()] *)
Definition column_sum (col : UnifiedRow -> option Q) (df : list UnifiedRow)
  : Q :=
  Qsum (List.map (fun r => fillna0 (col r)) df).

Section WithRuntime.
Context {R : Runtime}.

Definition _safe_float (v : pyval) : Q :=
  match float v with
  | Some x => x
  | None => 0%Q
  end.

(** [pd.to_numeric(unified_df.get("signed_quote_value"),
    errors="coerce").fillna(0.0)] *)
Definition signed_column (unified_df : list UnifiedRow) : list Q :=
  List.map (fun r => fillna0 (signed_quote_value r)) unified_df.

(** Lines 63-66 of [infer_initial_capital]: the fallback bound from the
    running sum of the [signed_quote_value] column. *)
Definition max_capital_proxy (unified_df : list UnifiedRow) : Q :=
  let signed := signed_column unified_df in
  let running := cumsum signed in
  match running with
  | [] => 0%Q
  | first :: rest => Qabs (series_min first rest)
  end.

Definition infer_initial_capital (unified_df : list UnifiedRow)
    (ending_equity net_deposits net_pnl_components : Q)
  : InitialCapitalInference :=
  let caveats : list string := [] in
  let recon_estimate := (ending_equity - net_deposits - net_pnl_components)%Q in
  let method := "reconciliation" in
  let confidence := "medium" in
  let max_capital_proxy := max_capital_proxy unified_df in
  let '(caveats, recon_estimate, method, confidence) :=
    if Qltb recon_estimate 0
    then (caveats ++ ["Reconciliation produced negative beginning equity; replaced with max-exposure proxy."],
          max_capital_proxy, "max_exposure_proxy", "low")
    else (caveats, recon_estimate, method, confidence) in
  let '(caveats, recon_estimate, method, confidence) :=
    if Qeq_bool net_deposits 0
    then
      let caveats :=
        caveats ++ ["No explicit deposits/withdrawals found; initial capital estimate has high uncertainty."] in
      if Qltb recon_estimate max_capital_proxy
      then (caveats, max_capital_proxy, "max_exposure_proxy", "low")
      else (caveats, recon_estimate, method, confidence)
    else (caveats, recon_estimate, method, confidence) in
  let caveats :=
    if Qltb 0 max_capital_proxy
    then caveats ++ [("Max signed-quote exposure proxy observed: "
                      ++ format_4f max_capital_proxy ++ ".")%string]
    else caveats in
  {| estimated_beginning_equity := recon_estimate;
     method := method;
     confidence := confidence;
     caveats := caveats |}.

Record TokenSellSummary := {
  ts_token_sold_qty : Q;
  ts_token_vwap_sell_price : Q;
  ts_token_sale_proceeds : Q;
  ts_token_sales_pnl : Q;
}.

(** [series.str.contains(needle, case=False, regex=False)] on one cell. *)
Definition contains_nocase (needle hay : string) : bool :=
  contains (upper needle) (upper hay).

Definition _token_sell_summary (unified_df : list UnifiedRow)
    (token_keyword : string) : TokenSellSummary :=
  let token_mask r := contains_nocase token_keyword (fillna_str (pair r)) in
  let trade_mask r :=
    str_in (fillna_str (event_subtype r)) ["trade"; "liquidation"] in
  let sell_mask r := String.eqb (fillna_str (kind r)) "매도" in
  let token_sells :=
    List.filter (fun r => token_mask r && trade_mask r && sell_mask r)
      unified_df in
  let sold_qty := column_sum quantity token_sells in
  let sale_proceeds := column_sum quote_value token_sells in
  let vwap :=
    if Qltb 0 sold_qty then (sale_proceeds / sold_qty)%Q else 0%Q in
  {| ts_token_sold_qty := sold_qty;
     ts_token_vwap_sell_price := vwap;
     ts_token_sale_proceeds := sale_proceeds;
     ts_token_sales_pnl := sale_proceeds |}.

(** The dictionary [build_profit_report] returns first; the daily and
    monthly breakdown frames are not modelled. *)
Record Report := {
  summary : ProfitSummary;
  initial_capital_inference : InitialCapitalInference;
  airdrop_timestamps : list string;
  reconciliation : list (string * Q);
}.

Definition build_profit_report (unified_df : list UnifiedRow)
    (balance_snapshot : dict) (token_keyword : string) : Report :=
  let df := unified_df in
  let transfer_rows :=
    List.filter (fun r => cell_is (event_group r) "transfer") df in
  let deposits :=
    List.filter (fun r => cell_is (event_subtype r) "deposit")
      transfer_rows in
  let withdrawals :=
    List.filter (fun r => cell_is (event_subtype r) "withdraw")
      transfer_rows in
  let net_deposits :=
    (column_sum quote_value deposits
     - column_sum quote_value withdrawals)%Q in
  let realized_pnl := _safe_float (get balance_snapshot "realized_pnl") in
  let unrealized_pnl :=
    _safe_float (get balance_snapshot "unrealized_pnl") in
  let fee_total := column_sum fee_usd df in
  let funding_total := column_sum funding_usd df in
  let fees_plus_funding := (- (fee_total + funding_total))%Q in
  let airdrop_mask r :=
    match is_airdrop r with Some b => b | None => false end in
  let airdrop_tokens_received :=
    column_sum quantity (List.filter airdrop_mask df) in
  let airdrop_timestamps :=
    omap time_text (List.filter airdrop_mask df) in
  let token_summary := _token_sell_summary df token_keyword in
  let ending_equity := _safe_float (get balance_snapshot "ending_equity") in
  let pnl_components :=
    (realized_pnl + unrealized_pnl + fees_plus_funding
     + ts_token_sales_pnl token_summary)%Q in
  let init :=
    infer_initial_capital df ending_equity net_deposits pnl_components in
  let total_profit := (ending_equity - estimated_beginning_equity init)%Q in
  let summary :=
    {| net_deposits := net_deposits;
       realized_pnl := realized_pnl;
       unrealized_pnl := unrealized_pnl;
       fees_plus_funding := fees_plus_funding;
       airdrop_tokens_received := airdrop_tokens_received;
       token_sold_qty := ts_token_sold_qty token_summary;
       token_vwap_sell_price := ts_token_vwap_sell_price token_summary;
       token_sale_proceeds := ts_token_sale_proceeds token_summary;
       token_sales_pnl := ts_token_sales_pnl token_summary;
       ending_equity := ending_equity;
       beginning_equity_estimate := estimated_beginning_equity init;
       total_profit := total_profit |} in
  let recon_table :=
    [("BeginningEquity(estimated)", estimated_beginning_equity init);
     ("+NetDeposits", net_deposits);
     ("+RealizedPnL", realized_pnl);
     ("+UnrealizedPnL", unrealized_pnl);
     ("+TokenSalesPnL", ts_token_sales_pnl token_summary);
     ("+FeesFunding(net)", fees_plus_funding);
     ("=EndingEquity", ending_equity)] in
  {| summary := summary;
     initial_capital_inference := init;
     airdrop_timestamps := airdrop_timestamps;
     reconciliation := recon_table |}.

End WithRuntime.

(** [recon_table[label]], 0 for a label the ledger does not hold. *)
Fixpoint entry (table : list (string * Q)) (label : string) : Q :=
  match table with
  | [] => 0%Q
  | (l, v) :: rest => if String.eqb label l then v else entry rest label
  end.

(** The sum of the six ledger lines that precede [=EndingEquity]. *)
Definition ledger_sum (table : list (string * Q)) : Q :=
  (entry table "BeginningEquity(estimated)" + entry table "+NetDeposits"
   + entry table "+RealizedPnL" + entry table "+UnrealizedPnL"
   + entry table "+TokenSalesPnL" + entry table "+FeesFunding(net)")%Q.

End Reports.

(** ** lighter_txlog.py: the fee of a trade by the role of the account *)

Module LighterTxlog.
Import Py.

Infix "|||" := py_or (at level 50, left associativity).

Section WithRuntime.
Context {R : Runtime}.

(** [_safe_float]: [None] for [None] and for what [float] raises on. *)
Definition _safe_float (x : pyval) : option Q :=
  if is_none x then None else float x.

(** [x or 0.0] for an optional float. *)
Definition or_zero (x : option Q) : Q :=
  match x with
  | Some v => v
  | None => 0%Q
  end.

(** [x] is a float other than 0.0. *)
Definition nonzero (x : option Q) : bool :=
  match x with
  | Some v => negb (Qeq_bool v 0)
  | None => false
  end.

(** [_compute_trade_fee_usd], for the account [ACCOUNT_INDEX]. *)
Definition _compute_trade_fee_usd (ACCOUNT_INDEX : Z) (row : dict) : Q :=
  let explicit key :=
    let v := _safe_float (get row key) in
    if nonzero v then Some (Qabs (or_zero v)) else None in
  match explicit "fee" with
  | Some fee => fee
  | None =>
      match explicit "fee_usd" with
      | Some fee => fee
      | None =>
          let me := str_of_int ACCOUNT_INDEX in
          let taker_idx :=
            str (get row "taker_account_index" ||| PStr "") in
          let maker_idx :=
            str (get row "maker_account_index" ||| PStr "") in
          let fee_bps :=
            if negb (String.eqb me "") && String.eqb me taker_idx
            then or_zero (_safe_float (get row "taker_fee"))
            else if negb (String.eqb me "") && String.eqb me maker_idx
            then or_zero (_safe_float (get row "maker_fee"))
            else or_zero (_safe_float (get row "taker_fee")) in
          if Qeq_bool fee_bps 0 then 0%Q
          else
            let size := _safe_float (get row "size" ||| get row "quantity") in
            let price := _safe_float (get row "price") in
            let notional :=
              if nonzero size && nonzero price
              then Qabs (or_zero size * or_zero price)
              else Qabs (or_zero (_safe_float (get row "usd_amount"))) in
            if Qeq_bool notional 0 then 0%Q
            else (notional * fee_bps / 10000)%Q
      end
  end.

End WithRuntime.

End LighterTxlog.

(** ** legacy/reports.py on binary64 *)

Module Binary64.
Import Py PrimFloat FloatOps SpecFloat.

(** The rational a finite float stands for. *)
Definition exact (x : float) : Q :=
  match Prim2SF x with
  | S754_finite s m e =>
      let v :=
        if (e <? 0)%Z then (Zpos m # Pos.pow 2 (Z.to_pos (- e)))%Q
        else inject_Z (Zpos m * 2 ^ e) in
      if s then (- v)%Q else v
  | _ => 0%Q
  end.

(** One row of the unified table, with the columns the ledger is computed
    from; every numeric cell holds a finite number. *)
Record UnifiedRow := {
  event_group : option string;
  event_subtype : option string;
  quote_value : float;
  signed_quote_value : float;
  fee_usd : float;
  funding_usd : float;
  pair : option string;
  kind : option string;
}.

(** The three numbers [_safe_float] reads off the balance snapshot. *)
Record Snapshot := {
  snapshot_realized_pnl : float;
  snapshot_unrealized_pnl : float;
  snapshot_ending_equity : float;
}.

(** [Series.sum()]: the cells are added one after the other, which is the
    order of NumPy on a column of fewer than eight cells. *)
Definition column_sum (col : UnifiedRow -> float) (df : list UnifiedRow)
  : float :=
  fold_left PrimFloat.add (List.map col df) 0%float.

(** [Series.cumsum()] *)
Fixpoint cumsum_from (acc : float) (l : list float) : list float :=
  match l with
  | [] => []
  | x :: rest => (acc + x)%float :: cumsum_from (acc + x)%float rest
  end.

Definition min2 (x y : float) : float := if (y <? x)%float then y else x.

(** Lines 63-66 of [infer_initial_capital]. *)
Definition max_capital_proxy (unified_df : list UnifiedRow) : float :=
  let signed := List.map signed_quote_value unified_df in
  let running := cumsum_from 0%float signed in
  match running with
  | [] => 0%float
  | first :: rest => PrimFloat.abs (fold_left min2 rest first)
  end.

(** The result of the inference; the caveats, which are text, are left
    out. *)
Record InitialCapitalInference := {
  estimated_beginning_equity : float;
  method : string;
  confidence : string;
}.

Definition infer_initial_capital (unified_df : list UnifiedRow)
    (ending_equity net_deposits net_pnl_components : float)
  : InitialCapitalInference :=
  let recon_estimate :=
    (ending_equity - net_deposits - net_pnl_components)%float in
  let method := "reconciliation" in
  let confidence := "medium" in
  let max_capital_proxy := max_capital_proxy unified_df in
  let '(recon_estimate, method, confidence) :=
    if (recon_estimate <? 0)%float
    then (max_capital_proxy, "max_exposure_proxy", "low")
    else (recon_estimate, method, confidence) in
  let '(recon_estimate, method, confidence) :=
    if (net_deposits =? 0)%float
    then
      if (recon_estimate <? max_capital_proxy)%float
      then (max_capital_proxy, "max_exposure_proxy", "low")
      else (recon_estimate, method, confidence)
    else (recon_estimate, method, confidence) in
  {| estimated_beginning_equity := recon_estimate;
     method := method;
     confidence := confidence |}.

(** What [build_profit_report] returns, cut down to the inference and the
    ledger. *)
Record Report := {
  initial_capital_inference : InitialCapitalInference;
  reconciliation : list (string * float);
}.

Section WithRuntime.
Context {R : Runtime}.

(** [_token_sell_summary(...)["token_sales_pnl"]]: the proceeds of the
    token sells. *)
Definition token_sales_pnl (unified_df : list UnifiedRow)
    (token_keyword : string) : float :=
  let token_mask r :=
    Reports.contains_nocase token_keyword (Reports.fillna_str (pair r)) in
  let trade_mask r :=
    str_in (Reports.fillna_str (event_subtype r)) ["trade"; "liquidation"] in
  let sell_mask r := String.eqb (Reports.fillna_str (kind r)) "매도" in
  let token_sells :=
    List.filter (fun r => token_mask r && trade_mask r && sell_mask r)
      unified_df in
  column_sum quote_value token_sells.

(** Lines 126-183 of [build_profit_report], with the arithmetic of the
    floats. *)
Definition build_profit_report (unified_df : list UnifiedRow)
    (balance_snapshot : Snapshot) (token_keyword : string) : Report :=
  let df := unified_df in
  let transfer_rows :=
    List.filter (fun r => Reports.cell_is (event_group r) "transfer") df in
  let deposits :=
    List.filter (fun r => Reports.cell_is (event_subtype r) "deposit")
      transfer_rows in
  let withdrawals :=
    List.filter (fun r => Reports.cell_is (event_subtype r) "withdraw")
      transfer_rows in
  let net_deposits :=
    (column_sum quote_value deposits
     - column_sum quote_value withdrawals)%float in
  let realized_pnl := snapshot_realized_pnl balance_snapshot in
  let unrealized_pnl := snapshot_unrealized_pnl balance_snapshot in
  let fee_total := column_sum fee_usd df in
  let funding_total := column_sum funding_usd df in
  let fees_plus_funding := (- (fee_total + funding_total))%float in
  let token_sales_pnl := token_sales_pnl df token_keyword in
  let ending_equity := snapshot_ending_equity balance_snapshot in
  let pnl_components :=
    (realized_pnl + unrealized_pnl + fees_plus_funding
     + token_sales_pnl)%float in
  let init :=
    infer_initial_capital df ending_equity net_deposits pnl_components in
  let recon_table :=
    [("BeginningEquity(estimated)", estimated_beginning_equity init);
     ("+NetDeposits", net_deposits);
     ("+RealizedPnL", realized_pnl);
     ("+UnrealizedPnL", unrealized_pnl);
     ("+TokenSalesPnL", token_sales_pnl);
     ("+FeesFunding(net)", fees_plus_funding);
     ("=EndingEquity", ending_equity)] in
  {| initial_capital_inference := init;
     reconciliation := recon_table |}.

End WithRuntime.

(** [recon_table[label]], 0.0 for a label the ledger does not hold. *)
Fixpoint entry (table : list (string * float)) (label : string) : float :=
  match table with
  | [] => 0%float
  | (l, v) :: rest => if String.eqb label l then v else entry rest label
  end.

(** The six ledger lines that precede [=EndingEquity]. *)
Definition ledger_lines (table : list (string * float)) : list float :=
  List.map (entry table)
    ["BeginningEquity(estimated)"; "+NetDeposits"; "+RealizedPnL";
     "+UnrealizedPnL"; "+TokenSalesPnL"; "+FeesFunding(net)"].

(** Their sum as [sum] computes it, adding one float after the other, and
    their sum as real numbers. *)
Definition ledger_sum (table : list (string * float)) : float :=
  fold_left PrimFloat.add (ledger_lines table) 0%float.

Definition exact_ledger_sum (table : list (string * float)) : Q :=
  Qsum (List.map exact (ledger_lines table)).

(** A table on which the reconciliation estimate is rounded: a deposit of
    1 + 2^-16, a trade that cost 1 + 5 * 2^-18 in fees, and an account that
    ends with 2^35. *)
Definition deposit_row : UnifiedRow :=
  {| event_group := Some "transfer";
     event_subtype := Some "deposit";
     quote_value := 0x1.0001p+0%float;
     signed_quote_value := 0%float;
     fee_usd := 0%float;
     funding_usd := 0%float;
     pair := None;
     kind := Some "입금" |}.

Definition fee_row : UnifiedRow :=
  {| event_group := Some "trade";
     event_subtype := Some "trade";
     quote_value := 0%float;
     signed_quote_value := 0%float;
     fee_usd := 0x1.00014p+0%float;
     funding_usd := 0%float;
     pair := Some "ETH";
     kind := Some "매수" |}.

Definition rounded_table : list UnifiedRow := [deposit_row; fee_row].

Definition rounded_account : Snapshot :=
  {| snapshot_realized_pnl := 0%float;
     snapshot_unrealized_pnl := 0%float;
     snapshot_ending_equity := 0x1p+35%float |}.

End Binary64.

(** ** main.py *)

Module Main.

(** [api_client.EndpointStatus] *)
Record EndpointStatus := {
  name : string;
  success : bool;
  records : Z;
  error : string;
}.

(** The [details] dictionary carried by the RuntimeError. *)
Record CoverageDetails := {
  missing_core_status : list string;
  failed_core_endpoints : list string;
  transfers_rows : nat;
  trades_rows : nat;
}.

Inductive outcome : Type :=
| Returns
| RaisesRuntimeError (details : CoverageDetails).

Definition core : list string :=
  ["trades"; "deposit/history"; "withdraw/history"; "l1Metadata"].

(** [{s.name: s for s in statuses}]: a later status replaces an earlier one
    of the same name. *)
Definition by_name_of (statuses : list EndpointStatus)
  : gmap string EndpointStatus :=
  fold_left (fun m s => <[name s := s]> m) statuses ∅.

Definition is_in (by_name : gmap string EndpointStatus) (n : string) : bool :=
  match by_name !! n with Some _ => true | None => false end.

Definition _ensure_api_coverage {transfer trade : Type}
    (statuses : list EndpointStatus)
    (transfers : Frame.DataFrame transfer)
    (trades : Frame.DataFrame trade) : outcome :=
  let by_name := by_name_of statuses in
  let missing := List.filter (fun n => negb (is_in by_name n)) core in
  let failed :=
    List.filter
      (fun n =>
         match by_name !! n with
         | Some s => negb (success s)
         | None => false
         end)
      core in
  let no_data := Frame.empty transfers && Frame.empty trades in
  let all_core_failed :=
    (length failed =? length (List.filter (is_in by_name) core))%nat in
  if negb (match missing with [] => true | _ :: _ => false end)
     || (no_data && all_core_failed)
  then RaisesRuntimeError
         {| missing_core_status := missing;
            failed_core_endpoints := failed;
            transfers_rows := length transfers;
            trades_rows := length trades |}
  else Returns.

(** The words of the specification.  An endpoint was attempted when some
    status carries its name; the status that counts for a name is the last
    one reported under it; the guard must abort when a core endpoint was
    never attempted, or both tables are empty and every attempted core
    endpoint failed. *)
Definition attempted (statuses : list EndpointStatus) (n : string) : Prop :=
  exists s, In s statuses /\ name s = n.

Fixpoint last_status (statuses : list EndpointStatus) (n : string)
  : option EndpointStatus :=
  match statuses with
  | [] => None
  | s :: rest =>
      match last_status rest n with
      | Some s' => Some s'
      | None => if String.eqb (name s) n then Some s else None
      end
  end.

Definition endpoint_failed (statuses : list EndpointStatus) (n : string)
  : Prop :=
  exists s, last_status statuses n = Some s /\ success s = false.

Definition coverage_insufficient {transfer trade : Type}
    (statuses : list EndpointStatus)
    (transfers : Frame.DataFrame transfer)
    (trades : Frame.DataFrame trade) : Prop :=
  (exists n, In n core /\ ~ attempted statuses n)
  \/ (transfers = [] /\ trades = []
      /\ forall n, In n core -> attempted statuses n ->
                   endpoint_failed statuses n).

End Main.

(** ** api_client.py: list payloads and offset pagination *)

Module ApiClient.
Import Py.

(** [[x for x in l if isinstance(x, dict)]] *)
Definition dicts_of (l : list pyval) : list dict :=
  omap (fun x => match x with PDict d => Some d | _ => None end) l.

Definition _extract_list_payload (payload : pyval) (data_keys : list string)
  : list dict :=
  match payload with
  | PList l => dicts_of l
  | PDict d =>
      match Transfers.first_some
              (fun key =>
                 match get d key with
                 | PList l => Some (dicts_of l)
                 | _ => None
                 end)
              data_keys with
      | Some rows => rows
      | None => []
      end
  | _ => []
  end.

(** The loop of [paginate_v1].  [request limit offset] is the payload
    [_request_json] returns for these two parameters, [None] when it raises
    (the exception leaves [paginate_v1]); [pages] counts the iterations
    left. *)
Fixpoint paginate_loop (request : nat -> nat -> option pyval)
    (data_keys : list string) (limit pages offset : nat)
  : option (list dict) :=
  match pages with
  | O => Some []
  | S pages' =>
      match request limit offset with
      | None => None
      | Some payload =>
          let batch := _extract_list_payload payload data_keys in
          match batch with
          | [] => Some []
          | _ :: _ =>
              if (length batch <? limit)%nat then Some batch
              else
                match paginate_loop request data_keys limit pages'
                        (offset + length batch) with
                | Some more => Some (batch ++ more)
                | None => None
                end
          end
      end
  end.

(** [x or default] for an optional count: [None] and 0 give the default. *)
Definition or_default (x : option nat) (default : nat) : nat :=
  match x with
  | Some (S n) => S n
  | _ => default
  end.

Definition default_data_keys : list string :=
  ["items"; "data"; "trades"; "logs"].

(** [paginate_v1]; [settings_page_limit] and [settings_max_pages] are the
    two fields of [client.settings]. *)
Definition paginate_v1 (request : nat -> nat -> option pyval)
    (data_keys : list string) (page_limit max_pages : option nat)
    (settings_page_limit settings_max_pages : nat) : option (list dict) :=
  let limit := or_default page_limit settings_page_limit in
  let pages := or_default max_pages settings_max_pages in
  paginate_loop request data_keys limit pages 0.

(** A server that holds the records [data] and answers a request with the
    slice [data[offset : offset + limit]]. *)
Definition slice_server (data : list dict) (limit offset : nat)
  : option pyval :=
  Some (PList (List.map PDict (firstn limit (skipn offset data)))).

End ApiClient.

(** ** extractors/airdrops.py *)

Module Airdrops.
Import Py.

Infix "|||" := py_or (at level 50, left associativity).

Record AirdropRow := {
  timestamp : option Z;
  asset : string;
  quantity : Q;
  event_type : string;
  source : string;
  raw : pyval;
}.

Definition TOKEN_KEYWORDS : list string := ["LIT"; "LIGHTER"].

Section WithRuntime.
Context {R : Runtime}.

Definition _looks_like_token (asset : string) : bool :=
  let upper := upper asset in
  existsb (fun k => contains k upper) TOKEN_KEYWORDS.

(** Lines 24-37 of [fetch_airdrops_and_token_transfers]: the rows read off
    the transfer table. *)
Definition rows_from_transfers (transfers : Frame.DataFrame Transfers.TransferRow)
  : list AirdropRow :=
  omap
    (fun ir =>
       let row := snd ir in
       let asset := Transfers.asset row in
       if _looks_like_token asset
       then Some {| timestamp := Transfers.timestamp row;
                    asset := asset;
                    quantity := Transfers.amount_quote row;
                    event_type :=
                      if String.eqb (Transfers.event_type row) "deposit"
                      then "airdrop" else "token_transfer";
                    source :=
                      if String.eqb (Transfers.source row) "" then "transfers"
                      else Transfers.source row;
                    raw := PDict (Transfers.raw row) |}
       else None)
    transfers.

(** Lines 49-72: the row an explorer log gives, if any. *)
Definition row_from_log (endpoint_name : string) (log : dict)
  : option AirdropRow :=
  let tx_type := str (get log "tx_type" ||| PStr "") in
  let pub := Transfers.pubdata log in
  let found :=
    Transfers.first_some
      (fun key =>
         match get pub key with
         | PDict block =>
             Some (str (get block "asset_index" ||| PStr ""),
                   to_float (get block "accepted_amount" ||| get block "amount") 0)
         | _ => None
         end)
      ["l1_deposit_pubdata_v2"; "l2_transfer_pubdata_v2"] in
  let '(asset, qty) :=
    match found with Some aq => aq | None => ("", 0%Q) end in
  if (contains "airdrop" (lower tx_type) || _looks_like_token asset)
     && negb (Qeq_bool qty 0)
  then Some {| timestamp :=
                 parse_timestamp (get log "time" ||| get log "timestamp");
               asset := if String.eqb asset "" then "TOKEN" else asset;
               quantity := qty;
               event_type :=
                 if contains "airdrop" (lower tx_type) then "airdrop"
                 else "token_transfer";
               source := endpoint_name;
               raw := PDict log |}
  else None.

(** The exception the body of that loop raises on a log, if any: that of
    the [to_float] of line 58, or that of [parse_timestamp] (line 64) when
    the test of line 61 lets the log through. *)
Definition row_from_log_error (log : dict) : option string :=
  let tx_type := str (get log "tx_type" ||| PStr "") in
  let pub := Transfers.pubdata log in
  let block :=
    Transfers.first_some
      (fun key =>
         match get pub key with
         | PDict block => Some block
         | _ => None
         end)
      ["l1_deposit_pubdata_v2"; "l2_transfer_pubdata_v2"] in
  let amount :=
    match block with
    | Some block => get block "accepted_amount" ||| get block "amount"
    | None => PNone
    end in
  let asset :=
    match block with
    | Some block => str (get block "asset_index" ||| PStr "")
    | None => ""
    end in
  match float_error amount with
  | Some e => Some e
  | None =>
      if (contains "airdrop" (lower tx_type) || _looks_like_token asset)
         && negb (Qeq_bool (to_float amount 0) 0)
      then timestamp_error (get log "time" ||| get log "timestamp")
      else None
  end.

(** Agreement on [subset=["timestamp", "asset", "quantity", "event_type",
    "source"]]; every key cell is hashable. *)
Definition same_key (a b : AirdropRow) : bool :=
  Trades.eq_ts (timestamp a) (timestamp b)
  && String.eqb (asset a) (asset b)
  && Qeq_bool (quantity a) (quantity b)
  && String.eqb (event_type a) (event_type b)
  && String.eqb (source a) (source b).

Definition hashable_key (a : AirdropRow) : bool := true.

(** [fetch_airdrops_and_token_transfers] from line 77 on. *)
Definition fetch_airdrops_and_token_transfers (rows : list AirdropRow)
    (out : Frame.DataFrame AirdropRow) : Prop :=
  Frame.merge_rows same_key hashable_key timestamp rows out.

Record TokenSales := {
  qty_sold : Q;
  vwap_sell_price : Q;
  proceeds_quote : Q;
  token_sale_pnl_quote : Q;
}.

Definition no_sales : TokenSales :=
  {| qty_sold := 0; vwap_sell_price := 0; proceeds_quote := 0;
     token_sale_pnl_quote := 0 |}.

(** The mask of [summarize_token_sales]: a sell on a market whose name
    holds "LIT" in upper case. *)
Definition is_token_sale (t : Trades.TradeRow) : bool :=
  contains "LIT" (upper (Trades.market t))
  && String.eqb (Trades.side t) "sell".

Definition summarize_token_sales (trades : Frame.DataFrame Trades.TradeRow)
  : TokenSales :=
  match trades with
  | [] => no_sales
  | _ :: _ =>
      let sales := List.filter is_token_sale (Frame.rows_of trades) in
      match sales with
      | [] => no_sales
      | _ :: _ =>
          let qty := Qsum (List.map Trades.size sales) in
          let proceeds := Qsum (List.map Trades.notional_quote sales) in
          let fees := Qsum (List.map Trades.fee_quote sales) in
          let vwap :=
            if Qeq_bool qty 0 then 0%Q else (proceeds / qty)%Q in
          {| qty_sold := qty;
             vwap_sell_price := vwap;
             proceeds_quote := proceeds;
             token_sale_pnl_quote := (proceeds - fees)%Q |}
      end
  end.

End WithRuntime.

End Airdrops.

(** ** legacy/extractors_tokens.py *)

Module LegacyTokens.
Import Py.

(** The dictionary [token_sell_summary] returns. *)
Record TokenSellSummary := {
  qty_sold : Q;
  vwap : Q;
  proceeds_quote : Q;
}.

Definition no_sales : TokenSellSummary :=
  {| qty_sold := 0; vwap := 0; proceeds_quote := 0 |}.

Section WithRuntime.
Context {R : Runtime}.

(** [Series.str.contains(pattern)], which reads the pattern as a regular
    expression. *)
Definition str_contains (pattern text : string) : bool :=
  if is_literal_pattern pattern then contains pattern text
  else regex_search pattern text.

Definition token_sell_summary (trades : Frame.DataFrame Trades.TradeRow)
    (token_keyword : string) : TokenSellSummary :=
  match trades with
  | [] => no_sales
  | _ :: _ =>
      let m t :=
        str_contains (upper token_keyword) (upper (Trades.market t)) in
      let s t := String.eqb (Trades.side t) "sell" in
      let x := List.filter (fun t => m t && s t) (Frame.rows_of trades) in
      match x with
      | [] => no_sales
      | _ :: _ =>
          let qty := Qsum (List.map Trades.size x) in
          let proceeds := Qsum (List.map Trades.notional_quote x) in
          {| qty_sold := qty;
             vwap := if Qeq_bool qty 0 then 0%Q else (proceeds / qty)%Q;
             proceeds_quote := proceeds |}
      end
  end.

(** [infer_token_transfers]: the rows whose asset is not "USDC" in any
    letter case, relabelled.  The function returns six of the eight
    columns; the row type keeps "fee_quote" and "tx_hash" as well. *)
Definition infer_token_transfers
    (transfers : Frame.DataFrame Transfers.TransferRow)
  : Frame.DataFrame Transfers.TransferRow :=
  Frame.reset_index
    (List.filter
       (fun ir => negb (String.eqb (upper (Transfers.asset (snd ir))) "USDC"))
       transfers).

End WithRuntime.

End LegacyTokens.

(** ** The extractors before the merge: endpoints, rows and statuses *)

Module Collect.
Import Py.

Infix "|||" := py_or (at level 50, left associativity).

(** What a call to the fetch layer ends with: an exception, caught by the
    extractor with its message, or the records. *)
Inductive fetched (A : Type) : Type :=
| Failed (error : string)
| Fetched (records : A).
Arguments Failed {A} error.
Arguments Fetched {A} records.

Definition status (name : string) (success : bool) (records : nat)
    (error : string) : Main.EndpointStatus :=
  {| Main.name := name; Main.success := success;
     Main.records := Z.of_nat records; Main.error := error |}.

(** [explorer_params]: the account index as text, then the L1 address when
    one is configured. *)
Definition explorer_params (account_index : Z) (l1_address : string)
  : list string :=
  str_of_int account_index
  :: (if String.eqb l1_address "" then [] else [l1_address]).

Fixpoint find_key (d : dict) (k : string) : option pyval :=
  match d with
  | [] => None
  | (k', v) :: rest => if String.eqb k k' then Some v else find_key rest k
  end.

(** A loop that turns records into rows one by one inside a [try] block.
    The body does one of three things with a record: it raises, it passes
    the record over, or it appends a row.  The rows appended before an
    exception stay in the list ([rows.extend] of a generator appends them
    one by one, as [rows.append] does), so the loop gives the rows appended
    and the message of the exception that ended it, if one did. *)
Inductive step (B : Type) : Type :=
| Raise (message : string)
| Skip
| Append (row : B).
Arguments Raise {B} message.
Arguments Skip {B}.
Arguments Append {B} row.

Fixpoint run_loop {A B : Type} (body : A -> step B) (records : list A)
  : list B * option string :=
  match records with
  | [] => ([], None)
  | x :: rest =>
      match body x with
      | Raise e => ([], Some e)
      | Skip => run_loop body rest
      | Append row =>
          let '(rows, raised) := run_loop body rest in (row :: rows, raised)
      end
  end.

(** The body that appends [f x] unless the normaliser raises on [x]. *)
Definition normalise {A B : Type} (error : A -> option string) (f : A -> B)
    (x : A) : step B :=
  match error x with
  | Some e => Raise e
  | None => Append (f x)
  end.

(** [{**a, **b}]: the keys of [a] in their order, with the value [b] gives
    them when it has one, then the keys only [b] has. *)
Definition dict_merge (a b : dict) : dict :=
  List.map
    (fun kv =>
       match find_key b (fst kv) with
       | Some v => (fst kv, v)
       | None => kv
       end) a
  ++ List.filter
       (fun kv => match find_key a (fst kv) with
                  | Some _ => false
                  | None => true
                  end) b.

Section WithRuntime.
Context {R : Runtime}.



(** Lines 140-185 of [fetch_trades]: the preferred endpoint.  [outcome] is
    what the cursor loop ends with; the records collected are normalised at
    line 180 inside the same [try] block. *)
Definition trades_endpoint (outcome : fetched (list dict))
    (account_index : Z) (market_map : gmap Z string)
  : list Trades.TradeRow * Main.EndpointStatus :=
  match outcome with
  | Fetched [] => ([], status "trades" false 0 "empty trades response")
  | Fetched collected =>
      let '(rows, raised) :=
        run_loop
          (normalise Trades._normalize_trade_error
             (fun x =>
                Trades._normalize_trade x "trades" account_index market_map))
          collected in
      (rows,
       match raised with
       | None => status "trades" true (length collected) ""
       | Some e => status "trades" false 0 e
       end)
  | Failed e => ([], status "trades" false 0 e)
  end.

(** Lines 187-198: the fallback endpoint. *)
Definition account_trades_endpoint (outcome : fetched (list dict))
    (account_index : Z) (market_map : gmap Z string)
  : list Trades.TradeRow * Main.EndpointStatus :=
  match outcome with
  | Fetched trades =>
      let '(rows, raised) :=
        run_loop
          (normalise Trades._normalize_trade_error
             (fun x =>
                Trades._normalize_trade x "accountTrades" account_index
                  market_map))
          trades in
      (rows,
       match raised with
       | None => status "accountTrades" true (length trades) ""
       | Some e => status "accountTrades" false 0 e
       end)
  | Failed e => ([], status "accountTrades" false 0 e)
  end.

(** Lines 205-219: the explorer backfill for one parameter. *)
Definition explorer_trades (param : string) (outcome : fetched (list dict))
    (account_index : Z) (market_map : gmap Z string)
  : list Trades.TradeRow * Main.EndpointStatus :=
  let endpoint_name := ("explorer.trade_logs[" ++ param ++ "]")%string in
  match outcome with
  | Fetched logs =>
      let '(rows, raised) :=
        run_loop
          (fun log =>
             let pub := Transfers.pubdata log in
             match get pub "trade_pubdata_with_funding"
                   ||| get pub "trade_pubdata" with
             | PDict trade_block =>
                 normalise Trades._normalize_trade_error
                   (fun merged =>
                      Trades._normalize_trade merged endpoint_name
                        account_index market_map)
                   (dict_merge log trade_block)
             | _ => Skip
             end)
          logs in
      (rows,
       match raised with
       | None => status endpoint_name true (length rows) ""
       | Some e => status endpoint_name false 0 e
       end)
  | Failed e => ([], status endpoint_name false 0 e)
  end.

(** The rows and the statuses [fetch_trades] gathers before line 221. *)
Definition trades_rows (trades_outcome account_trades_outcome : fetched (list dict))
    (explorer : string -> fetched (list dict))
    (account_index : Z) (l1_address : string) (market_map : gmap Z string)
  : list Trades.TradeRow * list Main.EndpointStatus :=
  let '(r1, s1) := trades_endpoint trades_outcome account_index market_map in
  let '(r2, s2) :=
    account_trades_endpoint account_trades_outcome account_index market_map in
  let ex :=
    List.map
      (fun param => explorer_trades param (explorer param) account_index
                      market_map)
      (explorer_params account_index l1_address) in
  (r1 ++ r2 ++ List.concat (List.map fst ex), s1 :: s2 :: List.map snd ex).

Definition transfer_endpoints : list (string * string) :=
  [("deposit/history", "deposit"); ("withdraw/history", "withdraw");
   ("l1Metadata", "transfer")].

(** Lines 90-96 of [fetch_transfers]: one of the three history endpoints. *)
Definition transfer_endpoint (endpoint fallback_type : string)
    (outcome : fetched (list dict))
  : list Transfers.TransferRow * Main.EndpointStatus :=
  match outcome with
  | Fetched batch =>
      let '(rows, raised) :=
        run_loop
          (normalise Transfers._normalize_error
             (fun x => Transfers._normalize x endpoint fallback_type))
          batch in
      (rows,
       match raised with
       | None => status endpoint true (length batch) ""
       | Some e => status endpoint false 0 e
       end)
  | Failed e => ([], status endpoint false 0 e)
  end.

Definition transfer_log_types : list string :=
  ["l1deposit"; "l1withdraw"; "deposit"; "withdraw"; "l2transfer"; "transfer"].

(** Lines 102-112: the explorer logs for one parameter. *)
Definition explorer_transfers (param : string) (outcome : fetched (list dict))
  : list Transfers.TransferRow * Main.EndpointStatus :=
  let endpoint_name := ("explorer.logs[" ++ param ++ "]")%string in
  match outcome with
  | Fetched logs =>
      let '(rows, raised) :=
        run_loop
          (fun log =>
             let tx_type := lower (str (get log "tx_type" ||| PStr "")) in
             if str_in tx_type transfer_log_types
             then normalise Transfers._normalize_error
                    (fun x => Transfers._normalize x endpoint_name "transfer")
                    log
             else Skip)
          logs in
      (rows,
       match raised with
       | None => status endpoint_name true (length logs) ""
       | Some e => status endpoint_name false 0 e
       end)
  | Failed e => ([], status endpoint_name false 0 e)
  end.

(** The rows and the statuses [fetch_transfers] gathers before line 114. *)
Definition transfers_rows (paginate : string -> fetched (list dict))
    (explorer : string -> fetched (list dict))
    (account_index : Z) (l1_address : string)
  : list Transfers.TransferRow * list Main.EndpointStatus :=
  let hist :=
    List.map
      (fun ef => transfer_endpoint (fst ef) (snd ef) (paginate (fst ef)))
      transfer_endpoints in
  let ex :=
    List.map (fun param => explorer_transfers param (explorer param))
      (explorer_params account_index l1_address) in
  (List.concat (List.map fst hist) ++ List.concat (List.map fst ex),
   List.map snd hist ++ List.map snd ex).

Definition balance_endpoints : list string :=
  ["account/balanceHistory"; "account/history"; "balance/history"].

(** Lines 42-47 of [fetch_balance_history]: the current snapshot; [now] is
    the clock reading used for a snapshot without a timestamp. *)
Definition account_endpoint (now : Z) (account : fetched dict)
  : list Balances.BalanceRow * Main.EndpointStatus :=
  match account with
  | Fetched a =>
      match Balances._snapshot_row_error a with
      | None => ([Balances._snapshot_row now a "account"],
                 status "account" true 1 "")
      | Some e => ([], status "account" false 0 e)
      end
  | Failed e => ([], status "account" false 0 e)
  end.

(** Lines 57-67: one of the history endpoints. *)
Definition history_endpoint (now : Z) (endpoint : string)
    (outcome : fetched (list dict))
  : list Balances.BalanceRow * Main.EndpointStatus :=
  match outcome with
  | Fetched batch =>
      let '(rows, raised) :=
        run_loop
          (normalise Balances._snapshot_row_error
             (fun raw => Balances._snapshot_row now raw endpoint))
          batch in
      (rows,
       match raised with
       | None => status endpoint true (length rows) ""
       | Some e => status endpoint false 0 e
       end)
  | Failed e => ([], status endpoint false 0 e)
  end.

(** The rows and the statuses [fetch_balance_history] gathers before
    line 69. *)
Definition balances_rows (now : Z) (account : fetched dict)
    (paginate : string -> fetched (list dict))
  : list Balances.BalanceRow * list Main.EndpointStatus :=
  let '(r0, s0) := account_endpoint now account in
  let hist :=
    List.map (fun endpoint => history_endpoint now endpoint (paginate endpoint))
      balance_endpoints in
  (r0 ++ List.concat (List.map fst hist), s0 :: List.map snd hist).

(** Lines 44-75 of [fetch_airdrops_and_token_transfers]: the explorer logs
    for one parameter. *)
Definition explorer_airdrops (param : string) (outcome : fetched (list dict))
  : list Airdrops.AirdropRow * Main.EndpointStatus :=
  let endpoint_name := ("explorer.airdrop[" ++ param ++ "]")%string in
  match outcome with
  | Fetched logs =>
      let '(rows, raised) :=
        run_loop
          (fun log =>
             match Airdrops.row_from_log_error log with
             | Some e => Raise e
             | None =>
                 match Airdrops.row_from_log endpoint_name log with
                 | Some row => Append row
                 | None => Skip
                 end
             end)
          logs in
      (rows,
       match raised with
       | None => status endpoint_name true (length rows) ""
       | Some e => status endpoint_name false 0 e
       end)
  | Failed e => ([], status endpoint_name false 0 e)
  end.

(** The rows and the statuses [fetch_airdrops_and_token_transfers] gathers
    before line 77. *)
Definition airdrops_rows (transfers : Frame.DataFrame Transfers.TransferRow)
    (explorer : string -> fetched (list dict))
    (account_index : Z) (l1_address : string)
  : list Airdrops.AirdropRow * list Main.EndpointStatus :=
  let ex :=
    List.map (fun param => explorer_airdrops param (explorer param))
      (explorer_params account_index l1_address) in
  (Airdrops.rows_from_transfers transfers ++ List.concat (List.map fst ex),
   List.map snd ex).

(** What a status says about the rows of its endpoint: their number when it
    reports success, 0 when it reports a failure. *)
Definition counts_rows {B : Type} (p : list B * Main.EndpointStatus) : Prop :=
  if Main.success (snd p)
  then Main.records (snd p) = Z.of_nat (length (fst p))
  else Main.records (snd p) = 0%Z.

(** The values the column "source" can take in the rows [fetch_trades]
    gathers, and in those [fetch_transfers] gathers. *)
Definition trade_sources (account_index : Z) (l1_address : string)
  : list string :=
  "trades" :: "accountTrades"
  :: List.map (fun param => ("explorer.trade_logs[" ++ param ++ "]")%string)
       (explorer_params account_index l1_address).

Definition transfer_sources (account_index : Z) (l1_address : string)
  : list string :=
  List.map fst transfer_endpoints
  ++ List.map (fun param => ("explorer.logs[" ++ param ++ "]")%string)
       (explorer_params account_index l1_address).

(** [client.endpoint_statuses] when [main] reaches the coverage guard: the
    statuses of the four extractors in the order of the calls. *)
Definition endpoint_statuses
    (st_transfers st_trades st_balances st_airdrops : list Main.EndpointStatus)
  : list Main.EndpointStatus :=
  st_transfers ++ st_trades ++ st_balances ++ st_airdrops.

End WithRuntime.

End Collect.

(** ** transform.py: the inferred initial deposit and its verification *)

Module Deposits.
Import Py.

(** The dictionary [info] of [infer_initial_deposit_if_missing];
    [earliest_timestamp] is kept as the instant that [utc_iso] prints. *)
Record InferenceInfo := {
  inferred_initial_deposit : Q;
  injected_inferred_deposit : bool;
  earliest_equity : Q;
  reconciliation_estimate : Q;
  exposure_proxy : Q;
  ending_equity : Q;
  realized_pnl : Q;
  unrealized_pnl : Q;
  fees_total : Q;
  funding_total : Q;
  total_deposits : Q;
  total_withdrawals : Q;
  net_deposits : Q;
  earliest_timestamp : option Z;
}.

(** [transfers.loc[transfers["event_type"] == kind, "amount_quote"].sum()] *)
Definition amount_sum (kind : string)
    (transfers : Frame.DataFrame Transfers.TransferRow) : Q :=
  Qsum (List.map Transfers.amount_quote
          (List.filter (fun r => String.eqb (Transfers.event_type r) kind)
             (Frame.rows_of transfers))).

Definition min_opt (a b : option Z) : option Z :=
  match a, b with
  | Some x, Some y => Some (Z.min x y)
  | Some x, None => Some x
  | None, _ => b
  end.

(** [ts.dropna().min()] of a timestamp column, [None] when it holds no
    value. *)
Definition column_min (col : list (option Z)) : option Z :=
  fold_left min_opt col None.

(** The earliest timestamp of the three tables. *)
Definition earliest_of (transfers : Frame.DataFrame Transfers.TransferRow)
    (trades : Frame.DataFrame Trades.TradeRow)
    (balances : Frame.DataFrame Balances.BalanceRow) : option Z :=
  min_opt
    (min_opt
       (column_min (List.map Transfers.timestamp (Frame.rows_of transfers)))
       (column_min (List.map Trades.timestamp (Frame.rows_of trades))))
    (column_min (List.map Balances.timestamp (Frame.rows_of balances))).

(** [max(candidate_estimates) if candidate_estimates else 0.0] over the
    estimates that are positive. *)
Definition largest_positive (estimates : list Q) : Q :=
  match List.filter (Qltb 0) estimates with
  | [] => 0%Q
  | first :: rest => fold_left Qmax2 rest first
  end.

Definition inferred_row (inferred_time : Z) (inferred_initial earliest_equity
    recon_estimate exposure_proxy : Q) : Transfers.TransferRow :=
  {| Transfers.timestamp := Some inferred_time;
     Transfers.event_type := "deposit";
     Transfers.asset := "USDC";
     Transfers.amount_quote := inferred_initial;
     Transfers.fee_quote := 0;
     Transfers.tx_hash := PStr "inferred_initial_deposit";
     Transfers.source := "inference";
     Transfers.raw :=
       [("reason",
         PStr "deposit history missing; inferred from balance/trade reconciliation");
        ("earliest_equity", PFloat earliest_equity);
        ("reconciliation_estimate", PFloat recon_estimate);
        ("exposure_proxy", PFloat exposure_proxy)] |}.

(** Lines 118-159: what is read off the tables; [t] and [b] are the trade
    and balance rows as [sort_values("timestamp")] leaves them.  The
    totals are those of the transfer table as given, and nothing is
    injected yet. *)
Definition estimates (transfers : Frame.DataFrame Transfers.TransferRow)
    (trades : Frame.DataFrame Trades.TradeRow)
    (balances : Frame.DataFrame Balances.BalanceRow)
    (t : list Trades.TradeRow) (b : list Balances.BalanceRow)
  : InferenceInfo :=
  let deposits := amount_sum "deposit" transfers in
  let withdrawals := amount_sum "withdraw" transfers in
  let last_balance := List.last (List.map Some b) None in
  let first_balance := List.hd_error b in
  let of_row (f : Balances.BalanceRow -> Q) (r : option Balances.BalanceRow) :=
    match r with Some x => f x | None => 0%Q end in
  let ending_equity := of_row Balances.total_asset_value_quote last_balance in
  let earliest_equity := of_row Balances.total_asset_value_quote first_balance in
  let realized := of_row Balances.realized_pnl_quote last_balance in
  let unrealized := of_row Balances.unrealized_pnl_quote last_balance in
  let fee_total := Qsum (List.map Trades.fee_quote (Frame.rows_of trades)) in
  let funding_total :=
    Qsum (List.map Trades.funding_quote (Frame.rows_of trades)) in
  let exposure_proxy := Transform.exposure_proxy t in
  let net_deposits := (deposits - withdrawals)%Q in
  let net_pnl_components :=
    (realized + unrealized + funding_total - fee_total)%Q in
  let recon_estimate :=
    (ending_equity - net_deposits - net_pnl_components)%Q in
  let inferred_initial :=
    largest_positive [earliest_equity; recon_estimate; exposure_proxy] in
  {| inferred_initial_deposit := inferred_initial;
     injected_inferred_deposit := false;
     earliest_equity := earliest_equity;
     reconciliation_estimate := recon_estimate;
     exposure_proxy := exposure_proxy;
     ending_equity := ending_equity;
     realized_pnl := realized;
     unrealized_pnl := unrealized;
     fees_total := fee_total;
     funding_total := funding_total;
     total_deposits := deposits;
     total_withdrawals := withdrawals;
     net_deposits := net_deposits;
     earliest_timestamp := earliest_of transfers trades balances |}.

(** Lines 162-163: the row to inject, if the condition holds, dated
    [timedelta(seconds=1)], that is 1000000 microseconds, before the
    earliest timestamp. *)
Definition injection (info : InferenceInfo) : option Transfers.TransferRow :=
  match earliest_timestamp info with
  | Some earliest_ts =>
      if Qle_bool (total_deposits info) 0
         && Qltb 0 (inferred_initial_deposit info)
      then Some (inferred_row (earliest_ts - 1000000)
                   (inferred_initial_deposit info) (earliest_equity info)
                   (reconciliation_estimate info) (exposure_proxy info))
      else None
  | None => None
  end.

(** Lines 179-184: the info once the row stands in [transfers']. *)
Definition after_injection (info : InferenceInfo)
    (transfers' : Frame.DataFrame Transfers.TransferRow) : InferenceInfo :=
  let deposits := amount_sum "deposit" transfers' in
  let withdrawals := amount_sum "withdraw" transfers' in
  {| inferred_initial_deposit := inferred_initial_deposit info;
     injected_inferred_deposit := true;
     earliest_equity := earliest_equity info;
     reconciliation_estimate := reconciliation_estimate info;
     exposure_proxy := exposure_proxy info;
     ending_equity := ending_equity info;
     realized_pnl := realized_pnl info;
     unrealized_pnl := unrealized_pnl info;
     fees_total := fees_total info;
     funding_total := funding_total info;
     total_deposits := deposits;
     total_withdrawals := withdrawals;
     net_deposits := (deposits - withdrawals)%Q;
     earliest_timestamp := earliest_timestamp info |}.

(** [infer_initial_deposit_if_missing]: [out] is a pair (transfers, info)
    the function may return. *)
Definition infer_initial_deposit_if_missing
    (transfers : Frame.DataFrame Transfers.TransferRow)
    (trades : Frame.DataFrame Trades.TradeRow)
    (balances : Frame.DataFrame Balances.BalanceRow)
    (out : Frame.DataFrame Transfers.TransferRow * InferenceInfo) : Prop :=
  exists t b,
    Frame.sort_values Trades.timestamp trades t
    /\ Frame.sort_values Balances.timestamp balances b
    /\ let info :=
         estimates transfers trades balances (Frame.rows_of t)
           (Frame.rows_of b) in
       match injection info with
       | None => out = (transfers, info)
       | Some row =>
           exists sorted,
             Frame.sort_values Transfers.timestamp
               (Frame.of_rows (row :: Frame.rows_of transfers)) sorted
             /\ out = (Frame.reset_index sorted,
                       after_injection info (Frame.reset_index sorted))
       end.

(** One pair the function may return: the one the stable arrangement of
    equal timestamps gives. *)
Definition one_outcome
    (transfers : Frame.DataFrame Transfers.TransferRow)
    (trades : Frame.DataFrame Trades.TradeRow)
    (balances : Frame.DataFrame Balances.BalanceRow)
  : Frame.DataFrame Transfers.TransferRow * InferenceInfo :=
  let info :=
    estimates transfers trades balances
      (Frame.rows_of (Frame.stable_sort Trades.timestamp trades))
      (Frame.rows_of (Frame.stable_sort Balances.timestamp balances)) in
  match injection info with
  | None => (transfers, info)
  | Some row =>
      let sorted :=
        Frame.reset_index
          (Frame.stable_sort Transfers.timestamp
             (Frame.of_rows (row :: Frame.rows_of transfers))) in
      (sorted, after_injection info sorted)
  end.

Record DepositVerification := {
  dv_total_deposits : Q;
  dv_total_withdrawals : Q;
  dv_net_deposits : Q;
  dv_earliest_timestamp : option Z;
  has_approximately_600 : bool;
  approximate_600_band : Q * Q;
}.

Definition deposit_verification_summary
    (transfers : Frame.DataFrame Transfers.TransferRow)
    (trades : Frame.DataFrame Trades.TradeRow)
    (balances : Frame.DataFrame Balances.BalanceRow)
    (approx_target tolerance : Q) : DepositVerification :=
  let deposits := amount_sum "deposit" transfers in
  let withdrawals := amount_sum "withdraw" transfers in
  let low := (approx_target - tolerance)%Q in
  let high := (approx_target + tolerance)%Q in
  {| dv_total_deposits := deposits;
     dv_total_withdrawals := withdrawals;
     dv_net_deposits := (deposits - withdrawals)%Q;
     dv_earliest_timestamp := earliest_of transfers trades balances;
     has_approximately_600 := Qle_bool low deposits && Qle_bool deposits high;
     approximate_600_band := (low, high) |}.

(** [main._build_profit_snapshot] *)
Record ProfitSnapshot := {
  deposits_quote : Q;
  withdrawals_quote : Q;
  net_deposits_quote : Q;
  realized_pnl_quote : Q;
  unrealized_pnl_quote : Q;
  fees_quote : Q;
  funding_quote : Q;
  airdrop_tokens_received : Q;
  token_sold_qty : Q;
  token_sell_vwap : Q;
  token_sell_proceeds_quote : Q;
  token_sell_pnl_quote : Q;
  ending_equity_quote : Q;
}.

Section WithRuntime.
Context {R : Py.Runtime}.

Definition _build_profit_snapshot
    (trades : Frame.DataFrame Trades.TradeRow)
    (balances : Frame.DataFrame Balances.BalanceRow)
    (transfers : Frame.DataFrame Transfers.TransferRow)
    (airdrops : Frame.DataFrame Airdrops.AirdropRow) : ProfitSnapshot :=
  let deposits := amount_sum "deposit" transfers in
  let withdrawals := amount_sum "withdraw" transfers in
  let last_balance :=
    List.last (List.map Some (Frame.rows_of balances)) None in
  let of_row (f : Balances.BalanceRow -> Q) :=
    match last_balance with Some x => f x | None => 0%Q end in
  let token_sales := Airdrops.summarize_token_sales trades in
  {| deposits_quote := deposits;
     withdrawals_quote := withdrawals;
     net_deposits_quote := (deposits - withdrawals)%Q;
     realized_pnl_quote :=
       Qsum (List.map Trades.realized_pnl (Frame.rows_of trades));
     unrealized_pnl_quote := of_row Balances.unrealized_pnl_quote;
     fees_quote := Qsum (List.map Trades.fee_quote (Frame.rows_of trades));
     funding_quote :=
       Qsum (List.map Trades.funding_quote (Frame.rows_of trades));
     airdrop_tokens_received :=
       Qsum (List.map Airdrops.quantity
               (List.filter
                  (fun r => String.eqb (Airdrops.event_type r) "airdrop")
                  (Frame.rows_of airdrops)));
     token_sold_qty := Airdrops.qty_sold token_sales;
     token_sell_vwap := Airdrops.vwap_sell_price token_sales;
     token_sell_proceeds_quote := Airdrops.proceeds_quote token_sales;
     token_sell_pnl_quote := Airdrops.token_sale_pnl_quote token_sales;
     ending_equity_quote := of_row Balances.total_asset_value_quote |}.

End WithRuntime.

End Deposits.

(** ** Concrete inputs for the evaluations *)

Module Samples.
Import Py.

(** The runtime of the evaluations.  The records evaluated below hold
    integers, booleans, [None] and short ASCII keywords only: no text is
    converted to a number, no timestamp text is parsed and no pattern with
    a special character is searched on them, and a float is formatted only
    inside the caveat that reports the proxy, whose text no evaluation
    reads.  The evaluations therefore do not depend on the choice made
    here. *)
Definition runtime : Runtime :=
  {| float_of_str := fun _ => None;
     int_of_str := fun _ => None;
     str_of_float := fun _ => "";
     format_4f := fun _ => "";
     parse_timestamp := fun _ => None;
     timestamp_error := fun _ => None;
     regex_search := fun _ _ => false;
     unicode_lower := fun s => s;
     unicode_upper := fun s => s |}.

(** A unified-table row that holds nothing but its signed quote value. *)
Definition signed_row (v : Q) : Reports.UnifiedRow :=
  {| Reports.event_group := Some "trade";
     Reports.event_subtype := Some "trade";
     Reports.quote_value := None;
     Reports.signed_quote_value := Some v;
     Reports.fee_usd := None;
     Reports.funding_usd := None;
     Reports.quantity := None;
     Reports.is_airdrop := None;
     Reports.pair := None;
     Reports.kind := None;
     Reports.time_text := None |}.

(** A deposit of [v] in the unified table. *)
Definition deposit_row (v : Q) : Reports.UnifiedRow :=
  {| Reports.event_group := Some "transfer";
     Reports.event_subtype := Some "deposit";
     Reports.quote_value := Some v;
     Reports.signed_quote_value := Some 0%Q;
     Reports.fee_usd := Some 0%Q;
     Reports.funding_usd := Some 0%Q;
     Reports.quantity := Some v;
     Reports.is_airdrop := Some false;
     Reports.pair := None;
     Reports.kind := Some "입금";
     Reports.time_text := Some "2023-12-31T00:00:00Z" |}.

(** Two inflows, 5 and then 3: the running sum is 5, 8. *)
Definition inflows : list Reports.UnifiedRow := [signed_row 5; signed_row 3].

(** An outflow of 30 followed by an inflow of 10: the running sum is
    -30, -20. *)
Definition drawdown : list Reports.UnifiedRow :=
  [signed_row (-30); signed_row 10].

(** One deposit of 1000 and an account that ends with nothing. *)
Definition lost_deposit : list Reports.UnifiedRow := [deposit_row 1000].
Definition empty_account : dict := [("ending_equity", PInt 0)].

(** The same deposit with a realised profit of 50 and 1100 at the end. *)
Definition kept_deposit : list Reports.UnifiedRow := [deposit_row 1000].
Definition grown_account : dict :=
  [("ending_equity", PInt 1100); ("realized_pnl", PInt 50)].

(** A normalised trade of size 1 at price 100 with the given side and
    time. *)
Definition trade (side : string) (t : Z) : Trades.TradeRow :=
  {| Trades.timestamp := Some t;
     Trades.side := side;
     Trades.market := "ETH";
     Trades.price := 100;
     Trades.size := 1;
     Trades.notional_quote := 100;
     Trades.fee_quote := 0;
     Trades.funding_quote := 0;
     Trades.realized_pnl := 0;
     Trades.liquidation := false;
     Trades.tx_hash := PNone;
     Trades.source := "trades";
     Trades.raw := [] |}.

Definition buy_at (t : Z) : Trades.TradeRow := trade "buy" t.
Definition sell_at (t : Z) : Trades.TradeRow := trade "sell" t.

(** A fill reported through the taker/maker fields: the taker, account 7,
    sold; the maker is account [maker]; size 1 at price 100, taker fee
    5 bps, maker fee 2 bps, no explicit side and no explicit fee. *)
Definition maker_fill (maker : Z) : dict :=
  [("is_taker_ask", PBool true);
   ("taker_account_index", PInt 7);
   ("maker_account_index", PInt maker);
   ("size", PInt 1);
   ("price", PInt 100);
   ("taker_fee", PInt 5);
   ("maker_fee", PInt 2)].

(** A sale by the taker, account 7, reported with a signed notional of
    -100, taker fee 5 bps, and no explicit fee. *)
Definition signed_notional_fill : dict :=
  [("side", PStr "sell");
   ("taker_account_index", PInt 7);
   ("notional", PInt (-100));
   ("taker_fee", PInt 5);
   ("maker_fee", PInt 2)].

(** A withdrawal the API reports with a signed amount. *)
Definition signed_withdrawal : dict :=
  [("type", PStr "withdraw"); ("amount", PInt (-5)); ("asset", PStr "USDC")].

(** Eighteen fills of the same instant, told apart by their sizes
    0, 1, ..., 17 and gathered in that order. *)
Definition tied_trade (k : nat) : Trades.TradeRow :=
  {| Trades.timestamp := Some 1%Z;
     Trades.side := "buy";
     Trades.market := "ETH";
     Trades.price := 100;
     Trades.size := inject_Z (Z.of_nat k);
     Trades.notional_quote := 100 * inject_Z (Z.of_nat k);
     Trades.fee_quote := 0;
     Trades.funding_quote := 0;
     Trades.realized_pnl := 0;
     Trades.liquidation := false;
     Trades.tx_hash := PNone;
     Trades.source := "trades";
     Trades.raw := [] |}.

Definition tied_trades : list Trades.TradeRow :=
  List.map tied_trade (seq 0 18).

(** The order in which NumPy's quicksort leaves eighteen equal keys: a run
    of more than sixteen elements is partitioned around its middle element,
    and the partition exchanges the elements 1..15 pairwise from both ends;
    the two halves are then short enough for the insertion sort, which
    moves nothing. *)
Definition quicksort_order : list nat := 0%nat :: rev (seq 1 15) ++ [16; 17]%nat.

Definition tied_trades_sorted : Frame.DataFrame Trades.TradeRow :=
  Frame.of_rows (List.map tied_trade quicksort_order).

(** A later trade gathered before two earlier ones. *)
Definition unordered_trades : list Trades.TradeRow :=
  [sell_at 9; buy_at 1; sell_at 4].

Definition ordered_trades : Frame.DataFrame Trades.TradeRow :=
  [(0%nat, buy_at 1); (1%nat, sell_at 4); (2%nat, sell_at 9)].

(** The boundary case of the coverage guard: "trades" succeeded with two
    records, the three transfer endpoints were attempted and failed. *)
Definition partial_statuses : list Main.EndpointStatus :=
  [ {| Main.name := "deposit/history"; Main.success := false;
       Main.records := 0; Main.error := "HTTP 401" |};
    {| Main.name := "withdraw/history"; Main.success := false;
       Main.records := 0; Main.error := "HTTP 401" |};
    {| Main.name := "l1Metadata"; Main.success := false;
       Main.records := 0; Main.error := "HTTP 401" |};
    {| Main.name := "trades"; Main.success := true;
       Main.records := 2; Main.error := "" |} ].

End Samples.

(** ** Concrete inputs for the further properties *)

Module Cases.
Import Py.

(** A fill with an explicit side in upper case. *)
Definition bid_fill : dict := [("side", PStr "BID"); ("size", PInt 2)].

(** A fill made by account 5 against the taker 7, who bought; size -2 at
    price 50, carrying its own symbol and the market id 3. *)
Definition maker_buy_fill : dict :=
  [("is_taker_ask", PBool false);
   ("taker_account_index", PInt 7);
   ("maker_account_index", PInt 5);
   ("size", PInt (-2));
   ("price", PInt 50);
   ("symbol", PStr "FOO");
   ("market_id", PInt 3)].

Definition symbols : gmap Z string := <[3%Z := "ETH"]> ∅.

(** A fill that names market 0 by "market_index", and a symbol map that
    lists market 0. *)
Definition zero_index_fill : dict :=
  [("market_index", PInt 0); ("size", PInt 1); ("price", PInt 100)].

Definition zero_listed : gmap Z string := <[0%Z := "BTC"]> ∅.

(** A deposit of LIT tokens, as the explorer reports it. *)
Definition token_deposit : dict :=
  [("tx_type", PStr "L1Deposit"); ("amount", PInt 0);
   ("accepted_amount", PInt 40); ("asset", PStr "lit")].

(** A transfer record whose amount is 0 under both keys it carries. *)
Definition zero_transfer : dict := [("amount", PInt 0); ("value", PInt 0)].

(** An account snapshot worth 10 that carries no timestamp, and the row it
    becomes when the clock reads 1000. *)
Definition account_snapshot : dict := [("total_asset_value", PInt 10)].

Definition account_row : Balances.BalanceRow :=
  Balances._snapshot_row (R := Samples.runtime) 1000 account_snapshot "account".

(** The balance table of an account for which only the snapshot is known,
    and what the deposit inference returns for it when no transfer and no
    trade was found. *)
Definition account_table : Frame.DataFrame Balances.BalanceRow :=
  [(0%nat, account_row)].

Definition recovered
  : Frame.DataFrame Transfers.TransferRow * Deposits.InferenceInfo :=
  Deposits.one_outcome [] [] account_table.

(** A sale of 4 LIT for 20 with a fee of 1, in a table with a purchase on
    another market. *)
Definition lit_sale : Trades.TradeRow :=
  {| Trades.timestamp := Some 2%Z;
     Trades.side := "sell";
     Trades.market := "lit-usdc";
     Trades.price := 5;
     Trades.size := 4;
     Trades.notional_quote := 20;
     Trades.fee_quote := 1;
     Trades.funding_quote := 0;
     Trades.realized_pnl := 0;
     Trades.liquidation := false;
     Trades.tx_hash := PNone;
     Trades.source := "trades";
     Trades.raw := [] |}.

Definition token_trades : Frame.DataFrame Trades.TradeRow :=
  [(0%nat, Samples.buy_at 1); (1%nat, lit_sale)].

(** The row the fill made by account 5 becomes on the endpoint "trades". *)
Definition one_fill : Trades.TradeRow :=
  Trades._normalize_trade (R := Samples.runtime) maker_buy_fill "trades" 5
    symbols.

(** A sale of 49 LIT for 1 in the unified table. *)
Definition unified_sale : Reports.UnifiedRow :=
  {| Reports.event_group := Some "trade";
     Reports.event_subtype := Some "trade";
     Reports.quote_value := Some 1%Q;
     Reports.signed_quote_value := Some 1%Q;
     Reports.fee_usd := Some 0%Q;
     Reports.funding_usd := Some 0%Q;
     Reports.quantity := Some 49%Q;
     Reports.is_airdrop := Some false;
     Reports.pair := Some "Lit-USDC";
     Reports.kind := Some "매도";
     Reports.time_text := Some "2024-01-01T00:00:00Z" |}.

(** A fill whose size is an integer too large for a float. *)
Definition overflowing_fill : dict :=
  [("side", PStr "buy"); ("size", PInt (2 ^ 1024)); ("price", PInt 1)].

(** The history reconstructed from the three sample trades and the
    recovered transfer table, at the rate 1 and under the label "DEX". *)
Definition history : Frame.DataFrame Transform.OutputRow :=
  Frame.reset_index
    (Frame.stable_sort Transform.timestamp
       (Frame.of_rows
          (Transform._build_trade_rows Samples.ordered_trades 1 "DEX"
           ++ Transform._build_transfer_rows (fst recovered) 1 "DEX"))).


(** Five records on a server, fetched two at a time. *)
Definition five_records : list dict :=
  List.map (fun i => [("id", PInt i)]) [1; 2; 3; 4; 5]%Z.

(** An API on which every history endpoint answers with an error. *)
Definition no_history (endpoint : string) : Collect.fetched (list dict) :=
  Collect.Failed "HTTP 401".

End Cases.

(** * Properties *)

(** ** Comparisons and sums on [Q] *)

Lemma Qltb_lt (x y : Q) : Py.Qltb x y = true <-> (x < y)%Q.
Proof.
  unfold Py.Qltb. rewrite negb_true_iff. split.
  - intros H. apply Qnot_le_lt. intros Hle.
    apply Qle_bool_iff in Hle. congruence.
  - intros H. destruct (Qle_bool y x) eqn:E; [|reflexivity].
    apply Qle_bool_iff in E. lra.
Qed.

Lemma Qltb_ge (x y : Q) : Py.Qltb x y = false <-> (y <= x)%Q.
Proof.
  unfold Py.Qltb. rewrite negb_false_iff. apply Qle_bool_iff.
Qed.

Lemma Qltb_irrefl (x : Q) : Py.Qltb x x = false.
Proof. apply Qltb_ge. lra. Qed.

Lemma Qmin2_spec (x y : Q) :
  (Py.Qmin2 x y <= x /\ Py.Qmin2 x y <= y
   /\ (Py.Qmin2 x y = x \/ Py.Qmin2 x y = y))%Q.
Proof.
  unfold Py.Qmin2. destruct (Qle_bool x y) eqn:E.
  - apply Qle_bool_iff in E. repeat split; auto; lra.
  - assert (~ (x <= y)%Q) by (rewrite <- Qle_bool_iff; congruence).
    repeat split; auto; lra.
Qed.

(** [Series.min()] is a lower bound of the series and one of its values. *)
Lemma series_min_lower (rest : list Q) (first : Q) :
  (Py.series_min first rest <= first)%Q
  /\ Forall (fun x => (Py.series_min first rest <= x)%Q) rest.
Proof.
  unfold Py.series_min. revert first.
  induction rest as [|x rest IH]; intros first; simpl.
  - split; [lra | constructor].
  - destruct (IH (Py.Qmin2 first x)) as [H1 H2].
    destruct (Qmin2_spec first x) as (Ha & Hb & _).
    split; [lra|]. constructor; [lra | exact H2].
Qed.

Lemma series_min_elem (rest : list Q) (first : Q) :
  In (Py.series_min first rest) (first :: rest).
Proof.
  unfold Py.series_min. revert first.
  induction rest as [|x rest IH]; intros first; simpl.
  - now left.
  - destruct (IH (Py.Qmin2 first x)) as [H | H].
    + destruct (Qmin2_spec first x) as (_ & _ & [E | E]).
      * left. congruence.
      * right. left. congruence.
    + right. right. exact H.
Qed.

(** ** The exposure proxy *)

Lemma Qmax2_zero_of_nonpos (x : Q) : (x <= 0)%Q -> (Py.Qmax2 0 x == 0)%Q.
Proof.
  intros H. unfold Py.Qmax2. destruct (Qle_bool 0 x) eqn:E.
  - apply Qle_bool_iff in E. lra.
  - reflexivity.
Qed.

Lemma Qmax2_of_nonneg (x : Q) : (0 <= x)%Q -> Py.Qmax2 0 x = x.
Proof.
  intros H. unfold Py.Qmax2. apply Qle_bool_iff in H. now rewrite H.
Qed.

(** The formula of the specification gives 0 when the running sum never
    becomes negative. *)
Lemma exposure_proxy_spec_zero (signed : list Q) :
  Forall (fun x => (0 <= x)%Q) (Py.cumsum signed) ->
  (exposure_proxy_spec signed == 0)%Q.
Proof.
  unfold exposure_proxy_spec. intros H.
  destruct (Py.cumsum signed) as [|first rest]; [reflexivity|].
  apply Qmax2_zero_of_nonpos.
  pose proof (series_min_elem rest first) as Hin.
  rewrite List.Forall_forall in H. specialize (H _ Hin). lra.
Qed.

(** [transform.py] computes the formula of the specification on the signed
    cash flow of the trades. *)
Lemma transform_exposure_proxy_is_spec (t : list Trades.TradeRow) :
  Transform.exposure_proxy t
  = exposure_proxy_spec (List.map Transform.signed_value t).
Proof. reflexivity. Qed.

Lemma transform_exposure_proxy_zero (t : list Trades.TradeRow) :
  Forall (fun x => (0 <= x)%Q) (Py.cumsum (List.map Transform.signed_value t)) ->
  (Transform.exposure_proxy t == 0)%Q.
Proof.
  rewrite transform_exposure_proxy_is_spec. apply exposure_proxy_spec_zero.
Qed.

(** [legacy/reports.py] takes the absolute value of the minimum instead: it
    agrees with the formula when the running sum reaches 0 or below ... *)
Lemma max_capital_proxy_agrees_below_zero (df : list Reports.UnifiedRow) :
  Exists (fun x => (x <= 0)%Q) (Py.cumsum (Reports.signed_column df)) ->
  (Reports.max_capital_proxy df == exposure_proxy_spec (Reports.signed_column df))%Q.
Proof.
  unfold Reports.max_capital_proxy, exposure_proxy_spec, Reports.signed_column.
  intros H.
  destruct (Py.cumsum _) as [|first rest]; [reflexivity|].
  destruct (series_min_lower rest first) as [H1 H2].
  assert (Hle : (Py.series_min first rest <= 0)%Q).
  { rewrite List.Exists_exists in H. destruct H as (x & Hx & Hx0).
    destruct Hx as [<- | Hx]; [lra|].
    rewrite List.Forall_forall in H2. specialize (H2 _ Hx). lra. }
  rewrite Qmax2_of_nonneg by lra.
  rewrite Qabs_neg by exact Hle. reflexivity.
Qed.

(** ... and returns the minimum itself when the running sum stays
    positive. *)
Lemma max_capital_proxy_above_zero (df : list Reports.UnifiedRow) first rest :
  Py.cumsum (Reports.signed_column df) = first :: rest ->
  Forall (fun x => (0 <= x)%Q) (first :: rest) ->
  (Reports.max_capital_proxy df == Py.series_min first rest)%Q.
Proof.
  unfold Reports.max_capital_proxy, Reports.signed_column. intros -> H.
  pose proof (series_min_elem rest first) as Hin.
  rewrite List.Forall_forall in H. specialize (H _ Hin).
  now rewrite Qabs_pos.
Qed.

(** ** Initial-capital inference ([legacy/reports.py]) *)

Section Inference.
Context {R : Py.Runtime}.
Import Reports.

(** The two ways [infer_initial_capital] can end: the reconciliation estimate
    survives, or the proxy replaces it. *)
Lemma infer_initial_capital_outcome (df : list UnifiedRow) (e d p : Q) :
  let r := infer_initial_capital df e d p in
  (method r = "reconciliation" /\ confidence r = "medium"
   /\ estimated_beginning_equity r = (e - d - p)%Q)
  \/ (method r = "max_exposure_proxy" /\ confidence r = "low"
      /\ estimated_beginning_equity r = max_capital_proxy df).
Proof.
  unfold infer_initial_capital.
  destruct (Py.Qltb (e - d - p) 0); destruct (Qeq_bool d 0); simpl;
    try destruct (Py.Qltb _ (max_capital_proxy df)); simpl; auto.
Qed.

(** C10. The confidence of the inference is "low" exactly when its method is
    "max_exposure_proxy" and "medium" exactly when its method is
    "reconciliation"; these are the only two methods, and the confidence
    "high" is never returned. *)
Theorem confidence_follows_method (df : list UnifiedRow) (e d p : Q) :
  let r := infer_initial_capital df e d p in
  (confidence r = "low" <-> method r = "max_exposure_proxy")
  /\ (confidence r = "medium" <-> method r = "reconciliation")
  /\ (method r = "reconciliation" \/ method r = "max_exposure_proxy")
  /\ confidence r <> "high".
Proof.
  intros r.
  destruct (infer_initial_capital_outcome df e d p)
    as [(Hm & Hc & _) | (Hm & Hc & _)];
    fold r in Hm, Hc; rewrite Hm, Hc; repeat split; auto;
    intros; discriminate.
Qed.

(** When the reconciliation estimate [e - d - p] is negative, the result is
    the proxy of line 66 (so 0 when that proxy is 0), with method
    "max_exposure_proxy", confidence "low", and a caveat list that opens
    with the note on the replacement.  Whenever the running sum reaches 0 or
    below, that proxy is the one the specification defines. *)
Theorem negative_reconciliation_falls_back (df : list UnifiedRow) (e d p : Q) :
  (e - d - p < 0)%Q ->
  let r := infer_initial_capital df e d p in
  estimated_beginning_equity r = max_capital_proxy df
  /\ (max_capital_proxy df == 0 -> estimated_beginning_equity r == 0)%Q
  /\ method r = "max_exposure_proxy"
  /\ confidence r = "low"
  /\ caveats r <> []
  /\ hd_error (caveats r)
     = Some "Reconciliation produced negative beginning equity; replaced with max-exposure proxy."
  /\ (Exists (fun x => (x <= 0)%Q) (Py.cumsum (signed_column df)) ->
      (estimated_beginning_equity r
       == exposure_proxy_spec (signed_column df))%Q).
Proof.
  intros Hneg r.
  assert (He : estimated_beginning_equity r = max_capital_proxy df
               /\ method r = "max_exposure_proxy" /\ confidence r = "low"
               /\ caveats r <> []
               /\ hd_error (caveats r)
                  = Some "Reconciliation produced negative beginning equity; replaced with max-exposure proxy.").
  { apply Qltb_lt in Hneg. subst r.
    unfold infer_initial_capital. rewrite Hneg.
    destruct (Qeq_bool d 0); simpl; rewrite ?Qltb_irrefl;
      destruct (Py.Qltb 0 (max_capital_proxy df)); simpl;
      repeat split; auto; discriminate. }
  destruct He as (He & Hm & Hc & Hn & Hh).
  repeat split; auto.
  - intros H0. now rewrite He.
  - intros Hex. rewrite He. now apply max_capital_proxy_agrees_below_zero.
Qed.

End Inference.

(** C2. On the inflows 5, 3 the running sum is 5, 8 and never negative; the
    formula of the specification gives 0, while [infer_initial_capital]
    works with a proxy of 5: with no deposits and a reconciliation estimate
    of 2 it returns 5 by the proxy method. *)
Theorem max_capital_proxy_on_inflows :
  Py.cumsum (Reports.signed_column Samples.inflows) = [5; 8]%Q
  /\ exposure_proxy_spec (Reports.signed_column Samples.inflows) = 0%Q
  /\ Reports.max_capital_proxy Samples.inflows = 5%Q
  /\ Reports.estimated_beginning_equity
       (Reports.infer_initial_capital (R := Samples.runtime)
          Samples.inflows 2 0 0) = 5%Q
  /\ Reports.method
       (Reports.infer_initial_capital (R := Samples.runtime)
          Samples.inflows 2 0 0) = "max_exposure_proxy".
Proof. vm_compute. repeat split. Qed.

(** C3. With an ending equity of 0, net deposits of 1000 and no profit the
    reconciliation estimate is -1000 and is discarded.  On the inflows 5, 3
    the running sum is 5, 8 and the exposure proxy of the specification is
    0, but the estimate returned is 5, the absolute value of the least
    running sum, with method "max_exposure_proxy", confidence "low" and two
    caveats. *)
Theorem negative_reconciliation_returns_abs_min :
  let r :=
    Reports.infer_initial_capital (R := Samples.runtime) Samples.inflows
      0 1000 0 in
  (0 - 1000 - 0 < 0)%Q
  /\ Py.cumsum (Reports.signed_column Samples.inflows) = [5; 8]%Q
  /\ exposure_proxy_spec (Reports.signed_column Samples.inflows) = 0%Q
  /\ Reports.estimated_beginning_equity r = 5%Q
  /\ ~ (Reports.estimated_beginning_equity r
        == exposure_proxy_spec (Reports.signed_column Samples.inflows))%Q
  /\ Reports.method r = "max_exposure_proxy"
  /\ Reports.confidence r = "low"
  /\ length (Reports.caveats r) = 2%nat.
Proof. vm_compute. repeat split; discriminate. Qed.

(** The fallback where the two proxies agree: ending equity 0, net
    deposits 1000, no profit, and a running sum that bottoms out at -30. *)
Lemma negative_reconciliation_witness :
  (0 - 1000 - 0 < 0)%Q
  /\ Reports.estimated_beginning_equity
       (Reports.infer_initial_capital (R := Samples.runtime)
          Samples.drawdown 0 1000 0) = 30%Q
  /\ Reports.confidence
       (Reports.infer_initial_capital (R := Samples.runtime)
          Samples.drawdown 0 1000 0) = "low".
Proof.
  assert (H : (0 - 1000 - 0 < 0)%Q) by reflexivity.
  pose proof (negative_reconciliation_falls_back (R := Samples.runtime)
                Samples.drawdown 0 1000 0 H) as (He & _ & _ & Hc & _).
  split; [exact H|]. split; [|exact Hc].
  rewrite He. reflexivity.
Defined.

(** ** The reconciliation ledger ([build_profit_report]) *)

Section Ledger.
Context {R : Py.Runtime}.
Import Reports.

(** The ledger lines before [=EndingEquity] add up to the ending equity plus
    whatever the inference added to the reconciliation estimate. *)
Lemma ledger_sum_general (df : list UnifiedRow) (snap : Py.dict) (kw : string) :
  let r := build_profit_report df snap kw in
  let s := summary r in
  let recon :=
    (ending_equity s - net_deposits s
     - (realized_pnl s + unrealized_pnl s + fees_plus_funding s
        + token_sales_pnl s))%Q in
  (ledger_sum (reconciliation r)
   == entry (reconciliation r) "=EndingEquity"
      + (beginning_equity_estimate s - recon))%Q.
Proof.
  unfold build_profit_report, ledger_sum. simpl. ring.
Qed.

(** C1, as the code has it.  In exact arithmetic the ledger lines
    BeginningEquity(estimated), +NetDeposits, +RealizedPnL, +UnrealizedPnL,
    +TokenSalesPnL and +FeesFunding(net) sum to the =EndingEquity line plus
    what the inference added to the reconciliation estimate: to
    =EndingEquity itself when the inference ends with the method
    "reconciliation", and to =EndingEquity plus the proxy less the discarded
    estimate when the proxy replaced it.  In binary64 the estimate is
    rounded, and under the method "reconciliation" too the lines can miss
    =EndingEquity by more than 1e-6: for a deposit of 1 + 2^-16, fees of
    1 + 5 * 2^-18 and an ending equity of 2^35 the estimate is 2^35 and the
    lines sum to 2^35 - 2^-18, as floats added in order and as real
    numbers. *)
Theorem ledger_sums_to_ending_equity (df : list UnifiedRow) (snap : Py.dict)
    (kw : string) :
  let r := build_profit_report df snap kw in
  let s := summary r in
  let recon :=
    (ending_equity s - net_deposits s
     - (realized_pnl s + unrealized_pnl s + fees_plus_funding s
        + token_sales_pnl s))%Q in
  (ledger_sum (reconciliation r)
   == entry (reconciliation r) "=EndingEquity"
      + (beginning_equity_estimate s - recon))%Q
  /\ (method (initial_capital_inference r) = "reconciliation" ->
      (ledger_sum (reconciliation r)
       == entry (reconciliation r) "=EndingEquity")%Q)
  /\ (method (initial_capital_inference r) = "max_exposure_proxy" ->
      (ledger_sum (reconciliation r)
       == entry (reconciliation r) "=EndingEquity"
          + (max_capital_proxy df - recon))%Q)
  /\ (let b :=
        Binary64.build_profit_report Binary64.rounded_table
          Binary64.rounded_account "LIT" in
      let table := Binary64.reconciliation b in
      Binary64.method (Binary64.initial_capital_inference b)
      = "reconciliation"
      /\ (Binary64.exact (Binary64.entry table "=EndingEquity")
          == inject_Z (2 ^ 35))%Q
      /\ (Binary64.exact (Binary64.entry table "BeginningEquity(estimated)")
          == inject_Z (2 ^ 35))%Q
      /\ (Binary64.exact (Binary64.ledger_sum table)
          == inject_Z (2 ^ 35) - (1 # 2 ^ 18))%Q
      /\ (Binary64.exact_ledger_sum table
          == inject_Z (2 ^ 35) - (1 # 2 ^ 18))%Q
      /\ (1 # 1000000
          < Qabs (Binary64.exact (Binary64.ledger_sum table)
                  - Binary64.exact (Binary64.entry table "=EndingEquity")))%Q).
Proof.
  intros r s recon.
  assert (G : (ledger_sum (reconciliation r)
               == entry (reconciliation r) "=EndingEquity"
                  + (beginning_equity_estimate s - recon))%Q)
    by (subst recon s r; apply ledger_sum_general).
  assert (Hb : beginning_equity_estimate s
               = estimated_beginning_equity (initial_capital_inference r))
    by reflexivity.
  pose proof (infer_initial_capital_outcome df (ending_equity s)
                (net_deposits s)
                (realized_pnl s + unrealized_pnl s + fees_plus_funding s
                 + token_sales_pnl s)) as Hout.
  change (infer_initial_capital df (ending_equity s) (net_deposits s)
            (realized_pnl s + unrealized_pnl s + fees_plus_funding s
             + token_sales_pnl s))
    with (initial_capital_inference r) in Hout.
  cbv zeta in Hout. fold recon in Hout.
  split; [exact G|]. split; [|split].
  - intros Hm. destruct Hout as [(_ & _ & He) | (Hm' & _ & _)];
      [|rewrite Hm' in Hm; discriminate].
    rewrite G, Hb, He. ring.
  - intros Hm. destruct Hout as [(Hm' & _ & _) | (_ & _ & He)];
      [rewrite Hm' in Hm; discriminate|].
    rewrite G, Hb, He. reflexivity.
  - vm_compute. repeat split.
Qed.

End Ledger.

(** The identity fails when the proxy replaces the estimate: after a
    deposit of 1000 and with an ending equity of 0 the estimate -1000 is
    replaced by the proxy 0, and the ledger lines sum to 1000. *)
Lemma ledger_off_by_replacement :
  let r := Reports.build_profit_report (R := Samples.runtime)
             Samples.lost_deposit Samples.empty_account "LIT" in
  Reports.method (Reports.initial_capital_inference r) = "max_exposure_proxy"
  /\ Reports.entry (Reports.reconciliation r) "=EndingEquity" = 0%Q
  /\ (Reports.ledger_sum (Reports.reconciliation r) == 1000)%Q
  /\ (1 # 1000000
      < Qabs (Reports.ledger_sum (Reports.reconciliation r)
              - Reports.entry (Reports.reconciliation r) "=EndingEquity"))%Q.
Proof. vm_compute. repeat split. Qed.

(** Witness of [ledger_sums_to_ending_equity]: a deposit of 1000, a realised
    profit of 50 and an ending equity of 1100. *)
Lemma ledger_sums_witness :
  Reports.method
    (Reports.initial_capital_inference
       (Reports.build_profit_report (R := Samples.runtime)
          Samples.kept_deposit Samples.grown_account "LIT"))
  = "reconciliation"
  /\ (Reports.ledger_sum
        (Reports.reconciliation
           (Reports.build_profit_report (R := Samples.runtime)
              Samples.kept_deposit Samples.grown_account "LIT"))
      == 1100)%Q.
Proof.
  assert (H : Reports.method
                (Reports.initial_capital_inference
                   (Reports.build_profit_report (R := Samples.runtime)
                      Samples.kept_deposit Samples.grown_account "LIT"))
              = "reconciliation") by reflexivity.
  split; [exact H|].
  exact (proj1 (proj2 (ledger_sums_to_ending_equity (R := Samples.runtime)
                         Samples.kept_deposit Samples.grown_account "LIT"))
           H).
Defined.

(** ** The coverage guard ([main.py]) *)

Section Coverage.
Import Main.

(** The dictionary comprehension keeps, for each name, the last status
    reported under it. *)
Lemma fold_insert_lookup (statuses : list EndpointStatus)
    (m : gmap string EndpointStatus) (n : string) :
  fold_left (fun m s => <[name s := s]> m) statuses m !! n
  = match last_status statuses n with
    | Some s => Some s
    | None => m !! n
    end.
Proof.
  revert m. induction statuses as [|s rest IH]; intros m; simpl.
  - reflexivity.
  - rewrite IH. destruct (last_status rest n); [reflexivity|].
    destruct (String.eqb_spec (name s) n) as [E | E].
    + rewrite E. apply lookup_insert_eq.
    + now apply lookup_insert_ne.
Qed.

Lemma by_name_lookup (statuses : list EndpointStatus) (n : string) :
  by_name_of statuses !! n = last_status statuses n.
Proof.
  unfold by_name_of. rewrite fold_insert_lookup.
  destruct (last_status statuses n); [reflexivity | apply lookup_empty].
Qed.

Lemma last_status_name (statuses : list EndpointStatus) (n : string) s :
  last_status statuses n = Some s -> In s statuses /\ name s = n.
Proof.
  induction statuses as [|s0 rest IH]; simpl; [discriminate|].
  destruct (last_status rest n) as [s'|].
  - intros [= <-]. destruct (IH eq_refl). auto.
  - destruct (String.eqb_spec (name s0) n); [|discriminate].
    intros [= <-]. auto.
Qed.

Lemma last_status_attempted (statuses : list EndpointStatus) (n : string) :
  attempted statuses n <-> exists s, last_status statuses n = Some s.
Proof.
  split.
  - intros (s & Hin & Hn).
    induction statuses as [|s0 rest IH]; simpl in *; [contradiction|].
    destruct (last_status rest n) as [s'|]; [eauto|].
    destruct Hin as [-> | Hin].
    + rewrite Hn, String.eqb_refl. eauto.
    + destruct (IH Hin) as (? & ?). discriminate.
  - intros (s & Hs). exists s. now apply last_status_name.
Qed.

Lemma is_in_attempted (statuses : list EndpointStatus) (n : string) :
  is_in (by_name_of statuses) n = true <-> attempted statuses n.
Proof.
  unfold is_in. rewrite by_name_lookup, last_status_attempted.
  destruct (last_status statuses n); split; eauto; try discriminate.
  intros (? & ?). discriminate.
Qed.

(** Two selections from one list, the first inside the second, have the
    same length exactly when they select the same elements. *)
Lemma filter_length_le {A : Type} (p q : A -> bool) (l : list A) :
  (forall x, p x = true -> q x = true) ->
  (length (List.filter p l) <= length (List.filter q l))%nat.
Proof.
  intros Hpq. induction l as [|x l IH]; simpl; [lia|].
  destruct (p x) eqn:Ep.
  - rewrite (Hpq _ Ep). simpl. lia.
  - destruct (q x); simpl; lia.
Qed.

Lemma filter_length_eq_iff {A : Type} (p q : A -> bool) (l : list A) :
  (forall x, p x = true -> q x = true) ->
  length (List.filter p l) = length (List.filter q l)
  <-> forall x, In x l -> q x = true -> p x = true.
Proof.
  intros Hpq. induction l as [|x l IH]; simpl.
  - split; [intros _ ? [] | reflexivity].
  - pose proof (filter_length_le p q l Hpq) as Hle.
    destruct (p x) eqn:Ep.
    + rewrite (Hpq _ Ep). simpl. split.
      * intros H y [<- | Hy] Hq; [exact Ep|].
        apply IH; [lia | exact Hy | exact Hq].
      * intros H. f_equal. apply IH. intros y Hy. apply H. now right.
    + destruct (q x) eqn:Eq; simpl.
      * split; [lia|]. intros H.
        specialize (H x (or_introl eq_refl) Eq). congruence.
      * split.
        -- intros H y [<- | Hy] Hq; [congruence|].
           apply IH; assumption.
        -- intros H. apply IH. intros y Hy. apply H. now right.
Qed.

Lemma frame_empty_nil {A : Type} (df : Frame.DataFrame A) :
  Frame.empty df = true <-> df = [].
Proof. destruct df; simpl; split; congruence. Qed.

Lemma missing_spec (statuses : list EndpointStatus) (n : string) :
  In n (List.filter (fun n => negb (is_in (by_name_of statuses) n)) core)
  <-> In n core /\ ~ attempted statuses n.
Proof.
  rewrite filter_In, negb_true_iff, <- is_in_attempted.
  destruct (is_in (by_name_of statuses) n); intuition congruence.
Qed.

Lemma failed_spec (statuses : list EndpointStatus) (n : string) :
  match by_name_of statuses !! n with
  | Some s => negb (success s)
  | None => false
  end = true <-> endpoint_failed statuses n.
Proof.
  unfold endpoint_failed. rewrite by_name_lookup.
  destruct (last_status statuses n) as [s|].
  - rewrite negb_true_iff. split; [eauto|]. now intros (s' & [= <-] & ?).
  - split; [discriminate|]. now intros (? & ? & ?).
Qed.

Lemma all_core_failed_spec (statuses : list EndpointStatus) :
  let by_name := by_name_of statuses in
  let failed :=
    List.filter
      (fun n => match by_name !! n with
                | Some s => negb (success s)
                | None => false
                end) core in
  (length failed =? length (List.filter (is_in by_name) core))%nat = true
  <-> forall n, In n core -> attempted statuses n ->
                endpoint_failed statuses n.
Proof.
  intros by_name failed. subst failed.
  rewrite Nat.eqb_eq, filter_length_eq_iff.
  - split; intros H n Hn Ha.
    + apply failed_spec, H; [exact Hn | now apply is_in_attempted].
    + apply failed_spec, H; [exact Hn | now apply is_in_attempted].
  - intros n. unfold is_in. subst by_name.
    destruct (by_name_of statuses !! n); [reflexivity | discriminate].
Qed.

(** C4. The guard raises exactly when a core endpoint was never attempted,
    or both tables are empty and every attempted core endpoint failed; the
    error then lists the core endpoints never attempted, the core endpoints
    that failed, and the two row counts.  In particular it returns when
    "trades" succeeded with records, the trade table is not empty and every
    core endpoint was attempted, whatever became of the other three. *)
Theorem coverage_guard_decision {A B : Type}
    (statuses : list EndpointStatus)
    (transfers : Frame.DataFrame A) (trades : Frame.DataFrame B) :
  let out := _ensure_api_coverage statuses transfers trades in
  ((exists d, out = RaisesRuntimeError d)
   <-> coverage_insufficient statuses transfers trades)
  /\ (forall d, out = RaisesRuntimeError d ->
        (forall n, In n (missing_core_status d)
                   <-> In n core /\ ~ attempted statuses n)
        /\ (forall n, In n (failed_core_endpoints d)
                      <-> In n core /\ endpoint_failed statuses n)
        /\ transfers_rows d = length transfers
        /\ trades_rows d = length trades)
  /\ ((exists s, last_status statuses "trades" = Some s
                 /\ success s = true /\ (0 < records s)%Z) ->
      trades <> [] ->
      (forall n, In n core -> attempted statuses n) ->
      out = Returns).
Proof.
  intros out. subst out. unfold _ensure_api_coverage. cbv zeta.
  pose proof (missing_spec statuses) as Hmiss.
  pose proof (all_core_failed_spec statuses) as Hall. cbv zeta in Hall.
  set (missing :=
         List.filter (fun n => negb (is_in (by_name_of statuses) n)) core) in *.
  set (failed :=
         List.filter
           (fun n => match by_name_of statuses !! n with
                     | Some s => negb (success s)
                     | None => false
                     end) core) in *.
  assert (Hfail : forall n, In n failed
                            <-> In n core /\ endpoint_failed statuses n).
  { intros n. subst failed. rewrite filter_In. cbv beta.
    rewrite failed_spec. tauto. }
  assert (Hnil : missing = [] <-> forall n, In n core -> attempted statuses n).
  { split.
    - intros E n Hn.
      destruct (is_in (by_name_of statuses) n) eqn:Ei;
        [now apply is_in_attempted|].
      assert (In n missing) as Hin.
      { apply Hmiss. split; [exact Hn|].
        rewrite <- is_in_attempted. congruence. }
      rewrite E in Hin. destruct Hin.
    - intros H. destruct missing as [|n rest] eqn:E; [reflexivity|].
      assert (In n missing) as Hin by (rewrite E; now left).
      rewrite <- E in Hmiss. apply Hmiss in Hin. destruct Hin as [Hn Hna].
      destruct (Hna (H n Hn)). }
  set (acf := (length failed =? _)%nat) in *.
  split; [split | split].
  - (* raises -> insufficient *)
    intros (d & Hd).
    destruct missing as [|n rest] eqn:E.
    + simpl in Hd.
      destruct (Frame.empty transfers) eqn:Et; [|discriminate].
      destruct (Frame.empty trades) eqn:Er; [|discriminate].
      destruct acf eqn:Ea; [|discriminate].
      right. repeat split.
      * now apply frame_empty_nil.
      * now apply frame_empty_nil.
      * now apply Hall.
    + left. exists n. apply Hmiss. now left.
  - (* insufficient -> raises *)
    intros [(n & Hn & Hna) | (Et & Er & Hf)].
    + assert (In n missing) as Hin by (apply Hmiss; auto).
      destruct missing; [destruct Hin|]. simpl. eauto.
    + apply frame_empty_nil in Et, Er. apply Hall in Hf.
      rewrite Et, Er, Hf. rewrite orb_true_r. eauto.
  - (* what the error carries *)
    intros d Hd. destruct (_ || _); [|discriminate].
    injection Hd as <-. simpl.
    split; [exact Hmiss | split; [exact Hfail | split; reflexivity]].
  - (* the boundary case *)
    intros _ Hne Hatt. apply Hnil in Hatt. rewrite Hatt. simpl.
    destruct trades; [congruence|]. simpl. now rewrite andb_false_r.
Qed.

End Coverage.

(** Witness of the boundary case of [coverage_guard_decision]. *)
Lemma coverage_guard_partial_success :
  Main._ensure_api_coverage Samples.partial_statuses
    (@nil (nat * Transfers.TransferRow))
    (Frame.of_rows [Samples.buy_at 1; Samples.sell_at 1])
  = Main.Returns.
Proof.
  apply (coverage_guard_decision Samples.partial_statuses
           (@nil (nat * Transfers.TransferRow))
           (Frame.of_rows [Samples.buy_at 1; Samples.sell_at 1])).
  - eexists. split; [reflexivity|]. split; reflexivity.
  - discriminate.
  - intros n Hn. apply last_status_attempted.
    repeat (destruct Hn as [<- | Hn]; [eexists; reflexivity|]).
    destruct Hn.
Defined.

(** ** Side resolution and trade normalisation ([extractors/trades.py]) *)

Section TradeNormalisation.
Context {R : Py.Runtime}.
Import Py Trades.

Lemma str_in_buy_sell (s : string) :
  str_in s ["buy"; "sell"] = true -> s = "buy" \/ s = "sell".
Proof.
  unfold str_in. simpl. rewrite orb_false_r, orb_true_iff, !String.eqb_eq.
  tauto.
Qed.

Lemma side_for_account_range (taker_side taker_idx maker_idx me : string) :
  taker_side = "buy" \/ taker_side = "sell" ->
  side_for_account taker_side taker_idx maker_idx me = "buy"
  \/ side_for_account taker_side taker_idx maker_idx me = "sell".
Proof.
  unfold side_for_account, opposite.
  intros [-> | ->]; repeat (destruct (_ && _)); simpl; auto.
Qed.

(** The resolver is total and its result is one of buy, sell, unknown; in
    particular it is never the empty text. *)
Lemma resolve_side_range (raw : dict) (account_index : Z) :
  _resolve_side raw account_index = "buy"
  \/ _resolve_side raw account_index = "sell"
  \/ _resolve_side raw account_index = "unknown".
Proof.
  unfold _resolve_side.
  destruct (str_in _ ["b"; "bid"]); [auto|].
  destruct (str_in _ ["s"; "ask"]); [auto|].
  destruct (str_in _ ["buy"; "sell"]) eqn:E.
  { apply str_in_buy_sell in E. tauto. }
  destruct (str_in _ ["1"; "true"]).
  { destruct (side_for_account_range "sell"
                (str (get raw "taker_account_index" ||| PStr ""))
                (str (get raw "maker_account_index" ||| PStr ""))
                (str (PInt account_index))); auto. }
  destruct (str_in _ ["0"; "false"]); [|auto].
  destruct (side_for_account_range "buy"
              (str (get raw "taker_account_index" ||| PStr ""))
              (str (get raw "maker_account_index" ||| PStr ""))
              (str (PInt account_index))); auto.
Qed.

(** An explicit side is mapped without regard to letter case. *)
Lemma resolve_side_explicit (raw : dict) (account_index : Z) (text : string) :
  str (get raw "side" ||| get raw "direction" ||| get raw "trade_side"
       ||| PStr "") = text ->
  (str_in (lower text) ["b"; "bid"; "buy"] = true ->
   _resolve_side raw account_index = "buy")
  /\ (str_in (lower text) ["s"; "ask"; "sell"] = true ->
      _resolve_side raw account_index = "sell").
Proof.
  intros <-. unfold _resolve_side, str_in. simpl.
  rewrite !orb_false_r.
  split; rewrite !orb_true_iff, !String.eqb_eq;
    intros [E | [E | E]]; rewrite E; reflexivity.
Qed.

(** The account index 0 given as a number is falsy, so [x or ""] turns it
    into the empty text and the comparison with the local index is
    skipped. *)
Lemma index_zero_reads_as_absent (raw : dict) (key : string) :
  get raw key = PInt 0 -> str (get raw key ||| PStr "") = "".
Proof. intros ->. reflexivity. Qed.

Lemma str_of_int_nonempty (z : Z) : str_of_int z <> "".
Proof.
  unfold str_of_int, NilZero.string_of_int.
  destruct (Z.to_int z) as [d | d]; [|discriminate].
  unfold NilZero.string_of_uint. destruct d; discriminate.
Qed.

(** Any other index given as a number reads as its decimal text. *)
Lemma index_nonzero_reads_as_text (raw : dict) (key : string) (z : Z) :
  get raw key = PInt z -> z <> 0%Z ->
  str (get raw key ||| PStr "") = str_of_int z.
Proof.
  intros -> Hz. unfold py_or. simpl.
  destruct (Z.eqb_spec z 0); [contradiction | reflexivity].
Qed.

(** Lines 59-63 by cases: the taker keeps the taker's side, the maker gets
    the opposite side, anybody else the taker's side. *)
Lemma side_for_account_cases (taker_side taker_idx maker_idx me : string) :
  (taker_idx <> "" -> taker_idx = me ->
   side_for_account taker_side taker_idx maker_idx me = taker_side)
  /\ (taker_idx <> me -> maker_idx <> "" -> maker_idx = me ->
      side_for_account taker_side taker_idx maker_idx me
      = opposite taker_side)
  /\ (taker_idx <> me -> maker_idx <> me ->
      side_for_account taker_side taker_idx maker_idx me = taker_side).
Proof.
  unfold side_for_account.
  destruct (String.eqb_spec taker_idx ""), (String.eqb_spec taker_idx me),
    (String.eqb_spec maker_idx ""), (String.eqb_spec maker_idx me);
    simpl; repeat split; intros; congruence.
Qed.

(** With no explicit side and a taker who sold, a maker whose index is not
    0 and is the local account gets the opposite side, "buy". *)
Lemma resolve_side_maker_nonzero (raw : dict) (account_index : Z) :
  get raw "side" = PNone -> get raw "direction" = PNone ->
  get raw "trade_side" = PNone ->
  get raw "is_taker_ask" = PBool true ->
  str (get raw "taker_account_index" ||| PStr "") <> str_of_int account_index ->
  get raw "maker_account_index" = PInt account_index ->
  account_index <> 0%Z ->
  _resolve_side raw account_index = "buy".
Proof.
  intros Hs Hd Ht Ha Htaker Hmaker Hnz.
  unfold _resolve_side. rewrite Hs, Hd, Ht, Ha. simpl.
  rewrite (index_nonzero_reads_as_text raw "maker_account_index"
             account_index Hmaker Hnz).
  apply (side_for_account_cases "sell"); auto using str_of_int_nonempty.
Qed.

(** A normalised trade has a non-negative size and notional. *)
Lemma trade_quantities_nonneg (raw : dict) (source : string)
    (account_index : Z) (market_map : gmap Z string) :
  let row := _normalize_trade raw source account_index market_map in
  (0 <= size row)%Q /\ (0 <= notional_quote row)%Q.
Proof. simpl. split; apply Qabs_nonneg. Qed.

Lemma Qeq_bool_false (x y : Q) : Qeq_bool x y = false <-> ~ (x == y)%Q.
Proof.
  rewrite <- Qeq_bool_iff. destruct (Qeq_bool x y); split; congruence.
Qed.

(** What line 107 does: with no explicit fee field and a notional that is
    not zero, the fee is [notional * bps / 10000], where [notional] is the
    value of lines 95-97 before its sign is dropped and [bps] is the taker
    fee when the resolved side is buy or sell and the maker fee when the
    side is unknown. *)
Theorem fee_fallback_by_resolved_side (raw : dict) (source : string)
    (account_index : Z) (market_map : gmap Z string) :
  get raw "fee" = PNone ->
  get raw "fee_usd" = PNone ->
  let row := _normalize_trade raw source account_index market_map in
  let size := to_float (get raw "size" ||| get raw "quantity"
                        ||| get raw "filled_size") 0 in
  let notional := raw_notional raw size (price row) in
  let bps :=
    if str_in (side row) ["buy"; "sell"]
    then to_float (get raw "taker_fee") 0
    else to_float (get raw "maker_fee") 0 in
  ~ (notional == 0)%Q ->
  (fee_quote row == notional * bps / 10000)%Q
  /\ (notional_quote row == Qabs notional)%Q.
Proof.
  intros Hfee Husd row size0 notional bps Hn.
  split; [|reflexivity].
  subst row. unfold _normalize_trade. simpl.
  fold size0. simpl in notional. fold notional.
  unfold resolve_fee. rewrite Hfee, Husd. simpl.
  apply Qeq_bool_false in Hn. rewrite Hn. simpl.
  simpl in bps. fold bps.
  destruct (Qeq_bool bps 0) eqn:Eb; simpl.
  - apply Qeq_bool_iff in Eb. rewrite Eb.
    change (to_float (PNone ||| PNone) 0) with 0%Q. field.
  - reflexivity.
Qed.

End TradeNormalisation.

(** C5. For the local account 0, a fill whose maker index is 0 and whose
    taker (account 7) sold resolves to the taker's side "sell" and not to
    the opposite side; the same fill with maker 5 resolves to "buy" for the
    local account 5. *)
Theorem maker_with_index_zero_gets_taker_side :
  Py.str (R := Samples.runtime)
    (Py.get (Samples.maker_fill 0) "maker_account_index")
  = Py.str (R := Samples.runtime) (Py.PInt 0)
  /\ Trades._resolve_side (R := Samples.runtime) (Samples.maker_fill 0) 0
     = "sell"
  /\ Trades._resolve_side (R := Samples.runtime) (Samples.maker_fill 5) 5
     = "buy".
Proof. vm_compute. repeat split. Qed.

(** C8. The local account 5 made the fill (taker 7, taker fee 5 bps, maker
    fee 2 bps, notional 100, no explicit fee): the side resolves to "buy"
    and the fee is taken from the taker's 5 basis points, 0.05, where the
    maker's 2 give 0.02, the fee [lighter_txlog._compute_trade_fee_usd]
    computes for the same record by the role of the account.  And the fee
    keeps the sign of the notional the record reports: a notional of -100
    at 5 bps gives the fee -0.05 next to the notional 100 of the row. *)
Theorem maker_is_charged_taker_bps :
  let row := Trades._normalize_trade (R := Samples.runtime)
               (Samples.maker_fill 5) "trades" 5 ∅ in
  let signed := Trades._normalize_trade (R := Samples.runtime)
                  Samples.signed_notional_fill "trades" 7 ∅ in
  Py.get (Samples.maker_fill 5) "maker_account_index" = Py.PInt 5
  /\ Trades.side row = "buy"
  /\ (Trades.notional_quote row == 100)%Q
  /\ (Trades.fee_quote row == 100 * 5 / 10000)%Q
  /\ ~ (Trades.fee_quote row == 100 * 2 / 10000)%Q
  /\ (LighterTxlog._compute_trade_fee_usd (R := Samples.runtime) 5
        (Samples.maker_fill 5)
      == 100 * 2 / 10000)%Q
  /\ (Trades.notional_quote signed == 100)%Q
  /\ (Trades.fee_quote signed == - (100 * 5 / 10000))%Q
  /\ ~ (Trades.fee_quote signed
        == Trades.notional_quote signed * 5 / 10000)%Q.
Proof. vm_compute. repeat split; discriminate. Qed.

(** The fee by the resolved side on the fill made by account 5: notional
    100, resolved side "buy", fee 100 * 5 / 10000. *)
Lemma fee_fallback_witness :
  Py.get (Samples.maker_fill 5) "fee" = Py.PNone
  /\ (Trades.fee_quote
        (Trades._normalize_trade (R := Samples.runtime)
           (Samples.maker_fill 5) "trades" 5 ∅)
      == 100 * 5 / 10000)%Q.
Proof.
  split; [reflexivity|].
  assert (Hn : ~ (Trades.raw_notional (R := Samples.runtime)
                    (Samples.maker_fill 5) 1 100 == 0)%Q)
    by (vm_compute; discriminate).
  exact (proj1 (fee_fallback_by_resolved_side (R := Samples.runtime)
                  (Samples.maker_fill 5) "trades" 5 ∅
                  eq_refl eq_refl Hn)).
Defined.

(** ** Transfer normalisation ([extractors/transfers.py]) *)

(** An amount given as a number other than 0 under the key "amount" is
    returned as it is, whatever its sign. *)
Lemma pick_amount_passes_sign (R : Py.Runtime) (raw : Py.dict) (z : Z) :
  Py.get raw "amount" = Py.PInt z -> z <> 0%Z ->
  Transfers._pick_amount raw = inject_Z z.
Proof.
  intros H Hz. unfold Transfers._pick_amount. simpl. rewrite H. simpl.
  unfold Transfers.nonzero, Py.to_float. simpl.
  destruct (Qeq_bool (inject_Z z) 0) eqn:E; [|reflexivity].
  apply Qeq_bool_iff in E. unfold Qeq in E. simpl in E. lia.
Qed.

(** C9. A withdrawal reported with the amount -5 is normalised to a row of
    type "withdraw" whose [amount_quote] is -5: the transfer normaliser
    passes the sign through, where the trade normaliser takes absolute
    values ([trade_quantities_nonneg]). *)
Theorem negative_transfer_amount_survives :
  let row := Transfers._normalize (R := Samples.runtime)
               Samples.signed_withdrawal "withdraw/history" "withdraw" in
  Transfers.event_type row = "withdraw"
  /\ Transfers.amount_quote row = (-5)%Q
  /\ (Transfers.amount_quote row < 0)%Q.
Proof. vm_compute. repeat split. Qed.

(** ** Frames: labels, deduplication, sorting *)

Section FrameFacts.
Context {row : Type}.
Import Frame.

Lemma rows_of_combine (rows : list row) (labels : list nat) :
  length labels = length rows -> rows_of (combine labels rows) = rows.
Proof.
  revert labels. induction rows as [|r rows IH]; intros [|i labels]; simpl;
    try discriminate; auto.
  intros [= H]. f_equal. now apply IH.
Qed.

Lemma labels_of_combine (rows : list row) (labels : list nat) :
  length labels = length rows -> labels_of (combine labels rows) = labels.
Proof.
  revert labels. induction rows as [|r rows IH]; intros [|i labels]; simpl;
    try discriminate; auto.
  intros [= H]. f_equal. now apply IH.
Qed.

Lemma rows_of_of_rows (rows : list row) : rows_of (of_rows rows) = rows.
Proof. apply rows_of_combine, length_seq. Qed.

Lemma length_of_rows (rows : list row) : length (of_rows rows) = length rows.
Proof.
  unfold of_rows. rewrite length_combine, length_seq. apply Nat.min_id.
Qed.

(** After [reset_index] the labels are the positions 0, 1, ..., n-1 and the
    rows are unchanged. *)
Lemma reset_index_labels (df : DataFrame row) :
  labels_of (reset_index df) = seq 0 (length (reset_index df))
  /\ rows_of (reset_index df) = rows_of df.
Proof.
  unfold reset_index. rewrite rows_of_of_rows, length_of_rows.
  split; [|reflexivity].
  unfold of_rows. apply labels_of_combine, length_seq.
Qed.

Lemma combine_seq_app (n : nat) (a b : list row) :
  combine (seq n (length (a ++ b))) (a ++ b)
  = combine (seq n (length a)) a
    ++ combine (seq (n + length a) (length b)) b.
Proof.
  revert n. induction a as [|x a IH]; intros n; simpl.
  - now rewrite Nat.add_0_r.
  - f_equal. rewrite IH. now rewrite Nat.add_succ_r.
Qed.

Lemma of_rows_app (a b : list row) :
  of_rows (a ++ b) = of_rows a ++ combine (seq (length a) (length b)) b.
Proof. unfold of_rows. apply combine_seq_app. Qed.

Section KeepLast.
Variable same : row -> row -> bool.

Lemma existsb_rows (r : row) (df : DataFrame row) :
  existsb (fun jr => same r (snd jr)) df = existsb (same r) (rows_of df).
Proof.
  induction df as [|[j r'] df IH]; simpl; [reflexivity|]. now rewrite IH.
Qed.

(** Which rows survive depends on the rows only, not on their labels. *)
Lemma keep_last_rows (df df' : DataFrame row) :
  rows_of df = rows_of df' ->
  rows_of (keep_last same df) = rows_of (keep_last same df').
Proof.
  revert df'. induction df as [|[i r] df IH]; intros [|[i' r'] df']; simpl;
    try discriminate; auto.
  intros [= -> H]. rewrite !existsb_rows, H.
  destruct (existsb (same r') (rows_of df')); simpl; [|f_equal]; now apply IH.
Qed.

(** Rows that all have a later row of the same key are dropped. *)
Lemma keep_last_covered (l1 l2 : DataFrame row) :
  (forall r, In r (rows_of l1) -> existsb (same r) (rows_of l2) = true) ->
  keep_last same (l1 ++ l2) = keep_last same l2.
Proof.
  induction l1 as [|[i r] l1 IH]; intros H; simpl; [reflexivity|].
  rewrite existsb_rows. unfold rows_of. rewrite List.map_app, existsb_app.
  fold (rows_of l2). rewrite (H r) by now left.
  rewrite orb_true_r. apply IH. intros r' Hr'. apply H. now right.
Qed.

(** Last seen wins: a row with no later row of its key survives. *)
Lemma keep_last_keeps_last (l1 l2 : DataFrame row) (i : nat) (r : row) :
  existsb (same r) (rows_of l2) = false ->
  In (i, r) (keep_last same (l1 ++ (i, r) :: l2)).
Proof.
  intros H. induction l1 as [|[j r'] l1 IH]; simpl.
  - rewrite existsb_rows, H. now left.
  - destruct (existsb (fun jr => same r' (snd jr)) _);
      [exact IH | now right].
Qed.

(** What survives stood in the frame. *)
Lemma keep_last_subset (df : DataFrame row) (ir : nat * row) :
  In ir (keep_last same df) -> In ir df.
Proof.
  induction df as [|[j r'] df IH]; simpl; [auto|].
  destruct (existsb _ _); simpl; intuition.
Qed.

Variable hashable_key : row -> bool.
Hypothesis same_refl : forall r, hashable_key r = true -> same r r = true.

Lemma existsb_self (r : row) (rows : list row) :
  hashable_key r = true -> In r rows -> existsb (same r) rows = true.
Proof.
  intros Hh Hin. apply existsb_exists. exists r. auto.
Qed.

Lemma forallb_rows (df : DataFrame row) :
  forallb (fun ir => hashable_key (snd ir)) df
  = forallb hashable_key (rows_of df).
Proof.
  induction df as [|[j r'] df IH]; simpl; [reflexivity|]. now rewrite IH.
Qed.

(** Appending a table to itself does not change what deduplication leaves:
    the same rows in the same order, or the same TypeError. *)
Lemma drop_duplicates_self_append (rows : list row) :
  option_map rows_of
    (drop_duplicates same hashable_key (of_rows (rows ++ rows)))
  = option_map rows_of (drop_duplicates same hashable_key (of_rows rows)).
Proof.
  unfold drop_duplicates.
  rewrite !forallb_rows, !rows_of_of_rows, forallb_app.
  destruct (forallb hashable_key rows) eqn:Hh; simpl; [|reflexivity].
  f_equal. rewrite of_rows_app.
  assert (Hr : rows_of (combine (seq (length rows) (length rows)) rows) = rows)
    by apply rows_of_combine, length_seq.
  rewrite keep_last_covered.
  - apply keep_last_rows. now rewrite Hr, rows_of_of_rows.
  - intros r Hin. rewrite rows_of_of_rows in Hin. rewrite Hr.
    apply existsb_self; [|exact Hin].
    rewrite forallb_forall in Hh. now apply Hh.
Qed.

End KeepLast.
End FrameFacts.

Section SortFacts.
Context {row : Type}.
Variable ts : row -> option Z.
Import Frame.

Lemma le_tsb_le (a b : row) : le_tsb ts a b = true <-> le_ts ts a b.
Proof.
  unfold le_tsb, le_ts. destruct (ts a), (ts b); try tauto.
  - apply Z.leb_le.
  - split; [discriminate | contradiction].
Qed.

Lemma le_ts_total (a b : row) : le_ts ts a b \/ le_ts ts b a.
Proof. unfold le_ts. destruct (ts a), (ts b); auto. lia. Qed.

Lemma le_ts_trans (a b c : row) : le_ts ts a b -> le_ts ts b c -> le_ts ts a c.
Proof.
  unfold le_ts. destruct (ts a), (ts b), (ts c); auto; try lia; contradiction.
Qed.

Lemma insert_sorted_perm (x : nat * row) (l : DataFrame row) :
  Permutation (insert_sorted ts x l) (x :: l).
Proof.
  induction l as [|y l IH]; simpl; [reflexivity|].
  destruct (le_tsb ts (snd x) (snd y)); [reflexivity|].
  rewrite IH. apply perm_swap.
Qed.

Lemma insert_sorted_sorted (x : nat * row) (l : DataFrame row) :
  StronglySorted (le_ts ts) (rows_of l) ->
  StronglySorted (le_ts ts) (rows_of (insert_sorted ts x l)).
Proof.
  induction l as [|y l IH]; simpl; intros H.
  - repeat constructor.
  - inversion H as [|? ? Hs Hall]; subst.
    destruct (le_tsb ts (snd x) (snd y)) eqn:E; simpl.
    + apply le_tsb_le in E. constructor; [exact H|].
      constructor; [exact E|].
      eapply List.Forall_impl; [|exact Hall].
      intros c Hc. eapply le_ts_trans; eassumption.
    + assert (Hyx : le_ts ts (snd y) (snd x)).
      { destruct (le_ts_total (snd x) (snd y)) as [Hxy | Hyx]; [|exact Hyx].
        apply le_tsb_le in Hxy. congruence. }
      constructor; [now apply IH|].
      assert (Hp : Permutation (rows_of (insert_sorted ts x l))
                     (snd x :: rows_of l))
        by (change (snd x :: rows_of l) with (rows_of (x :: l));
            apply Permutation_map, insert_sorted_perm).
      eapply Permutation_Forall; [symmetry; exact Hp|].
      constructor; assumption.
Qed.

Lemma fold_insert_perm (l : DataFrame row) :
  Permutation (fold_right (insert_sorted ts) [] l) l.
Proof.
  induction l as [|x l IH]; simpl; [reflexivity|].
  rewrite insert_sorted_perm. now constructor.
Qed.

Lemma fold_insert_sorted (l : DataFrame row) :
  StronglySorted (le_ts ts) (rows_of (fold_right (insert_sorted ts) [] l)).
Proof.
  induction l as [|x l IH]; simpl; [constructor|].
  now apply insert_sorted_sorted.
Qed.

(** The call always returns: the stable arrangement is one of the tables
    [sort_values] admits. *)
Lemma sort_values_total (df : DataFrame row) :
  sort_values ts df (stable_sort ts df).
Proof.
  exists (fold_right (insert_sorted ts) [] (List.filter (present ts) df)).
  split; [apply fold_insert_perm|]. split; [apply fold_insert_sorted|].
  reflexivity.
Qed.

Lemma filter_present_missing (df : DataFrame row) :
  Permutation (List.filter (present ts) df ++ List.filter (missing ts) df) df.
Proof.
  induction df as [|x df IH]; simpl; [reflexivity|].
  unfold missing at 1. destruct (present ts x); simpl.
  - now constructor.
  - rewrite <- Permutation_middle. now constructor.
Qed.

Lemma missing_rows_sorted (df : DataFrame row) :
  StronglySorted (le_ts ts) (rows_of (List.filter (missing ts) df))
  /\ Forall (fun r => ts r = None) (rows_of (List.filter (missing ts) df)).
Proof.
  induction df as [|x df [IH1 IH2]]; simpl; [split; constructor|].
  destruct (missing ts x) eqn:E; simpl; [|split; assumption].
  assert (Hx : ts (snd x) = None).
  { unfold missing, present in E.
    destruct (ts (snd x)); [discriminate | reflexivity]. }
  split; constructor; auto.
  eapply List.Forall_impl; [|exact IH2].
  intros r Hr. unfold le_ts. now rewrite Hx, Hr.
Qed.

Lemma sorted_app_missing (a b : list row) :
  StronglySorted (le_ts ts) a ->
  StronglySorted (le_ts ts) b ->
  Forall (fun r => ts r = None) b ->
  StronglySorted (le_ts ts) (a ++ b).
Proof.
  intros Ha Hb Hn. induction Ha as [|x a Hs IH Hall]; simpl; [exact Hb|].
  constructor; [exact IH|].
  apply Forall_app. split; [exact Hall|].
  eapply List.Forall_impl; [|exact Hn].
  intros r Hr. unfold le_ts. rewrite Hr. now destruct (ts x).
Qed.

(** Every table [sort_values] admits holds the rows of the frame, in
    ascending order of the column with the missing values last. *)
Lemma sort_values_sound (df out : DataFrame row) :
  sort_values ts df out ->
  Permutation out df /\ StronglySorted (le_ts ts) (rows_of out).
Proof.
  intros (sp & Hp & Hs & ->). split.
  - rewrite Hp. apply filter_present_missing.
  - unfold rows_of. rewrite List.map_app.
    destruct (missing_rows_sorted df) as [H1 H2].
    now apply sorted_app_missing.
Qed.

Lemma rows_of_filter (p : row -> bool) (df : DataFrame row) :
  rows_of (List.filter (fun ir => p (snd ir)) df) = List.filter p (rows_of df).
Proof.
  induction df as [|x df IH]; simpl; [reflexivity|].
  destruct (p (snd x)); simpl; now rewrite IH.
Qed.

(** The admitted arrangements depend on the rows only, not on the labels. *)
Lemma sort_values_relabel (df df' s : DataFrame row) :
  rows_of df = rows_of df' ->
  sort_values ts df s ->
  exists s', sort_values ts df' s' /\ rows_of s' = rows_of s.
Proof.
  intros Hrows (sp & Hp & Hs & ->).
  assert (Hpres : rows_of (List.filter (present ts) df)
                  = rows_of (List.filter (present ts) df')).
  { unfold present.
    rewrite (rows_of_filter
               (fun r => match ts r with Some _ => true | None => false end)),
      (rows_of_filter
         (fun r => match ts r with Some _ => true | None => false end)).
    now rewrite Hrows. }
  assert (Hmiss : rows_of (List.filter (missing ts) df)
                  = rows_of (List.filter (missing ts) df')).
  { unfold missing, present.
    rewrite (rows_of_filter
               (fun r => negb match ts r with Some _ => true | None => false end)),
      (rows_of_filter
         (fun r => negb match ts r with Some _ => true | None => false end)).
    now rewrite Hrows. }
  assert (Hperm : Permutation (rows_of sp)
                    (List.map snd (List.filter (present ts) df'))).
  { fold (rows_of (List.filter (present ts) df')). rewrite <- Hpres.
    now apply Permutation_map. }
  apply Permutation_map_inv in Hperm. destruct Hperm as (l3 & El3 & Pl3).
  exists (l3 ++ List.filter (missing ts) df'). split.
  - exists l3. split; [now symmetry|]. split; [|reflexivity].
    unfold rows_of in *. now rewrite <- El3.
  - unfold rows_of in *. rewrite !List.map_app. now rewrite <- El3, Hmiss.
Qed.

Lemma same_ts_le (t : option Z) (x y : nat * row) :
  same_ts ts t x = true -> same_ts ts t y = true ->
  le_tsb ts (snd x) (snd y) = true.
Proof.
  unfold same_ts, le_tsb.
  destruct t, (ts (snd x)), (ts (snd y)); try discriminate; auto.
  intros Hx Hy. apply Z.eqb_eq in Hx, Hy. apply Z.leb_le. lia.
Qed.

Lemma filter_insert_sorted (t : option Z) (x : nat * row) (l : DataFrame row) :
  List.filter (same_ts ts t) (insert_sorted ts x l)
  = List.filter (same_ts ts t) (x :: l).
Proof.
  induction l as [|y l IH]; [reflexivity|].
  change (insert_sorted ts x (y :: l))
    with (if le_tsb ts (snd x) (snd y) then x :: y :: l
          else y :: insert_sorted ts x l).
  destruct (le_tsb ts (snd x) (snd y)) eqn:E; [reflexivity|].
  simpl. rewrite IH. simpl.
  destruct (same_ts ts t x) eqn:Ex, (same_ts ts t y) eqn:Ey; try reflexivity.
  rewrite (same_ts_le t x y Ex Ey) in E. discriminate.
Qed.

Lemma filter_fold_insert (t : option Z) (l : DataFrame row) :
  List.filter (same_ts ts t) (fold_right (insert_sorted ts) [] l)
  = List.filter (same_ts ts t) l.
Proof.
  induction l as [|x l IH]; [reflexivity|].
  simpl fold_right. rewrite filter_insert_sorted. simpl. now rewrite IH.
Qed.

Lemma no_missing_among_present (df : DataFrame row) :
  List.filter (same_ts ts None) (List.filter (present ts) df) = [].
Proof.
  induction df as [|x df IH]; [reflexivity|]. simpl.
  destruct (present ts x) eqn:Ep; [|exact IH]. simpl.
  unfold present in Ep. unfold same_ts at 1.
  destruct (ts (snd x)); [exact IH | discriminate].
Qed.

Lemma filter_same_ts_split (t : option Z) (df : DataFrame row) :
  List.filter (same_ts ts t) (List.filter (present ts) df)
  ++ List.filter (same_ts ts t) (List.filter (missing ts) df)
  = List.filter (same_ts ts t) df.
Proof.
  induction df as [|x df IH]; [reflexivity|]. simpl.
  unfold missing at 1.
  destruct (present ts x) eqn:Ep; simpl;
    destruct (same_ts ts t x) eqn:Es; simpl; rewrite <- IH; try reflexivity.
  assert (t = None) as ->.
  { unfold present in Ep. unfold same_ts in Es.
    destruct t, (ts (snd x)); try discriminate; reflexivity. }
  now rewrite no_missing_among_present.
Qed.

(** The stable arrangement keeps rows of equal timestamp in the order in
    which they stood: a stable sort is among the outcomes [sort_values]
    admits, next to the others. *)
Lemma stable_sort_keeps_ties (df : DataFrame row) :
  ties_in_order ts df (stable_sort ts df).
Proof.
  intros t. unfold stable_sort.
  rewrite List.filter_app, filter_fold_insert, filter_same_ts_split.
  reflexivity.
Qed.

End SortFacts.

(** ** The merge that closes the extractors *)

Section MergeFacts.
Context {row : Type}.
Variable same : row -> row -> bool.
Variable hashable_key : row -> bool.
Variable ts : row -> option Z.
Import Frame.

(** A table returned by the merge holds the deduplicated rows, in ascending
    order of the timestamp with missing timestamps last, labelled
    0, 1, ..., n-1. *)
Lemma merge_rows_sound (rows : list row) (out : DataFrame row) :
  merge_rows same hashable_key ts rows out ->
  exists deduped,
    drop_duplicates same hashable_key (of_rows rows) = Some deduped
    /\ Permutation (rows_of out) (rows_of deduped)
    /\ StronglySorted (le_ts ts) (rows_of out)
    /\ labels_of out = seq 0 (length out).
Proof.
  unfold merge_rows. destruct rows as [|r rows].
  - simpl. intros ->. exists []. repeat split; constructor.
  - intros (deduped & sorted & Hd & Hs & ->).
    exists deduped. split; [exact Hd|].
    destruct (sort_values_sound ts _ _ Hs) as [Hp Hsorted].
    destruct (reset_index_labels sorted) as [Hl Hr].
    rewrite Hr. repeat split; auto.
    now apply Permutation_map.
Qed.

(** The merge returns a table whenever every key cell can be hashed. *)
Lemma merge_rows_total (rows : list row) :
  forallb hashable_key rows = true ->
  exists out, merge_rows same hashable_key ts rows out.
Proof.
  intros Hh. unfold merge_rows. destruct rows as [|r rows].
  - exists []. reflexivity.
  - set (df := of_rows (r :: rows)).
    exists (reset_index (stable_sort ts (keep_last same df))).
    change (empty df) with false. cbv iota.
    exists (keep_last same df), (stable_sort ts (keep_last same df)).
    split; [|split; [apply sort_values_total | reflexivity]].
    unfold drop_duplicates. subst df.
    now rewrite forallb_rows, rows_of_of_rows, Hh.
Qed.

Hypothesis same_refl : forall r, hashable_key r = true -> same r r = true.

Lemma merge_rows_self_append_1 (a b : list row) (out : DataFrame row) :
  option_map rows_of (drop_duplicates same hashable_key (of_rows a))
  = option_map rows_of (drop_duplicates same hashable_key (of_rows b)) ->
  (a = [] <-> b = []) ->
  merge_rows same hashable_key ts a out ->
  merge_rows same hashable_key ts b out.
Proof.
  unfold merge_rows. intros Hd Hnil.
  destruct a as [|x a], b as [|y b]; simpl; auto.
  - intros _. destruct Hnil as [H _]. now specialize (H eq_refl).
  - intros _. destruct Hnil as [_ H]. now specialize (H eq_refl).
  - intros (d1 & s1 & Hd1 & Hs1 & ->).
    rewrite Hd1 in Hd. simpl in Hd.
    destruct (drop_duplicates same hashable_key (of_rows (y :: b)))
      as [d2|] eqn:Hd2; [|discriminate].
    injection Hd as Hrows.
    destruct (sort_values_relabel ts d1 d2 s1 Hrows Hs1) as (s2 & Hs2 & Hr).
    exists d2, s2. split; [reflexivity|]. split; [exact Hs2|].
    unfold reset_index. now rewrite Hr.
Qed.

(** Merging a table appended to itself returns what merging the table
    returns. *)
Lemma merge_rows_self_append (rows : list row) (out : DataFrame row) :
  merge_rows same hashable_key ts (rows ++ rows) out
  <-> merge_rows same hashable_key ts rows out.
Proof.
  pose proof (drop_duplicates_self_append same hashable_key same_refl rows)
    as Hd.
  assert (Hnil : rows ++ rows = [] <-> rows = []).
  { split; [|now intros ->]. intros H. now apply app_eq_nil in H. }
  split; apply merge_rows_self_append_1; auto; tauto.
Qed.

End MergeFacts.

(** Every key relation holds between a row and itself when the key can be
    hashed. *)
Lemma eq_ts_refl (t : option Z) : Trades.eq_ts t t = true.
Proof. destruct t; simpl; [apply Z.eqb_refl | reflexivity]. Qed.

Lemma py_eq_refl (v : Py.pyval) : Py.hashable v = true -> Py.py_eq v v = true.
Proof.
  destruct v; simpl; try discriminate; intros _; unfold Py.py_eq; simpl;
    auto using Qeq_bool_refl, String.eqb_refl.
Qed.

Lemma trade_key_refl (r : Trades.TradeRow) :
  Trades.hashable_key r = true -> Trades.same_key r r = true.
Proof.
  intros H. unfold Trades.same_key.
  now rewrite eq_ts_refl, !String.eqb_refl, !Qeq_bool_refl, py_eq_refl.
Qed.

Lemma transfer_key_refl (r : Transfers.TransferRow) :
  Transfers.hashable_key r = true -> Transfers.same_key r r = true.
Proof.
  intros H. unfold Transfers.same_key.
  now rewrite eq_ts_refl, !String.eqb_refl, !Qeq_bool_refl, py_eq_refl.
Qed.

Lemma balance_key_refl (r : Balances.BalanceRow) :
  Balances.hashable_key r = true -> Balances.same_key r r = true.
Proof.
  intros _. unfold Balances.same_key.
  now rewrite eq_ts_refl, !String.eqb_refl, !Qeq_bool_refl.
Qed.

(** C7. Deduplication is idempotent on a table appended to itself, under the
    trade key, the transfer key and the balance-snapshot key alike: the same
    rows are left in the same order (or the same TypeError is raised), so
    the extractor returns the same tables; and the last row seen with a key
    is the one that is kept. *)
Theorem dedup_self_append_idempotent :
  (forall rows : list Trades.TradeRow,
      option_map Frame.rows_of
        (Frame.drop_duplicates Trades.same_key Trades.hashable_key
           (Frame.of_rows (rows ++ rows)))
      = option_map Frame.rows_of
          (Frame.drop_duplicates Trades.same_key Trades.hashable_key
             (Frame.of_rows rows)))
  /\ (forall rows : list Transfers.TransferRow,
        option_map Frame.rows_of
          (Frame.drop_duplicates Transfers.same_key Transfers.hashable_key
             (Frame.of_rows (rows ++ rows)))
        = option_map Frame.rows_of
            (Frame.drop_duplicates Transfers.same_key Transfers.hashable_key
               (Frame.of_rows rows)))
  /\ (forall rows : list Balances.BalanceRow,
        option_map Frame.rows_of
          (Frame.drop_duplicates Balances.same_key Balances.hashable_key
             (Frame.of_rows (rows ++ rows)))
        = option_map Frame.rows_of
            (Frame.drop_duplicates Balances.same_key Balances.hashable_key
               (Frame.of_rows rows)))
  /\ (forall rows out,
        Trades.fetch_trades (rows ++ rows) out <-> Trades.fetch_trades rows out)
  /\ (forall rows out,
        Transfers.fetch_transfers (rows ++ rows) out
        <-> Transfers.fetch_transfers rows out)
  /\ (forall rows out,
        Balances.fetch_balance_history (rows ++ rows) out
        <-> Balances.fetch_balance_history rows out)
  /\ (forall (row : Type) (same : row -> row -> bool)
             (before after : Frame.DataFrame row) (i : nat) (r : row),
        existsb (same r) (Frame.rows_of after) = false ->
        In (i, r) (Frame.keep_last same (before ++ (i, r) :: after))).
Proof.
  split; [|split; [|split; [|split; [|split; [|split]]]]].
  - apply drop_duplicates_self_append, trade_key_refl.
  - apply drop_duplicates_self_append, transfer_key_refl.
  - apply drop_duplicates_self_append, balance_key_refl.
  - apply merge_rows_self_append, trade_key_refl.
  - apply merge_rows_self_append, transfer_key_refl.
  - apply merge_rows_self_append, balance_key_refl.
  - intros row same before after i r. apply keep_last_keeps_last.
Qed.

(** Witness of the last part of [dedup_self_append_idempotent]: of a buy
    gathered twice at the same instant, the second copy is kept. *)
Lemma dedup_keeps_second_copy :
  In (1%nat, Samples.buy_at 1)
    (Frame.keep_last Trades.same_key
       (Frame.of_rows [Samples.buy_at 1; Samples.buy_at 1])).
Proof.
  apply (proj2 (proj2 (proj2 (proj2 (proj2 (proj2
           dedup_self_append_idempotent)))))
           Trades.TradeRow Trades.same_key
           [(0%nat, Samples.buy_at 1)] [] 1%nat (Samples.buy_at 1)).
  reflexivity.
Defined.

(** C6, as the code has it.  A table returned by [fetch_trades] holds the
    deduplicated rows in ascending order of the timestamp (missing
    timestamps last) with the labels reset to 0, 1, ..., n-1, and so does a
    table returned by [build_reconstructed_schema] for the rows it builds.
    The order among rows of equal timestamp is left to the sort. *)
Theorem merged_table_sorted_and_reindexed :
  (forall rows out,
      Trades.fetch_trades rows out ->
      exists deduped,
        Frame.drop_duplicates Trades.same_key Trades.hashable_key
          (Frame.of_rows rows) = Some deduped
        /\ Permutation (Frame.rows_of out) (Frame.rows_of deduped)
        /\ StronglySorted (Frame.le_ts Trades.timestamp) (Frame.rows_of out)
        /\ Frame.labels_of out = seq 0 (length out))
  /\ (forall trades transfers fx_rate exchange_label out,
        Transform.build_reconstructed_schema trades transfers fx_rate
          exchange_label out ->
        Permutation (Frame.rows_of out)
          (Transform._build_trade_rows trades fx_rate exchange_label
           ++ Transform._build_transfer_rows transfers fx_rate exchange_label)
        /\ StronglySorted (Frame.le_ts Transform.timestamp)
             (Frame.rows_of out)
        /\ Frame.labels_of out = seq 0 (length out)).
Proof.
  split.
  - intros rows out. apply merge_rows_sound.
  - intros trades transfers fx_rate exchange_label out.
    unfold Transform.build_reconstructed_schema. cbv zeta.
    destruct (_ ++ _) as [|r rows] eqn:E.
    + intros ->. repeat split; constructor.
    + intros (sorted & Hs & ->).
      destruct (sort_values_sound Transform.timestamp _ _ Hs) as [Hp Hsorted].
      destruct (reset_index_labels sorted) as [Hl Hr].
      rewrite Hr. repeat split; auto.
      rewrite <- (rows_of_of_rows (r :: rows)). now apply Permutation_map.
Qed.

Lemma constant_column_sorted {row : Type} (ts : row -> option Z) (t : Z)
    (rows : list row) :
  Forall (fun r => ts r = Some t) rows ->
  StronglySorted (Frame.le_ts ts) rows.
Proof.
  induction 1 as [|r rows Hr Hall IH]; constructor; [exact IH|].
  eapply List.Forall_impl; [|exact Hall].
  intros r' Hr'. unfold Frame.le_ts. rewrite Hr, Hr'. lia.
Qed.

Lemma quicksort_order_perm : Permutation Samples.quicksort_order (seq 0 18).
Proof.
  change (seq 0 18) with (0%nat :: seq 1 15 ++ [16; 17]%nat).
  unfold Samples.quicksort_order. apply perm_skip, Permutation_app_tail.
  symmetry. apply Permutation_rev.
Qed.

(** The eighteen tied fills in quicksort order are a table [fetch_trades]
    may return for them. *)
Lemma fetch_trades_admits_quicksort_order :
  Trades.fetch_trades Samples.tied_trades Samples.tied_trades_sorted.
Proof.
  unfold Trades.fetch_trades, Frame.merge_rows.
  change (Frame.empty (Frame.of_rows Samples.tied_trades)) with false.
  cbv iota.
  set (f := fun k : nat => (k, Samples.tied_trade k)).
  exists (Frame.of_rows Samples.tied_trades),
         (List.map f Samples.quicksort_order).
  split; [vm_compute; reflexivity|]. split; [|reflexivity].
  exists (List.map f Samples.quicksort_order).
  split; [|split].
  - change (List.filter (Frame.present Trades.timestamp)
              (Frame.of_rows Samples.tied_trades))
      with (List.map f (seq 0 18)).
    apply Permutation_map, quicksort_order_perm.
  - apply (constant_column_sorted Trades.timestamp 1%Z).
    unfold Frame.rows_of. rewrite List.map_map.
    apply List.Forall_forall. intros r Hr.
    apply in_map_iff in Hr. destruct Hr as (k & <- & _). reflexivity.
  - reflexivity.
Qed.

(** C6, as stated, fails on eighteen fills of the same instant: gathered in
    the order of their sizes 0, 1, ..., 17, they may come back in the order
    0, 15, 14, ..., 1, 16, 17. *)
Lemma tied_trades_reordered :
  Trades.fetch_trades Samples.tied_trades Samples.tied_trades_sorted
  /\ List.map Trades.size
       (Frame.rows_of
          (List.filter (Frame.same_ts Trades.timestamp (Some 1%Z))
             (Frame.of_rows Samples.tied_trades)))
     = List.map (fun k => inject_Z (Z.of_nat k)) (seq 0 18)
  /\ List.map Trades.size
       (Frame.rows_of
          (List.filter (Frame.same_ts Trades.timestamp (Some 1%Z))
             Samples.tied_trades_sorted))
     = List.map (fun k => inject_Z (Z.of_nat k)) Samples.quicksort_order
  /\ ~ Frame.ties_in_order Trades.timestamp
         (Frame.of_rows Samples.tied_trades) Samples.tied_trades_sorted.
Proof.
  split; [exact fetch_trades_admits_quicksort_order|].
  split; [reflexivity|]. split; [reflexivity|].
  intros H. specialize (H (Some 1%Z)).
  apply (f_equal (List.map Trades.size)) in H.
  vm_compute in H. discriminate H.
Qed.

Lemma fetch_trades_orders_sample :
  Trades.fetch_trades Samples.unordered_trades Samples.ordered_trades.
Proof.
  unfold Trades.fetch_trades, Frame.merge_rows. simpl.
  exists (Frame.keep_last Trades.same_key
            (Frame.of_rows Samples.unordered_trades)),
         (Frame.stable_sort Trades.timestamp
            (Frame.keep_last Trades.same_key
               (Frame.of_rows Samples.unordered_trades))).
  split; [reflexivity|]. split; [apply sort_values_total | reflexivity].
Qed.

(** Witness of [merged_table_sorted_and_reindexed]: three trades gathered
    out of order come back by ascending time, labelled 0, 1, 2. *)
Lemma merged_table_witness :
  Trades.fetch_trades Samples.unordered_trades Samples.ordered_trades
  /\ StronglySorted (Frame.le_ts Trades.timestamp)
       (Frame.rows_of Samples.ordered_trades)
  /\ Frame.labels_of Samples.ordered_trades = [0; 1; 2]%nat.
Proof.
  split; [exact fetch_trades_orders_sample|].
  destruct (proj1 merged_table_sorted_and_reindexed
              Samples.unordered_trades Samples.ordered_trades
              fetch_trades_orders_sample)
    as (deduped & _ & _ & Hs & Hl).
  split; [exact Hs | exact Hl].
Defined.

(** * Further properties of the code *)

(** ** Trades: sides, notional and market *)

Section TradeExtras.
Context {R : Py.Runtime}.
Import Py Trades.

(** X1. An explicit side decides, whatever the taker flag and the account
    indices say: "b", "bid" and "buy" in any letter case give "buy";
    "s", "ask" and "sell" give "sell".  The side is read under "side", else
    "direction", else "trade_side". *)
Theorem explicit_side_decides (raw : dict) (account_index : Z)
    (text : string) :
  str (get raw "side" ||| get raw "direction" ||| get raw "trade_side"
       ||| PStr "") = text ->
  (str_in (lower text) ["b"; "bid"; "buy"] = true ->
   _resolve_side raw account_index = "buy")
  /\ (str_in (lower text) ["s"; "ask"; "sell"] = true ->
      _resolve_side raw account_index = "sell").
Proof. exact (resolve_side_explicit raw account_index text). Qed.

(** X2. With no explicit side, a taker flag given as a boolean and a local
    account index other than 0, the side follows the role: the taker keeps
    the taker's side, the maker gets the opposite one, and an account that
    is neither gets the taker's side. *)
Theorem resolve_side_by_role (raw : dict) (account_index : Z) (ask : bool) :
  get raw "side" = PNone -> get raw "direction" = PNone ->
  get raw "trade_side" = PNone ->
  get raw "is_taker_ask" = PBool ask ->
  account_index <> 0%Z ->
  let taker_side := if ask then "sell" else "buy" in
  let taker_idx := str (get raw "taker_account_index" ||| PStr "") in
  let maker_idx := str (get raw "maker_account_index" ||| PStr "") in
  let me := str_of_int account_index in
  (get raw "taker_account_index" = PInt account_index ->
   _resolve_side raw account_index = taker_side)
  /\ (taker_idx <> me ->
      get raw "maker_account_index" = PInt account_index ->
      _resolve_side raw account_index = opposite taker_side)
  /\ (taker_idx <> me -> maker_idx <> me ->
      _resolve_side raw account_index = taker_side).
Proof.
  intros Hs Hd Ht Ha Hnz taker_side taker_idx maker_idx me.
  assert (E : _resolve_side raw account_index
              = side_for_account taker_side taker_idx maker_idx me).
  { unfold _resolve_side. rewrite Hs, Hd, Ht, Ha.
    subst taker_side. destruct ask; reflexivity. }
  rewrite E.
  destruct (side_for_account_cases taker_side taker_idx maker_idx me)
    as (Htk & Hmk & Hno).
  split; [|split].
  - intros Hk.
    assert (Ek : taker_idx = me)
      by (apply index_nonzero_reads_as_text; assumption).
    apply Htk; [|exact Ek]. rewrite Ek. apply str_of_int_nonempty.
  - intros Hne Hk.
    assert (Ek : maker_idx = me)
      by (apply index_nonzero_reads_as_text; assumption).
    apply Hmk; auto. rewrite Ek. apply str_of_int_nonempty.
  - exact Hno.
Qed.


(** A record whose "market_index" is missing, 0 or empty and that has no
    "market_id" carries no market index: the symbol map is not consulted
    and the label is the one the record gives, or the empty text. *)
Lemma resolve_market_unindexed (raw : dict) (market_map : gmap Z string) :
  truthy (get raw "market_index") = false ->
  get raw "market_id" = PNone ->
  resolve_market raw market_map
  = str (get raw "symbol" ||| get raw "market" ||| get raw "pair"
         ||| PStr "").
Proof.
  intros Hf Hid. unfold resolve_market, py_or. rewrite Hf, Hid.
  cbn [is_none negb]. rewrite andb_false_r. reflexivity.
Qed.

(** X4. The market index of a record is its "market_index", or its
    "market_id" when "market_index" is missing, 0 or empty.  An index that
    resolves in the symbol map to a symbol that is not empty decides the
    market, whatever symbol the record itself carries; a record with no
    symbol and an index that does not resolve is labelled "market_"
    followed by the index.  A record that gives the index 0 as
    "market_index" and has no "market_id" carries no index: it keeps the
    label it gives itself, the empty text if it gives none, whatever the
    symbol map holds for market 0. *)
Theorem market_index_decides_market (raw : dict) (source : string)
    (account_index : Z) (market_map : gmap Z string) :
  let market_index := get raw "market_index" ||| get raw "market_id" in
  let row := _normalize_trade raw source account_index market_map in
  (forall i symbol,
      int market_index = Some i ->
      market_map !! i = Some symbol -> symbol <> "" ->
      market row = symbol)
  /\ (forall i,
        int market_index = Some i ->
        market_map !! i = None ->
        get raw "symbol" = PNone -> get raw "market" = PNone ->
        get raw "pair" = PNone ->
        market row = ("market_" ++ str market_index)%string)
  /\ (truthy (get raw "market_index") = false ->
      market_index = get raw "market_id")
  /\ (truthy (get raw "market_index") = false ->
      get raw "market_id" = PNone ->
      market row
      = str (get raw "symbol" ||| get raw "market" ||| get raw "pair"
             ||| PStr ""))
  /\ (get raw "market_index" = PInt 0 ->
      get raw "market_id" = PNone ->
      get raw "symbol" = PNone -> get raw "market" = PNone ->
      get raw "pair" = PNone ->
      market row = "").
Proof.
  intros market_index row.
  assert (Hnn : forall i, int market_index = Some i ->
                          is_none market_index = false).
  { intros i Hi. destruct market_index; try reflexivity. discriminate Hi. }
  split; [|split; [|split; [|split]]].
  - intros i symbol Hi Hm Hne. subst row. simpl. unfold resolve_market.
    fold market_index. rewrite (Hnn i Hi), Hi, Hm.
    destruct (String.eqb_spec symbol ""); [contradiction|].
    simpl. rewrite (proj2 (String.eqb_neq symbol "")) by assumption.
    simpl. unfold py_or. simpl.
    rewrite (proj2 (String.eqb_neq symbol "")) by assumption. reflexivity.
  - intros i Hi Hm Hs Hk Hp. subst row. simpl. unfold resolve_market.
    fold market_index. rewrite (Hnn i Hi), Hi, Hm, Hs, Hk, Hp. simpl.
    reflexivity.
  - intros Hf. subst market_index. unfold py_or. now rewrite Hf.
  - intros Hf Hid. subst row. cbn [_normalize_trade market].
    now apply resolve_market_unindexed.
  - intros H0 Hid Hs Hk Hp. subst row. cbn [_normalize_trade market].
    rewrite resolve_market_unindexed; [|now rewrite H0|exact Hid].
    rewrite Hs, Hk, Hp. reflexivity.
Qed.

End TradeExtras.

(** Witness of [explicit_side_decides]: the side "BID" is a buy. *)
Lemma explicit_side_witness :
  Trades._resolve_side (R := Samples.runtime) Cases.bid_fill 9 = "buy".
Proof.
  apply (explicit_side_decides (R := Samples.runtime) Cases.bid_fill 9 "BID");
    reflexivity.
Defined.

(** Witness of [resolve_side_by_role]: the taker 7 bought, so the maker 5
    sold. *)
Lemma resolve_side_by_role_witness :
  Trades._resolve_side (R := Samples.runtime) Cases.maker_buy_fill 5 = "sell".
Proof.
  apply (resolve_side_by_role (R := Samples.runtime) Cases.maker_buy_fill 5
           false); try reflexivity; discriminate.
Defined.


(** Witness of [market_index_decides_market]: the record says "FOO", the
    symbol map says market 3 is "ETH", and "ETH" it is; the fill that names
    market 0 by "market_index" gets the empty label though market 0 is
    listed as "BTC". *)
Lemma market_index_witness :
  Trades.market
    (Trades._normalize_trade (R := Samples.runtime) Cases.maker_buy_fill
       "trades" 5 Cases.symbols)
  = "ETH"
  /\ Trades.market
       (Trades._normalize_trade (R := Samples.runtime) Cases.zero_index_fill
          "trades" 5 Cases.zero_listed)
     = "".
Proof.
  split.
  - apply (proj1 (market_index_decides_market (R := Samples.runtime)
                    Cases.maker_buy_fill "trades" 5 Cases.symbols) 3%Z).
    + reflexivity.
    + reflexivity.
    + discriminate.
  - apply (market_index_decides_market (R := Samples.runtime)
             Cases.zero_index_fill "trades" 5 Cases.zero_listed);
      reflexivity.
Defined.

(** ** Transfers: type, amount and asset *)

Section TransferExtras.
Context {R : Py.Runtime}.
Import Py Transfers.

(** X5. The event type is "deposit", "withdraw" or "transfer" whenever the
    fallback type is one of the three, as it is at every call; "deposit"
    wins over "withdraw", which wins over "transfer", and the letter case
    of the type text does not matter. *)
Theorem transfer_event_type_range (raw : dict) (source fallback_type : string) :
  In fallback_type ["deposit"; "withdraw"; "transfer"] ->
  let text :=
    lower (str (get raw "tx_type" ||| get raw "type" ||| PStr fallback_type)) in
  let row := _normalize raw source fallback_type in
  In (event_type row) ["deposit"; "withdraw"; "transfer"]
  /\ (contains "deposit" text = true -> event_type row = "deposit")
  /\ (contains "deposit" text = false -> contains "withdraw" text = true ->
      event_type row = "withdraw").
Proof.
  intros Hfb text row. subst row. unfold _normalize. cbn [event_type].
  fold text.
  destruct (contains "deposit" text) eqn:Ed;
    [|destruct (contains "withdraw" text) eqn:Ew;
      [|destruct (contains "transfer" text)]];
    repeat split; simpl; auto; try discriminate.
  all: simpl in Hfb; intuition.
Qed.

Lemma first_some_none {A B : Type} (f : A -> option B) (l : list A) :
  first_some f l = None <-> forall x, In x l -> f x = None.
Proof.
  induction l as [|x l IH]; simpl.
  - split; [intros _ ? [] | reflexivity].
  - destruct (f x) eqn:E.
    + split; [discriminate|]. intros H. rewrite <- E. apply H. now left.
    + rewrite IH. split.
      * intros H y [<- | Hy]; auto.
      * intros H y Hy. apply H. now right.
Qed.

Lemma first_some_some {A B : Type} (f : A -> option B) (l : list A) (y : B) :
  first_some f l = Some y -> exists x, In x l /\ f x = Some y.
Proof.
  induction l as [|x l IH]; simpl; [discriminate|].
  destruct (f x) eqn:E.
  - intros [= <-]. eauto.
  - intros H. destruct (IH H) as (x' & Hin & Hx'). eauto.
Qed.

Lemma nonzero_some (v y : Q) : nonzero v = Some y -> y = v /\ ~ (v == 0)%Q.
Proof.
  unfold nonzero. destruct (Qeq_bool v 0) eqn:E; [discriminate|].
  intros [= <-]. split; [reflexivity|]. now apply Qeq_bool_neq.
Qed.

(** X6. The amount is 0 only when every top-level candidate ("amount",
    "accepted_amount", "usdc_amount", "value") is missing or 0: a zero under
    one key never hides a value under a later one. *)
Theorem pick_amount_zero_only_if_all_zero (raw : dict) :
  (_pick_amount raw == 0)%Q ->
  forall key, In key ["amount"; "accepted_amount"; "usdc_amount"; "value"] ->
              (to_float (get raw key) 0 == 0)%Q.
Proof.
  unfold _pick_amount.
  destruct (first_some _ ["amount"; "accepted_amount"; "usdc_amount"; "value"])
    as [v|] eqn:E.
  - intros Hv. apply first_some_some in E. destruct E as (k & _ & Hk).
    destruct (is_none (get raw k)); [discriminate|].
    apply nonzero_some in Hk. destruct Hk as [-> Hk]. contradiction.
  - intros _ key Hkey.
    rewrite first_some_none in E. specialize (E key Hkey). cbv beta in E.
    destruct (get raw key) eqn:Eg; try reflexivity;
      cbn [is_none] in E; unfold nonzero in E;
      destruct (Qeq_bool _ 0) eqn:Ez; try discriminate;
      now apply Qeq_bool_iff.
Qed.

(** X7. Without a [pubdata] dictionary the asset is never blank: it is a
    top-level value that is not blank, or the default "USDC". *)
Theorem pick_asset_not_blank (raw : dict) :
  pubdata raw = [] -> is_blank (_pick_asset raw) = false.
Proof.
  intros Hp. unfold _pick_asset. rewrite Hp.
  destruct (first_some _ ["asset"; "asset_index"; "token"]) as [a|] eqn:E.
  - apply first_some_some in E. destruct E as (k & _ & Hk). cbv zeta in Hk.
    destruct (negb (is_none (get raw k)) && negb (is_blank (str (get raw k))))
      eqn:Ec; [|discriminate].
    injection Hk as <-. apply andb_prop in Ec. destruct Ec as [_ Ec].
    now apply negb_true_iff in Ec.
  - reflexivity.
Qed.

End TransferExtras.

(** Witness of [transfer_event_type_range]: "L1Deposit" from the explorer,
    with the fallback "transfer", is a deposit. *)
Lemma transfer_event_type_witness :
  Transfers.event_type
    (Transfers._normalize (R := Samples.runtime) Cases.token_deposit
       "explorer.logs[5]" "transfer")
  = "deposit".
Proof.
  apply (transfer_event_type_range (R := Samples.runtime) Cases.token_deposit
           "explorer.logs[5]" "transfer").
  - right. right. now left.
  - reflexivity.
Defined.

(** Witness of [pick_asset_not_blank]. *)
Lemma pick_asset_witness :
  Py.is_blank (Transfers._pick_asset (R := Samples.runtime) Cases.token_deposit)
  = false.
Proof.
  apply (pick_asset_not_blank (R := Samples.runtime) Cases.token_deposit).
  reflexivity.
Defined.

(** ** No key is left twice after a merge *)

Section DistinctKeys.
Context {row : Type}.
Variable same : row -> row -> bool.
Variable hashable_key : row -> bool.
Variable ts : row -> option Z.
Import Frame.

Lemma keep_last_distinct (df : DataFrame row) :
  ForallOrdPairs (fun a b => same a b = false) (rows_of (keep_last same df)).
Proof.
  induction df as [|[i r] df IH]; simpl; [constructor|].
  destruct (existsb (fun jr => same r (snd jr)) df) eqn:E; [exact IH|].
  simpl. constructor; [|exact IH].
  apply List.Forall_forall. intros r' Hr'.
  apply in_map_iff in Hr'. destruct Hr' as ([j r''] & <- & Hin).
  apply keep_last_subset in Hin. simpl.
  destruct (same r r'') eqn:Es; [|reflexivity].
  assert (existsb (fun jr => same r (snd jr)) df = true)
    by (apply existsb_exists; exists (j, r''); auto).
  congruence.
Qed.

Hypothesis same_sym : forall a b, same a b = same b a.

Lemma distinct_perm (l l' : list row) :
  Permutation l l' ->
  ForallOrdPairs (fun a b => same a b = false) l ->
  ForallOrdPairs (fun a b => same a b = false) l'.
Proof.
  induction 1 as [|x l l' Hp IH|x y l|l l' l'' _ IH1 _ IH2]; intros H.
  - constructor.
  - inversion H as [|? ? Hx Hl]; subst. constructor; [|now apply IH].
    eapply Permutation_Forall; eassumption.
  - inversion H as [|? ? Hy Hl]; subst.
    inversion Hl as [|? ? Hx Hl']; subst.
    inversion Hy as [|? ? Hyx Hyl]; subst.
    constructor; [|constructor; assumption].
    constructor; [|assumption]. now rewrite same_sym.
  - auto.
Qed.

(** In a table the merge returns, no two rows agree on the key columns. *)
Lemma merge_rows_distinct (rows : list row) (out : DataFrame row) :
  merge_rows same hashable_key ts rows out ->
  ForallOrdPairs (fun a b => same a b = false) (rows_of out).
Proof.
  intros H. destruct (merge_rows_sound same hashable_key ts rows out H)
    as (deduped & Hd & Hp & _).
  apply (distinct_perm (rows_of deduped)); [now symmetry|].
  unfold drop_duplicates in Hd.
  destruct (forallb _ _); [|discriminate]. injection Hd as <-.
  apply keep_last_distinct.
Qed.

End DistinctKeys.

Lemma eq_ts_sym (a b : option Z) : Trades.eq_ts a b = Trades.eq_ts b a.
Proof. destruct a, b; simpl; auto using Z.eqb_sym. Qed.

Lemma py_eq_sym (a b : Py.pyval) : Py.py_eq a b = Py.py_eq b a.
Proof.
  unfold Py.py_eq.
  destruct a, b; simpl; auto using Qeq_bool_comm, String.eqb_sym.
Qed.

Lemma trade_key_sym (a b : Trades.TradeRow) :
  Trades.same_key a b = Trades.same_key b a.
Proof.
  unfold Trades.same_key.
  now rewrite (eq_ts_sym (Trades.timestamp a)),
    (String.eqb_sym (Trades.side a)), (String.eqb_sym (Trades.market a)),
    (Qeq_bool_comm (Trades.size a)), (Qeq_bool_comm (Trades.price a)),
    (py_eq_sym (Trades.tx_hash a)).
Qed.

Lemma transfer_key_sym (a b : Transfers.TransferRow) :
  Transfers.same_key a b = Transfers.same_key b a.
Proof.
  unfold Transfers.same_key.
  now rewrite (eq_ts_sym (Transfers.timestamp a)),
    (String.eqb_sym (Transfers.event_type a)),
    (String.eqb_sym (Transfers.asset a)),
    (Qeq_bool_comm (Transfers.amount_quote a)),
    (py_eq_sym (Transfers.tx_hash a)).
Qed.

Lemma balance_key_sym (a b : Balances.BalanceRow) :
  Balances.same_key a b = Balances.same_key b a.
Proof.
  unfold Balances.same_key.
  now rewrite (eq_ts_sym (Balances.timestamp a)),
    (Qeq_bool_comm (Balances.total_asset_value_quote a)),
    (Qeq_bool_comm (Balances.collateral_quote a)),
    (String.eqb_sym (Balances.source a)).
Qed.

Lemma airdrop_key_sym (a b : Airdrops.AirdropRow) :
  Airdrops.same_key a b = Airdrops.same_key b a.
Proof.
  unfold Airdrops.same_key.
  now rewrite (eq_ts_sym (Airdrops.timestamp a)),
    (String.eqb_sym (Airdrops.asset a)),
    (Qeq_bool_comm (Airdrops.quantity a)),
    (String.eqb_sym (Airdrops.event_type a)),
    (String.eqb_sym (Airdrops.source a)).
Qed.

(** X8. In the table an extractor returns, no two rows agree on all the key
    columns of its [drop_duplicates]: this holds for trades, transfers,
    balance snapshots and airdrops, also after the sort has moved the rows. *)
Theorem merged_tables_hold_each_key_once :
  (forall rows out,
      Trades.fetch_trades rows out ->
      ForallOrdPairs (fun a b => Trades.same_key a b = false)
        (Frame.rows_of out))
  /\ (forall rows out,
        Transfers.fetch_transfers rows out ->
        ForallOrdPairs (fun a b => Transfers.same_key a b = false)
          (Frame.rows_of out))
  /\ (forall rows out,
        Balances.fetch_balance_history rows out ->
        ForallOrdPairs (fun a b => Balances.same_key a b = false)
          (Frame.rows_of out))
  /\ (forall rows out,
        Airdrops.fetch_airdrops_and_token_transfers rows out ->
        ForallOrdPairs (fun a b => Airdrops.same_key a b = false)
          (Frame.rows_of out)).
Proof.
  split; [|split; [|split]]; intros rows out.
  - apply merge_rows_distinct, trade_key_sym.
  - apply merge_rows_distinct, transfer_key_sym.
  - apply merge_rows_distinct, balance_key_sym.
  - apply merge_rows_distinct, airdrop_key_sym.
Qed.

(** Witness of [merged_tables_hold_each_key_once] on the three sample
    trades. *)
Lemma each_key_once_witness :
  ForallOrdPairs (fun a b => Trades.same_key a b = false)
    (Frame.rows_of Samples.ordered_trades).
Proof.
  exact (proj1 merged_tables_hold_each_key_once Samples.unordered_trades
           Samples.ordered_trades fetch_trades_orders_sample).
Defined.

(** ** The extractors: rows gathered and statuses reported *)

Section CollectFacts.
Context {R : Py.Runtime}.
Import Py Collect.

Lemma snapshot_row_timestamped (now : Z) (raw : dict) (source : string) :
  Balances.timestamp (Balances._snapshot_row now raw source) <> None.
Proof.
  simpl. destruct (parse_timestamp _); discriminate.
Qed.

Lemma in_concat_fst {A B : Type} (l : list (list A * B)) (x : A) :
  In x (List.concat (List.map fst l)) ->
  exists p, In p l /\ In x (fst p).
Proof.
  intros H. apply in_concat in H. destruct H as (rows & Hrows & Hx).
  apply in_map_iff in Hrows. destruct Hrows as (p & <- & Hp). eauto.
Qed.

(** A row the loop gives was appended by its body on one of the records. *)
Lemma run_loop_in {A B : Type} (body : A -> step B) (records : list A)
    (r : B) :
  In r (fst (run_loop body records)) ->
  exists x, In x records /\ body x = Append r.
Proof.
  induction records as [|x rest IH]; cbn [run_loop]; [intros []|].
  destruct (body x) as [e | | row] eqn:E.
  - intros [].
  - intros H. destruct (IH H) as (y & Hy & Hb). exists y. split; auto.
    now right.
  - destruct (run_loop body rest) as [rows raised]. cbn [fst] in *.
    intros [<- | H].
    + exists x. split; [now left | exact E].
    + destruct (IH H) as (y & Hy & Hb). exists y. split; auto. now right.
Qed.

Lemma run_loop_length {A B : Type} (body : A -> step B) (records : list A) :
  (length (fst (run_loop body records)) <= length records)%nat.
Proof.
  induction records as [|x rest IH]; cbn [run_loop]; [apply Nat.le_refl|].
  destruct (body x) as [e | | row].
  - apply Nat.le_0_l.
  - cbn [length]. apply Nat.le_le_succ_r, IH.
  - destruct (run_loop body rest) as [rows raised]. cbn [fst length] in *.
    apply le_n_S, IH.
Qed.

(** A loop over a normaliser that ends without an exception has turned
    every record into a row. *)
Lemma run_loop_normalise_done {A B : Type} (error : A -> option string)
    (f : A -> B) (records : list A) :
  snd (run_loop (normalise error f) records) = None ->
  fst (run_loop (normalise error f) records) = List.map f records.
Proof.
  induction records as [|x rest IH]; cbn [run_loop List.map];
    [reflexivity|].
  destruct (normalise error f x) as [e | | row] eqn:E; unfold normalise in E;
    destruct (error x); try discriminate.
  injection E as <-.
  destruct (run_loop (normalise error f) rest) as [rows raised].
  cbn [fst snd] in *. intros ->. now rewrite IH.
Qed.

Lemma in_normalise_loop {A B : Type} (error : A -> option string)
    (f : A -> B) (records : list A) (r : B) :
  In r (fst (run_loop (normalise error f) records)) ->
  exists x, In x records /\ r = f x.
Proof.
  intros H. apply run_loop_in in H. destruct H as (x & Hx & Hb).
  unfold normalise in Hb. destruct (error x); [discriminate|].
  injection Hb as <-. eauto.
Qed.

Lemma fst_loop_status {A B C : Type} (p : list A * B)
    (g : list A -> B -> C) :
  fst (let '(rows, raised) := p in (rows, g rows raised)) = fst p.
Proof. now destruct p. Qed.

Lemma in_account_endpoint (now : Z) (account : fetched dict)
    (r : Balances.BalanceRow) :
  In r (fst (account_endpoint now account)) ->
  exists raw, r = Balances._snapshot_row now raw "account".
Proof.
  unfold account_endpoint. destruct account as [e | a]; [intros []|].
  destruct (Balances._snapshot_row_error a); [intros []|].
  intros [<- | []]. eauto.
Qed.

Lemma in_history_endpoint (now : Z) (endpoint : string)
    (outcome : fetched (list dict)) (r : Balances.BalanceRow) :
  In r (fst (history_endpoint now endpoint outcome)) ->
  exists raw, r = Balances._snapshot_row now raw endpoint.
Proof.
  unfold history_endpoint. destruct outcome as [e | batch]; [intros []|].
  destruct (run_loop _ batch) as [rows raised] eqn:E. cbn [fst].
  intros Hr.
  assert (Hin : In r (fst (run_loop
                             (normalise Balances._snapshot_row_error
                                (fun raw =>
                                   Balances._snapshot_row now raw endpoint))
                             batch)))
    by now rewrite E.
  apply run_loop_in in Hin. destruct Hin as (raw & _ & Hb).
  unfold normalise in Hb. destruct (Balances._snapshot_row_error raw);
    [discriminate|].
  injection Hb as <-. eauto.
Qed.

Lemma balances_rows_timestamped (now : Z) (account : fetched dict)
    (paginate : string -> fetched (list dict)) :
  Forall (fun r => Balances.timestamp r <> None)
    (fst (balances_rows now account paginate)).
Proof.
  unfold balances_rows.
  destruct (account_endpoint now account) as [r0 s0] eqn:E0. cbn [fst].
  apply List.Forall_forall. intros r Hr.
  apply in_app_or in Hr. destruct Hr as [Hr | Hr].
  - assert (Hin : In r (fst (account_endpoint now account)))
      by now rewrite E0.
    apply in_account_endpoint in Hin. destruct Hin as (raw & ->).
    apply snapshot_row_timestamped.
  - apply in_concat_fst in Hr. destruct Hr as (p & Hp & Hr).
    apply in_map_iff in Hp. destruct Hp as (endpoint & <- & _).
    apply in_history_endpoint in Hr. destruct Hr as (raw & ->).
    apply snapshot_row_timestamped.
Qed.

(** X9. Every row of the balance history carries a timestamp (a snapshot
    without one is stamped with the clock), so the table comes back in
    ascending order of time with no row set aside as undated. *)
Theorem balance_history_always_timestamped (now : Z) (account : fetched dict)
    (paginate : string -> fetched (list dict))
    (out : Frame.DataFrame Balances.BalanceRow) :
  Balances.fetch_balance_history
    (fst (balances_rows now account paginate)) out ->
  Forall (fun r => Balances.timestamp r <> None) (Frame.rows_of out)
  /\ StronglySorted (Frame.le_ts Balances.timestamp) (Frame.rows_of out).
Proof.
  intros H.
  destruct (merge_rows_sound _ _ _ _ _ H) as (deduped & Hd & Hp & Hs & _).
  split; [|exact Hs].
  eapply Permutation_Forall; [symmetry; exact Hp|].
  unfold Frame.drop_duplicates in Hd.
  destruct (forallb _ _); [|discriminate]. injection Hd as <-.
  apply List.Forall_forall. intros r Hr.
  apply in_map_iff in Hr. destruct Hr as ([i r'] & <- & Hin).
  apply keep_last_subset in Hin.
  pose proof (balances_rows_timestamped now account paginate) as Hall.
  rewrite List.Forall_forall in Hall. apply Hall.
  rewrite <- (rows_of_of_rows (fst (balances_rows now account paginate))).
  apply in_map_iff. exists (i, r'). auto.
Qed.

Lemma tally_concat_le {A : Type} (l : list (list A * Main.EndpointStatus)) :
  Forall (fun p => (Main.records (snd p) <= Z.of_nat (length (fst p)))%Z) l ->
  (fold_right Z.add 0%Z (List.map Main.records (List.map snd l))
   <= Z.of_nat (length (List.concat (List.map fst l))))%Z.
Proof.
  induction 1 as [|p l Hp _ IH]; simpl; [lia|].
  rewrite length_app, Nat2Z.inj_add. lia.
Qed.

Lemma counts_rows_le {B : Type} (p : list B * Main.EndpointStatus) :
  counts_rows p -> (Main.records (snd p) <= Z.of_nat (length (fst p)))%Z.
Proof.
  unfold counts_rows. destruct (Main.success (snd p)); intros ->; lia.
Qed.

(** An endpoint whose loop normalises every record: its status counts the
    records when the loop ends well, and these are the rows. *)
Lemma counts_rows_normalise {A B : Type} (error : A -> option string)
    (f : A -> B) (records : list A) (endpoint : string) :
  counts_rows
    (let '(rows, raised) := run_loop (normalise error f) records in
     (rows,
      match raised with
      | None => status endpoint true (length records) ""
      | Some e => status endpoint false 0 e
      end)).
Proof.
  pose proof (run_loop_normalise_done error f records) as Hdone.
  destruct (run_loop (normalise error f) records) as [rows raised].
  cbn [fst snd] in Hdone. unfold counts_rows.
  destruct raised as [e|]; cbn; [reflexivity|].
  rewrite (Hdone eq_refl), length_map. reflexivity.
Qed.

Lemma counts_rows_added {A B : Type} (body : A -> step B) (records : list A)
    (endpoint : string) :
  counts_rows
    (let '(rows, raised) := run_loop body records in
     (rows,
      match raised with
      | None => status endpoint true (length rows) ""
      | Some e => status endpoint false 0 e
      end)).
Proof.
  destruct (run_loop body records) as [rows raised]. unfold counts_rows.
  destruct raised as [e|]; reflexivity.
Qed.

Lemma trades_endpoint_counts (t : fetched (list dict)) (account_index : Z)
    (market_map : gmap Z string) :
  counts_rows (trades_endpoint t account_index market_map).
Proof.
  unfold trades_endpoint. destruct t as [e | [|x collected]];
    try reflexivity.
  apply counts_rows_normalise.
Qed.

Lemma account_trades_endpoint_counts (a : fetched (list dict))
    (account_index : Z) (market_map : gmap Z string) :
  counts_rows (account_trades_endpoint a account_index market_map).
Proof.
  unfold account_trades_endpoint. destruct a as [e | trades];
    [reflexivity|]. apply counts_rows_normalise.
Qed.

Lemma explorer_trades_counts (param : string) (o : fetched (list dict))
    (account_index : Z) (market_map : gmap Z string) :
  counts_rows (explorer_trades param o account_index market_map).
Proof.
  unfold explorer_trades. destruct o as [e | logs]; [reflexivity|].
  apply counts_rows_added.
Qed.

Lemma account_endpoint_counts (now : Z) (account : fetched dict) :
  counts_rows (account_endpoint now account).
Proof.
  unfold account_endpoint. destruct account as [e | a]; [reflexivity|].
  destruct (Balances._snapshot_row_error a); reflexivity.
Qed.

Lemma history_endpoint_counts (now : Z) (endpoint : string)
    (o : fetched (list dict)) :
  counts_rows (history_endpoint now endpoint o).
Proof.
  unfold history_endpoint. destruct o as [e | batch]; [reflexivity|].
  apply counts_rows_added.
Qed.

(** X10. A status that reports success counts exactly the rows its endpoint
    added (for an explorer.logs endpoint it counts the logs read, which are
    at least the rows added), and a status that reports a failure counts 0.
    A failure while normalising leaves the rows normalised before it in the
    table: when the first record of "trades" normalises and the second one
    raises, one row is gathered and the status reports a failure with 0
    records.  So for trades and for balances the record counts add up to at
    most the number of rows gathered. *)
Theorem status_records_account_for_rows :
  (forall t account_index market_map,
      counts_rows (trades_endpoint t account_index market_map))
  /\ (forall a account_index market_map,
        counts_rows (account_trades_endpoint a account_index market_map))
  /\ (forall param o account_index market_map,
        counts_rows (explorer_trades param o account_index market_map))
  /\ (forall endpoint fallback_type o,
        counts_rows (transfer_endpoint endpoint fallback_type o))
  /\ (forall param o,
        let '(rows, st) := explorer_transfers param o in
        if Main.success st
        then (Z.of_nat (length rows) <= Main.records st)%Z
        else Main.records st = 0%Z)
  /\ (forall now account, counts_rows (account_endpoint now account))
  /\ (forall now endpoint o, counts_rows (history_endpoint now endpoint o))
  /\ (forall param o, counts_rows (explorer_airdrops param o))
  /\ (forall good bad rest account_index market_map e,
        Trades._normalize_trade_error good = None ->
        Trades._normalize_trade_error bad = Some e ->
        trades_endpoint (Fetched (good :: bad :: rest)) account_index
          market_map
        = ([Trades._normalize_trade good "trades" account_index market_map],
           status "trades" false 0 e))
  /\ (forall t a ex account_index l1_address market_map,
        let '(rows, statuses) :=
          trades_rows t a ex account_index l1_address market_map in
        (fold_right Z.add 0%Z (List.map Main.records statuses)
         <= Z.of_nat (length rows))%Z)
  /\ (forall now account paginate,
        let '(rows, statuses) := balances_rows now account paginate in
        (fold_right Z.add 0%Z (List.map Main.records statuses)
         <= Z.of_nat (length rows))%Z).
Proof.
  split; [exact trades_endpoint_counts|].
  split; [exact account_trades_endpoint_counts|].
  split; [exact explorer_trades_counts|].
  split.
  { intros endpoint fb o. unfold transfer_endpoint.
    destruct o as [e | batch]; [reflexivity|]. apply counts_rows_normalise. }
  split.
  { intros param o. unfold explorer_transfers.
    destruct o as [e | logs]; [reflexivity|].
    pose proof (run_loop_length
                  (fun log =>
                     if str_in (lower (str (py_or (get log "tx_type")
                                                (PStr ""))))
                          transfer_log_types
                     then normalise Transfers._normalize_error
                            (fun x =>
                               Transfers._normalize x
                                 ("explorer.logs[" ++ param ++ "]")%string
                                 "transfer")
                            log
                     else Skip)
                  logs) as Hlen.
    destruct (run_loop _ logs) as [rows raised]. cbn [fst] in Hlen.
    destruct raised as [e|]; cbn; [reflexivity|]. now apply inj_le. }
  split; [exact account_endpoint_counts|].
  split; [exact history_endpoint_counts|].
  split.
  { intros param o. unfold explorer_airdrops.
    destruct o as [e | logs]; [reflexivity|]. apply counts_rows_added. }
  split.
  { intros good bad rest account_index market_map e Hgood Hbad.
    unfold trades_endpoint. cbn [run_loop]. unfold normalise at 1.
    rewrite Hgood. unfold normalise at 1. rewrite Hbad. reflexivity. }
  split.
  - intros t a ex account_index l1_address market_map. unfold trades_rows.
    pose proof (counts_rows_le _ (trades_endpoint_counts t account_index
                                    market_map)) as H1.
    pose proof (counts_rows_le _ (account_trades_endpoint_counts a
                                    account_index market_map)) as H2.
    destruct (trades_endpoint t account_index market_map) as [r1 s1].
    destruct (account_trades_endpoint a account_index market_map)
      as [r2 s2].
    cbn [fst snd] in H1, H2.
    cbn [List.map fold_right]. rewrite !length_app, !Nat2Z.inj_add.
    pose proof (tally_concat_le
                  (List.map
                     (fun param =>
                        explorer_trades param (ex param) account_index
                          market_map)
                     (explorer_params account_index l1_address))) as He.
    assert (Hall : Forall
                     (fun p : list Trades.TradeRow * Main.EndpointStatus =>
                        (Main.records (snd p)
                         <= Z.of_nat (length (fst p)))%Z)
                     (List.map
                        (fun param =>
                           explorer_trades param (ex param) account_index
                             market_map)
                        (explorer_params account_index l1_address))).
    { apply List.Forall_forall. intros p Hp.
      apply in_map_iff in Hp. destruct Hp as (param & <- & _).
      apply counts_rows_le, explorer_trades_counts. }
    specialize (He Hall). lia.
  - intros now account paginate. unfold balances_rows.
    pose proof (counts_rows_le _ (account_endpoint_counts now account))
      as H0.
    destruct (account_endpoint now account) as [r0 s0]. cbn [fst snd] in H0.
    cbn [List.map fold_right]. rewrite length_app, Nat2Z.inj_add.
    pose proof (tally_concat_le
                  (List.map
                     (fun endpoint =>
                        history_endpoint now endpoint (paginate endpoint))
                     balance_endpoints)) as Hh.
    assert (Hall : Forall
                     (fun p : list Balances.BalanceRow * Main.EndpointStatus =>
                        (Main.records (snd p)
                         <= Z.of_nat (length (fst p)))%Z)
                     (List.map
                        (fun endpoint =>
                           history_endpoint now endpoint (paginate endpoint))
                        balance_endpoints)).
    { apply List.Forall_forall. intros p Hp.
      apply in_map_iff in Hp. destruct Hp as (endpoint & <- & _).
      apply counts_rows_le, history_endpoint_counts. }
    specialize (Hh Hall). lia.
Qed.

End CollectFacts.

(** ** The coverage guard after the extractors *)

Section PipelineCoverage.
Context {R : Py.Runtime}.
Import Py Collect Main.

Lemma transfer_endpoint_name (endpoint fallback_type : string)
    (outcome : fetched (list dict)) :
  name (snd (transfer_endpoint endpoint fallback_type outcome)) = endpoint.
Proof.
  unfold transfer_endpoint. destruct outcome as [e | batch]; [reflexivity|].
  destruct (run_loop _ batch) as [rows [e|]]; reflexivity.
Qed.

Lemma trades_endpoint_name (outcome : fetched (list dict)) (account_index : Z)
    (market_map : gmap Z string) :
  name (snd (trades_endpoint outcome account_index market_map)) = "trades".
Proof.
  unfold trades_endpoint. destruct outcome as [e | [|x c]]; try reflexivity.
  destruct (run_loop _ (x :: c)) as [rows [e|]]; reflexivity.
Qed.

(** Whatever the endpoints answer, the four core endpoints have a status
    when [main] reaches the guard. *)
Lemma core_always_attempted
    (paginate ex_t : string -> fetched (list dict))
    (t a : fetched (list dict)) (ex_tr : string -> fetched (list dict))
    (account_index : Z) (l1_address : string) (market_map : gmap Z string)
    (st_balances st_airdrops : list EndpointStatus) (n : string) :
  In n core ->
  attempted
    (endpoint_statuses
       (snd (Collect.transfers_rows paginate ex_t account_index l1_address))
       (snd (Collect.trades_rows t a ex_tr account_index l1_address market_map))
       st_balances st_airdrops) n.
Proof.
  intros Hn. unfold attempted, endpoint_statuses.
  unfold Collect.transfers_rows, Collect.trades_rows. cbn [snd].
  destruct (trades_endpoint t account_index market_map) as [r1 s1] eqn:E1.
  destruct (account_trades_endpoint a account_index market_map) as [r2 s2].
  cbn [snd].
  destruct Hn as [<- | [<- | [<- | [<- | []]]]].
  - exists s1. split.
    + apply in_or_app. right. now left.
    + replace s1 with (snd (trades_endpoint t account_index market_map))
        by now rewrite E1.
      apply trades_endpoint_name.
  - eexists. split.
    + apply in_or_app. left. apply in_or_app. left. now left.
    + apply transfer_endpoint_name.
  - eexists. split.
    + apply in_or_app. left. apply in_or_app. left. right. now left.
    + apply transfer_endpoint_name.
  - eexists. split.
    + apply in_or_app. left. apply in_or_app. left. right. right. now left.
    + apply transfer_endpoint_name.
Qed.

Lemma filter_all {A : Type} (p : A -> bool) (l : list A) :
  (forall x, In x l -> p x = true) -> List.filter p l = l.
Proof.
  induction l as [|x l IH]; intros H; simpl; [reflexivity|].
  rewrite (H x) by now left. f_equal. apply IH. intros y Hy. apply H. now right.
Qed.

Lemma filter_none {A : Type} (p : A -> bool) (l : list A) :
  (forall x, In x l -> p x = false) -> List.filter p l = [].
Proof.
  induction l as [|x l IH]; intros H; simpl; [reflexivity|].
  rewrite (H x) by now left. apply IH. intros y Hy. apply H. now right.
Qed.

(** X11. In [main] the guard never finds a core endpoint missing: it aborts
    exactly when both tables are empty and all four core endpoints failed,
    and the error it raises then lists no missing endpoint, all four core
    endpoints as failed, and no rows. *)
Theorem guard_after_extractors
    (paginate ex_t : string -> fetched (list dict))
    (t a : fetched (list dict)) (ex_tr : string -> fetched (list dict))
    (account_index : Z) (l1_address : string) (market_map : gmap Z string)
    (st_balances st_airdrops : list EndpointStatus)
    (transfers : Frame.DataFrame Transfers.TransferRow)
    (trades : Frame.DataFrame Trades.TradeRow) :
  let statuses :=
    endpoint_statuses
      (snd (Collect.transfers_rows paginate ex_t account_index l1_address))
      (snd (Collect.trades_rows t a ex_tr account_index l1_address market_map))
      st_balances st_airdrops in
  let out := _ensure_api_coverage statuses transfers trades in
  ((exists d, out = RaisesRuntimeError d)
   <-> transfers = [] /\ trades = []
       /\ forall n, In n core -> endpoint_failed statuses n)
  /\ (forall d, out = RaisesRuntimeError d ->
        missing_core_status d = []
        /\ failed_core_endpoints d = core
        /\ Main.transfers_rows d = 0%nat /\ Main.trades_rows d = 0%nat).
Proof.
  intros statuses out. subst out.
  assert (Hatt : forall n, In n core -> attempted statuses n)
    by (intros n Hn; now apply core_always_attempted).
  assert (Hmissing :
            List.filter (fun n => negb (is_in (by_name_of statuses) n)) core
            = []).
  { apply filter_none. intros n Hn. apply negb_false_iff.
    apply is_in_attempted, Hatt, Hn. }
  pose proof (all_core_failed_spec statuses) as Hall. cbv zeta in Hall.
  assert (Hraise : (exists d, _ensure_api_coverage statuses transfers trades
                              = RaisesRuntimeError d)
                   <-> transfers = [] /\ trades = []
                       /\ forall n, In n core -> endpoint_failed statuses n).
  { unfold _ensure_api_coverage. cbv zeta. rewrite Hmissing.
    cbn [negb orb]. rewrite <- !frame_empty_nil.
    destruct (Frame.empty transfers), (Frame.empty trades); cbn [andb].
    - destruct (length _ =? length _)%nat eqn:E.
      + split; [|eauto]. intros _. repeat split.
        intros n Hn. apply (proj1 Hall eq_refl); auto.
      + split; [intros (d & Hd); discriminate|].
        intros (_ & _ & Hf).
        assert (false = true) by (apply Hall; auto). discriminate.
    - split; [intros (d & Hd); discriminate | intros (_ & H & _); discriminate].
    - split; [intros (d & Hd); discriminate | intros (H & _); discriminate].
    - split; [intros (d & Hd); discriminate | intros (H & _); discriminate]. }
  split; [exact Hraise|].
  intros d Hd.
  destruct (proj1 Hraise (ex_intro _ d Hd)) as (Et & Er & Hf).
  unfold _ensure_api_coverage in Hd. cbv zeta in Hd.
  rewrite Hmissing in Hd.
  remember (List.filter
              (fun n => match by_name_of statuses !! n with
                        | Some s => negb (success s)
                        | None => false
                        end) core) as failed eqn:Ef.
  destruct (_ || _); [|discriminate].
  injection Hd as <-.
  cbn [missing_core_status failed_core_endpoints
       Main.transfers_rows Main.trades_rows].
  split; [reflexivity|]. split.
  - rewrite Ef. apply filter_all. intros n Hn. apply failed_spec. auto.
  - rewrite Et, Er. split; reflexivity.
Qed.

End PipelineCoverage.

(** Witness of [status_records_account_for_rows]: the fill of account 5
    normalises, the next one overflows; "trades" is reported as failed with
    0 records and the table holds the row of the first fill. *)
Lemma partial_failure_witness :
  Collect.trades_endpoint (R := Samples.runtime)
    (Collect.Fetched [Cases.maker_buy_fill; Cases.overflowing_fill]) 5
    Cases.symbols
  = ([Cases.one_fill],
     Collect.status "trades" false 0 "int too large to convert to float").
Proof.
  destruct (status_records_account_for_rows (R := Samples.runtime))
    as (_ & _ & _ & _ & _ & _ & _ & _ & H & _).
  apply H; reflexivity.
Defined.

(** Witness of [pick_amount_zero_only_if_all_zero]. *)
Lemma pick_amount_zero_witness :
  (Py.to_float (R := Samples.runtime) (Py.get Cases.zero_transfer "value") 0
   == 0)%Q.
Proof.
  apply (pick_amount_zero_only_if_all_zero (R := Samples.runtime)
           Cases.zero_transfer).
  - reflexivity.
  - right. right. right. now left.
Defined.

Lemma balance_history_of_account_only :
  Balances.fetch_balance_history
    (fst (Collect.balances_rows (R := Samples.runtime) 1000
            (Collect.Fetched Cases.account_snapshot) Cases.no_history))
    [(0%nat, Cases.account_row)].
Proof.
  unfold Balances.fetch_balance_history, Frame.merge_rows. simpl.
  exists [(0%nat, Cases.account_row)], [(0%nat, Cases.account_row)].
  split; [reflexivity|]. split; [|reflexivity].
  exact (sort_values_total Balances.timestamp [(0%nat, Cases.account_row)]).
Qed.

(** Witness of [balance_history_always_timestamped]: the account snapshot
    alone, stamped with the clock. *)
Lemma balance_history_witness :
  Forall (fun r => Balances.timestamp r <> None) [Cases.account_row]
  /\ StronglySorted (Frame.le_ts Balances.timestamp) [Cases.account_row].
Proof.
  exact (balance_history_always_timestamped (R := Samples.runtime) 1000
           (Collect.Fetched Cases.account_snapshot) Cases.no_history
           [(0%nat, Cases.account_row)] balance_history_of_account_only).
Defined.

(** ** What a merge keeps of the rows gathered *)

Section MergeKeeps.
Context {row : Type}.
Variable same : row -> row -> bool.
Variable hashable_key : row -> bool.
Variable ts : row -> option Z.
Import Frame.

Lemma keep_last_length (df : DataFrame row) :
  (length (keep_last same df) <= length df)%nat.
Proof.
  induction df as [|[i r] df IH]; simpl; [apply Nat.le_refl|].
  destruct (existsb _ _); simpl.
  - apply Nat.le_le_succ_r, IH.
  - apply le_n_S, IH.
Qed.

Lemma merge_rows_deduped (rows : list row) (out : DataFrame row) :
  merge_rows same hashable_key ts rows out ->
  Permutation (rows_of out) (rows_of (keep_last same (of_rows rows))).
Proof.
  intros H. destruct (merge_rows_sound same hashable_key ts rows out H)
    as (deduped & Hd & Hp & _).
  unfold drop_duplicates in Hd.
  destruct (forallb _ _); [|discriminate]. now injection Hd as <-.
Qed.

Lemma merge_rows_keeps (rows : list row) (out : DataFrame row) :
  merge_rows same hashable_key ts rows out ->
  (forall r, In r (rows_of out) -> In r rows)
  /\ (length out <= length rows)%nat
  /\ (forall front r, rows = front ++ [r] -> In r (rows_of out)).
Proof.
  intros H. pose proof (merge_rows_deduped rows out H) as Hp.
  split; [|split].
  - intros r Hr. apply (Permutation_in _ Hp) in Hr.
    apply in_map_iff in Hr. destruct Hr as ([i r'] & <- & Hin).
    apply keep_last_subset in Hin.
    rewrite <- (rows_of_of_rows rows). apply in_map_iff. exists (i, r'). auto.
  - apply Permutation_length in Hp. unfold rows_of in Hp.
    rewrite !length_map in Hp. rewrite Hp, <- (length_of_rows rows).
    apply keep_last_length.
  - intros front r ->. apply (Permutation_in _ (Permutation_sym Hp)).
    rewrite of_rows_app. simpl.
    apply in_map_iff. exists (length front, r). split; [reflexivity|].
    apply keep_last_keeps_last. reflexivity.
Qed.

Lemma merge_rows_forall (P : row -> Prop) (rows : list row)
    (out : DataFrame row) :
  merge_rows same hashable_key ts rows out ->
  Forall P rows -> Forall P (rows_of out).
Proof.
  intros H Hall. rewrite List.Forall_forall in *.
  intros r Hr. apply Hall. now apply (proj1 (merge_rows_keeps rows out H)).
Qed.

End MergeKeeps.

(** X12. The table an extractor returns holds only rows that were gathered and
    never more of them; the row gathered last is always in it, so the table
    is empty only when nothing was gathered.  This holds for trades and in
    the same way for transfers, balance snapshots and airdrops. *)
Theorem fetched_table_keeps_last_row :
  (forall rows out,
      Trades.fetch_trades rows out ->
      (forall r, In r (Frame.rows_of out) -> In r rows)
      /\ (length out <= length rows)%nat
      /\ (forall front r, rows = front ++ [r] -> In r (Frame.rows_of out)))
  /\ (forall rows out,
        Transfers.fetch_transfers rows out ->
        (forall r, In r (Frame.rows_of out) -> In r rows)
        /\ (length out <= length rows)%nat
        /\ (forall front r, rows = front ++ [r] -> In r (Frame.rows_of out)))
  /\ (forall rows out,
        Balances.fetch_balance_history rows out ->
        (forall r, In r (Frame.rows_of out) -> In r rows)
        /\ (length out <= length rows)%nat
        /\ (forall front r, rows = front ++ [r] -> In r (Frame.rows_of out)))
  /\ (forall rows out,
        Airdrops.fetch_airdrops_and_token_transfers rows out ->
        (forall r, In r (Frame.rows_of out) -> In r rows)
        /\ (length out <= length rows)%nat
        /\ (forall front r, rows = front ++ [r] -> In r (Frame.rows_of out))).
Proof.
  split; [|split; [|split]]; intros rows out; apply merge_rows_keeps.
Qed.

(** Witness of [fetched_table_keeps_last_row]: of the three sample trades
    the one gathered last, the sale at time 4, is in the table. *)
Lemma keeps_last_row_witness :
  In (Samples.sell_at 4) (Frame.rows_of Samples.ordered_trades).
Proof.
  exact (proj2 (proj2 (proj1 fetched_table_keeps_last_row
                         Samples.unordered_trades Samples.ordered_trades
                         fetch_trades_orders_sample))
           [Samples.sell_at 9; Samples.buy_at 1] (Samples.sell_at 4) eq_refl).
Defined.

(** ** The tables hold normalised rows *)

Section TableInvariants.
Context {R : Py.Runtime}.
Import Py Collect.

Lemma in_omap {A B : Type} (f : A -> option B) (l : list A) (y : B) :
  In y (omap f l) -> exists x, In x l /\ f x = Some y.
Proof.
  induction l as [|x l IH]; cbn; [contradiction|].
  destruct (f x) as [y'|] eqn:E; cbn.
  - intros [<- | H]; [eauto|]. destruct (IH H) as (x' & Hx' & Hf). eauto.
  - intros H. destruct (IH H) as (x' & Hx' & Hf). eauto.
Qed.

Lemma trades_rows_normalised (t a : fetched (list dict))
    (ex : string -> fetched (list dict)) (account_index : Z)
    (l1_address : string) (market_map : gmap Z string) (r : Trades.TradeRow) :
  In r (fst (Collect.trades_rows t a ex account_index l1_address market_map)) ->
  exists raw source,
    r = Trades._normalize_trade raw source account_index market_map
    /\ In source (trade_sources account_index l1_address).
Proof.
  unfold Collect.trades_rows.
  destruct (trades_endpoint t account_index market_map) as [r1 s1] eqn:E1.
  destruct (account_trades_endpoint a account_index market_map)
    as [r2 s2] eqn:E2.
  cbn [fst]. intros Hin.
  apply in_app_or in Hin. destruct Hin as [H | H];
    [|apply in_app_or in H; destruct H as [H | H]].
  - assert (Hin : In r (fst (trades_endpoint t account_index market_map)))
      by now rewrite E1.
    unfold trades_endpoint in Hin.
    destruct t as [e | [|x c]]; try contradiction.
    rewrite fst_loop_status in Hin. apply in_normalise_loop in Hin.
    destruct Hin as (raw & _ & ->).
    exists raw, "trades". split; [reflexivity | now left].
  - assert (Hin : In r (fst (account_trades_endpoint a account_index
                               market_map)))
      by now rewrite E2.
    unfold account_trades_endpoint in Hin.
    destruct a as [e | c]; try contradiction.
    rewrite fst_loop_status in Hin. apply in_normalise_loop in Hin.
    destruct Hin as (raw & _ & ->).
    exists raw, "accountTrades". split; [reflexivity | right; now left].
  - apply in_concat_fst in H. destruct H as (p & Hp & Hr).
    apply in_map_iff in Hp. destruct Hp as (param & <- & Hparam).
    unfold explorer_trades in Hr. cbv zeta in Hr.
    destruct (ex param); [destruct Hr|].
    rewrite fst_loop_status in Hr. apply run_loop_in in Hr.
    destruct Hr as (log & _ & Hlog).
    destruct (py_or _ _); try discriminate.
    unfold normalise in Hlog.
    destruct (Trades._normalize_trade_error _); [discriminate|].
    injection Hlog as <-. eexists _, _. split; [reflexivity|].
    right. right. apply in_map_iff. exists param. auto.
Qed.

Lemma transfers_rows_normalised (paginate ex : string -> fetched (list dict))
    (account_index : Z) (l1_address : string) (r : Transfers.TransferRow) :
  In r (fst (Collect.transfers_rows paginate ex account_index l1_address)) ->
  exists raw source fallback_type,
    r = Transfers._normalize raw source fallback_type
    /\ In source (transfer_sources account_index l1_address)
    /\ In fallback_type ["deposit"; "withdraw"; "transfer"].
Proof.
  unfold Collect.transfers_rows. cbn [fst]. intros Hin.
  apply in_app_or in Hin. destruct Hin as [H | H];
    apply in_concat_fst in H; destruct H as (p & Hp & Hr);
    apply in_map_iff in Hp.
  - destruct Hp as ([endpoint fb] & <- & Hef). cbn [fst snd] in Hr.
    unfold transfer_endpoint in Hr.
    destruct (paginate endpoint); [destruct Hr|].
    rewrite fst_loop_status in Hr. apply in_normalise_loop in Hr.
    destruct Hr as (raw & _ & ->).
    exists raw, endpoint, fb. split; [reflexivity|]. split.
    + apply in_or_app. left.
      apply in_map_iff. exists (endpoint, fb). auto.
    + simpl in Hef.
      destruct Hef as [[= <- <-] | [[= <- <-] | [[= <- <-] | []]]];
        simpl; auto.
  - destruct Hp as (param & <- & Hparam).
    unfold explorer_transfers in Hr. cbv zeta in Hr.
    destruct (ex param); [destruct Hr|].
    rewrite fst_loop_status in Hr. apply run_loop_in in Hr.
    destruct Hr as (log & _ & Hlog).
    destruct (str_in _ transfer_log_types); [|discriminate].
    unfold normalise in Hlog.
    destruct (Transfers._normalize_error _); [discriminate|].
    injection Hlog as <-. eexists _, _, _. split; [reflexivity|]. split.
    + apply in_or_app. right. apply in_map_iff. exists param. auto.
    + simpl. auto.
Qed.

Lemma normalize_event_type (raw : dict) (source fallback_type : string) :
  In fallback_type ["deposit"; "withdraw"; "transfer"] ->
  In (Transfers.event_type (Transfers._normalize raw source fallback_type))
    ["deposit"; "withdraw"; "transfer"].
Proof.
  intros Hfb. unfold Transfers._normalize. cbn [Transfers.event_type].
  destruct (contains "deposit" _); [simpl; auto|].
  destruct (contains "withdraw" _); [simpl; auto|].
  destruct (contains "transfer" _); [simpl; auto|]. exact Hfb.
Qed.

(** X13. Whatever the endpoints answer, every row of the trade table has the
    side "buy", "sell" or "unknown", a size and a notional that are not
    negative, and names the endpoint it came from; every row of the transfer
    table is a "deposit", a "withdraw" or a "transfer" and names its
    endpoint. *)
Theorem tables_hold_normalised_rows (account_index : Z) (l1_address : string) :
  (forall t a ex market_map out,
      Trades.fetch_trades
        (fst (Collect.trades_rows t a ex account_index l1_address market_map))
        out ->
      Forall (fun r =>
                In (Trades.side r) ["buy"; "sell"; "unknown"]
                /\ (0 <= Trades.size r)%Q
                /\ (0 <= Trades.notional_quote r)%Q
                /\ In (Trades.source r)
                     (trade_sources account_index l1_address))
        (Frame.rows_of out))
  /\ (forall paginate ex out,
        Transfers.fetch_transfers
          (fst (Collect.transfers_rows paginate ex account_index l1_address))
          out ->
        Forall (fun r =>
                  In (Transfers.event_type r)
                    ["deposit"; "withdraw"; "transfer"]
                  /\ In (Transfers.source r)
                       (transfer_sources account_index l1_address))
          (Frame.rows_of out)).
Proof.
  split.
  - intros t a ex market_map out H.
    eapply merge_rows_forall; [exact H|].
    apply List.Forall_forall. intros r Hr.
    apply trades_rows_normalised in Hr.
    destruct Hr as (raw & source & -> & Hsrc).
    destruct (trade_quantities_nonneg raw source account_index market_map)
      as [Hsize Hnotional].
    split; [|split; [exact Hsize | split; [exact Hnotional | exact Hsrc]]].
    cbn [Trades._normalize_trade Trades.side].
    destruct (resolve_side_range raw account_index) as [E | [E | E]];
      rewrite E; simpl; auto.
  - intros paginate ex out H.
    eapply merge_rows_forall; [exact H|].
    apply List.Forall_forall. intros r Hr.
    apply transfers_rows_normalised in Hr.
    destruct Hr as (raw & source & fb & -> & Hsrc & Hfb).
    split; [now apply normalize_event_type | exact Hsrc].
Qed.

End TableInvariants.

(** ** Offset pagination ([api_client.paginate_v1]) *)

Section Pagination.
Import Py ApiClient.

Lemma dicts_of_dicts (l : list dict) : dicts_of (List.map PDict l) = l.
Proof.
  unfold dicts_of. induction l as [|d l IH]; cbn; [reflexivity|].
  now rewrite IH.
Qed.

Lemma firstn_add {A : Type} (a b : nat) (l : list A) :
  firstn (a + b) l = firstn a l ++ firstn b (skipn a l).
Proof.
  revert l. induction a as [|a IH]; intros l; [reflexivity|].
  destruct l as [|x l]; simpl.
  - now rewrite firstn_nil.
  - now rewrite IH.
Qed.

Lemma skipn_add {A : Type} (a b : nat) (l : list A) :
  skipn (a + b) l = skipn b (skipn a l).
Proof.
  revert l. induction a as [|a IH]; intros l; [reflexivity|].
  destruct l as [|x l]; simpl; [now rewrite skipn_nil | apply IH].
Qed.

Variable request : nat -> nat -> option pyval.
Variable data_keys : list string.
Variable data : list dict.
Variable limit : nat.
Hypothesis limit_positive : (0 < limit)%nat.
Hypothesis server_slices :
  forall offset,
  exists payload,
    request limit offset = Some payload
    /\ _extract_list_payload payload data_keys
       = firstn limit (skipn offset data).

Lemma paginate_loop_slices (pages offset : nat) :
  paginate_loop request data_keys limit pages offset
  = Some (firstn (pages * limit) (skipn offset data)).
Proof.
  revert offset. induction pages as [|pages IH]; intros offset;
    [reflexivity|].
  cbn [paginate_loop Nat.mul].
  destruct (server_slices offset) as (payload & -> & ->).
  remember (skipn offset data) as rest eqn:Erest.
  destruct (firstn limit rest) as [|x batch] eqn:Eb.
  - assert (rest = []) as ->.
    { destruct rest; [reflexivity|]. destruct limit; [lia | discriminate]. }
    now rewrite firstn_nil.
  - rewrite <- Eb.
    pose proof (length_firstn limit rest) as Hlen.
    destruct (length (firstn limit rest) <? limit)%nat eqn:Elt.
    + apply Nat.ltb_lt in Elt.
      assert (Hshort : (length rest <= limit)%nat) by lia.
      rewrite (firstn_all2 (n := limit)) by exact Hshort.
      rewrite firstn_all2 by lia. reflexivity.
    + apply Nat.ltb_ge in Elt.
      assert (Hfull : length (firstn limit rest) = limit) by lia.
      rewrite Hfull, IH, skipn_add, <- Erest, firstn_add. reflexivity.
Qed.

End Pagination.

(** X14. Against a server that answers every request with the slice
    [data[offset : offset + limit]] and a limit above 0, [paginate_v1]
    returns the first [pages * limit] records in order: all of them when
    that many pages suffice, and otherwise a truncated list, without an
    error. *)
Theorem paginate_v1_round_trip (request : nat -> nat -> option Py.pyval)
    (data_keys : list string) (data : list Py.dict)
    (page_limit max_pages : option nat)
    (settings_page_limit settings_max_pages : nat) :
  let limit := ApiClient.or_default page_limit settings_page_limit in
  let pages := ApiClient.or_default max_pages settings_max_pages in
  (0 < limit)%nat ->
  (forall offset,
      exists payload,
        request limit offset = Some payload
        /\ ApiClient._extract_list_payload payload data_keys
           = firstn limit (skipn offset data)) ->
  ApiClient.paginate_v1 request data_keys page_limit max_pages
    settings_page_limit settings_max_pages
  = Some (firstn (pages * limit) data)
  /\ ((length data <= pages * limit)%nat ->
      ApiClient.paginate_v1 request data_keys page_limit max_pages
        settings_page_limit settings_max_pages
      = Some data).
Proof.
  intros limit pages Hlimit Hserver.
  assert (E : ApiClient.paginate_v1 request data_keys page_limit max_pages
                settings_page_limit settings_max_pages
              = Some (firstn (pages * limit) data)).
  { unfold ApiClient.paginate_v1. cbv zeta. fold limit pages.
    now rewrite (paginate_loop_slices request data_keys data limit Hlimit
                   Hserver pages 0). }
  split; [exact E|].
  intros Hall. rewrite E. f_equal. now apply firstn_all2.
Qed.

Lemma slice_server_slices (data : list Py.dict) (data_keys : list string)
    (limit offset : nat) :
  exists payload,
    ApiClient.slice_server data limit offset = Some payload
    /\ ApiClient._extract_list_payload payload data_keys
       = firstn limit (skipn offset data).
Proof.
  eexists. split; [reflexivity|]. apply dicts_of_dicts.
Qed.

(** Witness of [paginate_v1_round_trip]: five records fetched two at a time
    over at most two pages come back as the first four. *)
Lemma paginate_v1_witness :
  ApiClient.paginate_v1 (ApiClient.slice_server Cases.five_records)
    ApiClient.default_data_keys (Some 2%nat) (Some 2%nat) 100 50
  = Some (firstn 4 Cases.five_records).
Proof.
  apply (paginate_v1_round_trip (ApiClient.slice_server Cases.five_records)
           ApiClient.default_data_keys Cases.five_records
           (Some 2%nat) (Some 2%nat) 100 50).
  - simpl. lia.
  - intros offset. apply slice_server_slices.
Defined.


(** ** The symbol map behind the market labels *)

Section SymbolMap.
Context {R : Py.Runtime}.
Import Py Collect.




End SymbolMap.


(** ** The inferred initial deposit ([transform.py]) *)

Section DepositInference.
Import Py Deposits.

Lemma Qsum_from (l : list Q) (a : Q) : (fold_left Qplus l a == a + Qsum l)%Q.
Proof.
  unfold Qsum. revert a. induction l as [|x l IH]; intros a; simpl.
  - ring.
  - rewrite IH, (IH (0 + x)%Q). ring.
Qed.

Lemma Qsum_cons (x : Q) (l : list Q) : (Qsum (x :: l) == x + Qsum l)%Q.
Proof. unfold Qsum at 1. simpl. rewrite Qsum_from. ring. Qed.

Lemma Qsum_perm (l l' : list Q) : Permutation l l' -> (Qsum l == Qsum l')%Q.
Proof.
  induction 1 as [|x l l' _ IH|x y l|l l' l'' _ IH1 _ IH2].
  - reflexivity.
  - rewrite !Qsum_cons, IH. reflexivity.
  - rewrite !Qsum_cons. ring.
  - now rewrite IH1.
Qed.

Lemma filter_perm {A : Type} (p : A -> bool) (l l' : list A) :
  Permutation l l' -> Permutation (List.filter p l) (List.filter p l').
Proof.
  induction 1 as [|x l l' _ IH|x y l|l l' l'' _ IH1 _ IH2]; simpl.
  - constructor.
  - destruct (p x); [now constructor | exact IH].
  - destruct (p x), (p y); try reflexivity. constructor.
  - now rewrite IH1.
Qed.

(** A total of the transfer table depends on its rows only, not on their
    order. *)
Lemma amount_sum_perm (kind : string)
    (df df' : Frame.DataFrame Transfers.TransferRow) :
  Permutation (Frame.rows_of df) (Frame.rows_of df') ->
  (amount_sum kind df == amount_sum kind df')%Q.
Proof.
  intros H. unfold amount_sum. apply Qsum_perm, Permutation_map.
  now apply filter_perm.
Qed.

Lemma Qmax2_spec (x y : Q) :
  (x <= Qmax2 x y /\ y <= Qmax2 x y)%Q /\ (Qmax2 x y = x \/ Qmax2 x y = y).
Proof.
  unfold Qmax2. destruct (Qle_bool x y) eqn:E.
  - apply Qle_bool_iff in E. repeat split; auto; lra.
  - assert (~ (x <= y)%Q) by (rewrite <- Qle_bool_iff; congruence).
    repeat split; auto; lra.
Qed.

Lemma fold_max_spec (rest : list Q) (first : Q) :
  (first <= fold_left Qmax2 rest first)%Q
  /\ Forall (fun x => (x <= fold_left Qmax2 rest first)%Q) rest
  /\ In (fold_left Qmax2 rest first) (first :: rest).
Proof.
  revert first. induction rest as [|x rest IH]; intros first; simpl.
  - split; [lra|]. split; [constructor | now left].
  - destruct (IH (Qmax2 first x)) as (H1 & H2 & H3).
    destruct (Qmax2_spec first x) as ([Hf Hx] & Hor).
    split; [lra|]. split.
    + constructor; [lra | exact H2].
    + destruct H3 as [H3 | H3]; [|now right; right].
      rewrite <- H3. destruct Hor as [-> | ->]; [now left | right; now left].
Qed.

(** [largest_positive] is the largest of 0 and the estimates. *)
Lemma largest_positive_spec (estimates : list Q) :
  (0 <= largest_positive estimates)%Q
  /\ (forall x, In x estimates -> (x <= largest_positive estimates)%Q)
  /\ In (largest_positive estimates) (0%Q :: estimates).
Proof.
  unfold largest_positive.
  destruct (List.filter (Qltb 0) estimates) as [|first rest] eqn:E.
  - split; [lra|]. split; [|now left].
    intros x Hx. destruct (Qltb 0 x) eqn:Ex.
    + assert (Hin : In x (List.filter (Qltb 0) estimates))
        by (apply filter_In; auto).
      rewrite E in Hin. contradiction.
    + now apply Qltb_ge.
  - destruct (fold_max_spec rest first) as (H1 & H2 & H3).
    assert (Hin : In (fold_left Qmax2 rest first)
                    (List.filter (Qltb 0) estimates))
      by (rewrite E; exact H3).
    apply filter_In in Hin. destruct Hin as [Hin Hpos].
    apply Qltb_lt in Hpos.
    split; [lra|]. split; [|now right].
    intros x Hx. destruct (Qltb 0 x) eqn:Ex.
    + assert (Hx' : In x (first :: rest))
        by (rewrite <- E; apply filter_In; auto).
      destruct Hx' as [<- | Hx']; [exact H1|].
      rewrite List.Forall_forall in H2. now apply H2.
    + apply Qltb_ge in Ex. lra.
Qed.

(** The two ways the call can end. *)
Lemma inference_cases (transfers : Frame.DataFrame Transfers.TransferRow)
    (trades : Frame.DataFrame Trades.TradeRow)
    (balances : Frame.DataFrame Balances.BalanceRow)
    (out : Frame.DataFrame Transfers.TransferRow * InferenceInfo) :
  infer_initial_deposit_if_missing transfers trades balances out ->
  exists t b,
    let info := estimates transfers trades balances t b in
    (injection info = None /\ out = (transfers, info))
    \/ (exists row sorted,
          injection info = Some row
          /\ Frame.sort_values Transfers.timestamp
               (Frame.of_rows (row :: Frame.rows_of transfers)) sorted
          /\ out = (Frame.reset_index sorted,
                    after_injection info (Frame.reset_index sorted))).
Proof.
  intros (t & b & _ & _ & H). exists (Frame.rows_of t), (Frame.rows_of b).
  cbv zeta in *. destruct (injection _) as [row|].
  - right. destruct H as (sorted & Hs & ->). eauto.
  - left. auto.
Qed.

(** The call always returns. *)
Lemma inference_total (transfers : Frame.DataFrame Transfers.TransferRow)
    (trades : Frame.DataFrame Trades.TradeRow)
    (balances : Frame.DataFrame Balances.BalanceRow) :
  infer_initial_deposit_if_missing transfers trades balances
    (one_outcome transfers trades balances).
Proof.
  exists (Frame.stable_sort Trades.timestamp trades),
         (Frame.stable_sort Balances.timestamp balances).
  split; [apply sort_values_total|]. split; [apply sort_values_total|].
  unfold one_outcome. cbv zeta. destruct (injection _) as [row|].
  - eexists. split; [apply sort_values_total | reflexivity].
  - reflexivity.
Qed.

(** X16. The inferred initial deposit is the largest of 0, the earliest equity,
    the reconciliation estimate and the exposure proxy, whether or not it is
    injected. *)
Theorem inferred_deposit_is_largest_estimate
    (transfers : Frame.DataFrame Transfers.TransferRow)
    (trades : Frame.DataFrame Trades.TradeRow)
    (balances : Frame.DataFrame Balances.BalanceRow)
    (out : Frame.DataFrame Transfers.TransferRow * InferenceInfo) :
  infer_initial_deposit_if_missing transfers trades balances out ->
  let info := snd out in
  (0 <= inferred_initial_deposit info)%Q
  /\ (earliest_equity info <= inferred_initial_deposit info)%Q
  /\ (reconciliation_estimate info <= inferred_initial_deposit info)%Q
  /\ (exposure_proxy info <= inferred_initial_deposit info)%Q
  /\ In (inferred_initial_deposit info)
       [0%Q; earliest_equity info; reconciliation_estimate info;
        exposure_proxy info].
Proof.
  intros H. destruct (inference_cases _ _ _ _ H) as (t & b & Hc).
  cbv zeta in Hc.
  set (info := estimates transfers trades balances t b) in Hc.
  assert (Hinfo :
            (0 <= inferred_initial_deposit info)%Q
            /\ (earliest_equity info <= inferred_initial_deposit info)%Q
            /\ (reconciliation_estimate info <= inferred_initial_deposit info)%Q
            /\ (exposure_proxy info <= inferred_initial_deposit info)%Q
            /\ In (inferred_initial_deposit info)
                 [0%Q; earliest_equity info; reconciliation_estimate info;
                  exposure_proxy info]).
  { destruct (largest_positive_spec
                [earliest_equity info; reconciliation_estimate info;
                 exposure_proxy info]) as (H0 & Hall & Hin).
    change (inferred_initial_deposit info)
      with (largest_positive
              [earliest_equity info; reconciliation_estimate info;
               exposure_proxy info]).
    split; [exact H0|].
    split; [apply Hall; now left|].
    split; [apply Hall; right; now left|].
    split; [apply Hall; right; right; now left | exact Hin]. }
  destruct Hc as [[_ ->] | (row & sorted & _ & _ & ->)]; exact Hinfo.
Qed.

Lemma fold_min_spec (col : list (option Z)) (acc : option Z) :
  match fold_left min_opt col acc with
  | None => acc = None /\ forall x, ~ In (Some x) col
  | Some m =>
      (acc = Some m \/ In (Some m) col)
      /\ (forall a, acc = Some a -> (m <= a)%Z)
      /\ (forall x, In (Some x) col -> (m <= x)%Z)
  end.
Proof.
  revert acc. induction col as [|c col IH]; intros acc; simpl.
  - destruct acc as [a|].
    + split; [now left|]. split; [intros ? [= <-]; lia | intros ? []].
    + split; [reflexivity | intros ? []].
  - specialize (IH (min_opt acc c)).
    destruct (fold_left min_opt col (min_opt acc c)) as [m|].
    + destruct IH as (Hin & Hacc & Hcol).
      destruct acc as [a|], c as [x|]; simpl in *.
      * specialize (Hacc _ eq_refl). split; [|split].
        -- destruct Hin as [[= <-] | Hin]; [|auto].
           destruct (Z.min_spec a x) as [[_ ->] | [_ ->]]; auto.
        -- intros ? [= <-]. lia.
        -- intros y [[= <-] | Hy]; [lia | auto].
      * split; [tauto|]. split; [exact Hacc|].
        intros y [Hy | Hy]; [discriminate | auto].
      * specialize (Hacc _ eq_refl). split; [|split].
        -- destruct Hin as [[= <-] | Hin]; auto.
        -- discriminate.
        -- intros y [[= <-] | Hy]; [lia | auto].
      * split; [|split].
        -- destruct Hin as [Hin | Hin]; [discriminate | auto].
        -- discriminate.
        -- intros y [Hy | Hy]; [discriminate | auto].
    + destruct IH as (Hacc & Hcol).
      destruct acc as [a|], c as [x|]; simpl in *; try discriminate.
      split; [reflexivity|]. intros y [Hy | Hy]; [discriminate|].
      now apply (Hcol y).
Qed.

Lemma column_min_spec (col : list (option Z)) :
  match column_min col with
  | None => forall x, ~ In (Some x) col
  | Some m => In (Some m) col /\ forall x, In (Some x) col -> (m <= x)%Z
  end.
Proof.
  unfold column_min. pose proof (fold_min_spec col None) as H.
  destruct (fold_left min_opt col None) as [m|].
  - destruct H as ([H | H] & _ & Hcol); [discriminate | auto].
  - tauto.
Qed.

(** The least of a timestamp column is decided by its values alone. *)
Lemma column_min_unique (col : list (option Z)) (m : Z) :
  In (Some m) col -> (forall x, In (Some x) col -> (m <= x)%Z) ->
  column_min col = Some m.
Proof.
  intros Hin Hlow. pose proof (column_min_spec col) as H.
  destruct (column_min col) as [m'|].
  - destruct H as [Hin' Hlow']. f_equal.
    specialize (Hlow _ Hin'). specialize (Hlow' _ Hin). lia.
  - now destruct (H m).
Qed.

Lemma min_opt_lower (a b : option Z) (e x : Z) :
  min_opt a b = Some e -> a = Some x \/ b = Some x -> (e <= x)%Z.
Proof.
  destruct a as [a|], b as [b|]; simpl; intros [= <-] [[= <-] | [= <-]]; lia.
Qed.

(** The earliest timestamp of the three tables is a lower bound of every
    timestamp in them. *)
Lemma earliest_of_lower (transfers : Frame.DataFrame Transfers.TransferRow)
    (trades : Frame.DataFrame Trades.TradeRow)
    (balances : Frame.DataFrame Balances.BalanceRow) (e : Z) :
  earliest_of transfers trades balances = Some e ->
  (forall r x, In r (Frame.rows_of transfers) ->
               Transfers.timestamp r = Some x -> (e <= x)%Z)
  /\ (forall r x, In r (Frame.rows_of trades) ->
                  Trades.timestamp r = Some x -> (e <= x)%Z)
  /\ (forall r x, In r (Frame.rows_of balances) ->
                  Balances.timestamp r = Some x -> (e <= x)%Z).
Proof.
  unfold earliest_of. intros He.
  set (c1 := List.map Transfers.timestamp (Frame.rows_of transfers)) in *.
  set (c2 := List.map Trades.timestamp (Frame.rows_of trades)) in *.
  set (c3 := List.map Balances.timestamp (Frame.rows_of balances)) in *.
  pose proof (column_min_spec c1) as H1.
  pose proof (column_min_spec c2) as H2.
  pose proof (column_min_spec c3) as H3.
  assert (Hcol : forall (A : Type) (ts : A -> option Z) (rows : list A) r x,
             In r rows -> ts r = Some x -> In (Some x) (List.map ts rows)).
  { intros A ts rows r x Hr Hx. rewrite <- Hx. now apply in_map. }
  destruct (column_min c1) as [m1|], (column_min c2) as [m2|],
    (column_min c3) as [m3|]; simpl in He; try discriminate He;
    injection He as <-;
    (split; [|split]); intros r x Hr Hx;
    pose proof (Hcol _ _ _ r x Hr Hx) as Hin; fold c1 c2 c3 in Hin;
    try (now destruct (H1 x)); try (now destruct (H2 x));
    try (now destruct (H3 x));
    try (apply (proj2 H1) in Hin); try (apply (proj2 H2) in Hin);
    try (apply (proj2 H3) in Hin); lia.
Qed.

Lemma injection_some (info : InferenceInfo) (row : Transfers.TransferRow) :
  injection info = Some row ->
  exists e,
    earliest_timestamp info = Some e
    /\ (total_deposits info <= 0)%Q
    /\ (0 < inferred_initial_deposit info)%Q
    /\ row = inferred_row (e - 1000000) (inferred_initial_deposit info)
               (earliest_equity info) (reconciliation_estimate info)
               (exposure_proxy info).
Proof.
  unfold injection. destruct (earliest_timestamp info) as [e|]; [|discriminate].
  destruct (Qle_bool _ 0) eqn:Ed; [|discriminate].
  destruct (Qltb 0 _) eqn:Ei; [|discriminate].
  intros [= <-]. exists e. apply Qle_bool_iff in Ed. apply Qltb_lt in Ei. auto.
Qed.

Lemma injection_none (info : InferenceInfo) :
  injection info = None ->
  ~ ((total_deposits info <= 0)%Q /\ (0 < inferred_initial_deposit info)%Q
     /\ earliest_timestamp info <> None).
Proof.
  unfold injection. intros H (Hd & Hi & He).
  destruct (earliest_timestamp info) as [e|]; [|congruence].
  apply Qle_bool_iff in Hd. apply Qltb_lt in Hi. rewrite Hd, Hi in H.
  discriminate.
Qed.

(** X17. A deposit is injected exactly when the recorded deposits do not exceed
    0, some estimate is positive and some table carries a timestamp;
    otherwise the transfer table comes back as it was given. *)
Theorem inference_injects_only_without_deposits
    (transfers : Frame.DataFrame Transfers.TransferRow)
    (trades : Frame.DataFrame Trades.TradeRow)
    (balances : Frame.DataFrame Balances.BalanceRow)
    (out : Frame.DataFrame Transfers.TransferRow * InferenceInfo) :
  infer_initial_deposit_if_missing transfers trades balances out ->
  let info := snd out in
  (injected_inferred_deposit info = true
   <-> (amount_sum "deposit" transfers <= 0)%Q
       /\ (0 < inferred_initial_deposit info)%Q
       /\ earliest_of transfers trades balances <> None)
  /\ (injected_inferred_deposit info = false ->
      fst out = transfers
      /\ total_deposits info = amount_sum "deposit" transfers
      /\ total_withdrawals info = amount_sum "withdraw" transfers)
  /\ earliest_timestamp info = earliest_of transfers trades balances.
Proof.
  intros H. destruct (inference_cases _ _ _ _ H) as (t & b & Hc).
  cbv zeta in Hc.
  set (info := estimates transfers trades balances t b) in Hc.
  destruct Hc as [[Hnone ->] | (row & sorted & Hrow & _ & ->)];
    cbn [snd fst].
  - apply injection_none in Hnone.
    split; [|split; [intros _; repeat split | reflexivity]].
    split; [discriminate|]. intros Hcond. now destruct Hnone.
  - apply injection_some in Hrow.
    destruct Hrow as (e & He & Hd & Hi & _).
    split; [|split; [discriminate | reflexivity]].
    split; [|reflexivity]. intros _.
    split; [exact Hd|]. split; [exact Hi|].
    change (earliest_of transfers trades balances)
      with (earliest_timestamp info). congruence.
Qed.

Lemma sorted_head_least {A : Type} (le : A -> A -> Prop) (h x : A)
    (l : list A) :
  StronglySorted le (h :: l) -> In x (h :: l) -> x = h \/ le h x.
Proof.
  intros Hs [<- | Hx]; [now left|]. right.
  inversion Hs as [|? ? _ Hall]; subst.
  rewrite List.Forall_forall in Hall. now apply Hall.
Qed.

(** X18. When a deposit is injected, the table that comes back holds the rows
    given and the inferred deposit, dated one second before the earliest
    timestamp of the three tables; the inferred deposit is its first row,
    the rows are in ascending order of time and labelled 0, 1, ..., and the
    totals reported count the inferred amount among the deposits. *)
Theorem injected_deposit_heads_the_table
    (transfers : Frame.DataFrame Transfers.TransferRow)
    (trades : Frame.DataFrame Trades.TradeRow)
    (balances : Frame.DataFrame Balances.BalanceRow)
    (out : Frame.DataFrame Transfers.TransferRow * InferenceInfo) :
  infer_initial_deposit_if_missing transfers trades balances out ->
  injected_inferred_deposit (snd out) = true ->
  exists e,
    earliest_of transfers trades balances = Some e
    /\ let info := snd out in
       let row :=
         inferred_row (e - 1000000) (inferred_initial_deposit info)
           (earliest_equity info) (reconciliation_estimate info)
           (exposure_proxy info) in
       Permutation (Frame.rows_of (fst out)) (row :: Frame.rows_of transfers)
       /\ hd_error (Frame.rows_of (fst out)) = Some row
       /\ StronglySorted (Frame.le_ts Transfers.timestamp)
            (Frame.rows_of (fst out))
       /\ Frame.labels_of (fst out) = seq 0 (S (length transfers))
       /\ (total_deposits info
           == amount_sum "deposit" transfers + inferred_initial_deposit info)%Q
       /\ (total_withdrawals info == amount_sum "withdraw" transfers)%Q.
Proof.
  intros H Hinj. destruct (inference_cases _ _ _ _ H) as (t & b & Hc).
  cbv zeta in Hc.
  set (info := estimates transfers trades balances t b) in Hc.
  destruct Hc as [[_ ->] | (row & sorted & Hrow & Hsort & ->)];
    [discriminate Hinj|].
  apply injection_some in Hrow.
  destruct Hrow as (e & He & _ & _ & Erow).
  exists e. split; [exact He|]. cbn [snd fst]. cbv zeta.
  change (inferred_initial_deposit (after_injection info _))
    with (inferred_initial_deposit info).
  change (earliest_equity (after_injection info _))
    with (earliest_equity info).
  change (reconciliation_estimate (after_injection info _))
    with (reconciliation_estimate info).
  change (exposure_proxy (after_injection info _))
    with (exposure_proxy info).
  rewrite <- Erow.
  destruct (sort_values_sound Transfers.timestamp _ _ Hsort) as [Hp Hs].
  destruct (reset_index_labels sorted) as [Hl Hr].
  assert (Hperm : Permutation (Frame.rows_of (Frame.reset_index sorted))
                    (row :: Frame.rows_of transfers)).
  { rewrite Hr. rewrite <- (rows_of_of_rows (row :: Frame.rows_of transfers)).
    now apply Permutation_map. }
  assert (Hts : Transfers.timestamp row = Some (e - 1000000)%Z)
    by (rewrite Erow; reflexivity).
  assert (Hkind : Transfers.event_type row = "deposit")
    by (rewrite Erow; reflexivity).
  assert (Hamount : Transfers.amount_quote row = inferred_initial_deposit info)
    by (rewrite Erow; reflexivity).
  split; [exact Hperm|]. split; [|split; [|split; [|split]]].
  - rewrite Hr in *.
    destruct (Frame.rows_of sorted) as [|h rest] eqn:Erows.
    { apply Permutation_nil in Hperm. discriminate. }
    simpl. f_equal.
    assert (Hh : In h (row :: Frame.rows_of transfers))
      by (apply (Permutation_in _ Hperm); now left).
    destruct Hh as [Hh | Hh]; [now symmetry|].
    assert (Hrow : In row (h :: rest))
      by (apply (Permutation_in _ (Permutation_sym Hperm)); now left).
    destruct (sorted_head_least _ h row rest Hs Hrow) as [E | Hle];
      [now symmetry|].
    unfold Frame.le_ts in Hle. rewrite Hts in Hle.
    destruct (Transfers.timestamp h) as [x|] eqn:Ex; [|contradiction].
    pose proof (proj1 (earliest_of_lower _ _ _ e He) h x Hh Ex). lia.
  - now rewrite Hr.
  - rewrite Hl. f_equal.
    unfold Frame.reset_index. rewrite length_of_rows.
    apply Permutation_length in Hperm. rewrite Hr in Hperm.
    rewrite Hperm. simpl. unfold Frame.rows_of. now rewrite length_map.
  - change (total_deposits (after_injection info (Frame.reset_index sorted)))
      with (amount_sum "deposit" (Frame.reset_index sorted)).
    rewrite (amount_sum_perm "deposit" (Frame.reset_index sorted)
               (Frame.of_rows (row :: Frame.rows_of transfers)))
      by (now rewrite rows_of_of_rows).
    unfold amount_sum. rewrite rows_of_of_rows. cbn [List.filter].
    rewrite Hkind. cbn [String.eqb Ascii.eqb Bool.eqb List.map].
    rewrite Qsum_cons, Hamount. ring.
  - change (total_withdrawals
              (after_injection info (Frame.reset_index sorted)))
      with (amount_sum "withdraw" (Frame.reset_index sorted)).
    rewrite (amount_sum_perm "withdraw" (Frame.reset_index sorted)
               (Frame.of_rows (row :: Frame.rows_of transfers)))
      by (now rewrite rows_of_of_rows).
    unfold amount_sum. rewrite rows_of_of_rows. cbn [List.filter].
    rewrite Hkind. reflexivity.
Qed.

(** X19. The verification summary that [main] computes from the returned table
    reports the totals of the inference info.  Its earliest timestamp is
    that of the info when nothing was injected; after an injection it is the
    time of the inferred deposit, one second before the one in the info. *)
Theorem verification_agrees_with_inference
    (transfers : Frame.DataFrame Transfers.TransferRow)
    (trades : Frame.DataFrame Trades.TradeRow)
    (balances : Frame.DataFrame Balances.BalanceRow)
    (out : Frame.DataFrame Transfers.TransferRow * InferenceInfo)
    (approx_target tolerance : Q) :
  infer_initial_deposit_if_missing transfers trades balances out ->
  let info := snd out in
  let v :=
    deposit_verification_summary (fst out) trades balances approx_target
      tolerance in
  dv_total_deposits v = total_deposits info
  /\ dv_total_withdrawals v = total_withdrawals info
  /\ dv_net_deposits v = net_deposits info
  /\ (has_approximately_600 v = true
      <-> (Qabs (total_deposits info - approx_target) <= tolerance)%Q)
  /\ (injected_inferred_deposit info = false ->
      dv_earliest_timestamp v = earliest_timestamp info)
  /\ (injected_inferred_deposit info = true ->
      exists e, earliest_timestamp info = Some e
                /\ dv_earliest_timestamp v = Some (e - 1000000)%Z).
Proof.
  intros H info v.
  assert (Hband : forall d : Q,
             Qle_bool (approx_target - tolerance) d
             && Qle_bool d (approx_target + tolerance) = true
             <-> (Qabs (d - approx_target) <= tolerance)%Q).
  { intros d. rewrite andb_true_iff, !Qle_bool_iff, Qabs_Qle_condition.
    split; intros [H1 H2]; split; lra. }
  destruct (inference_cases _ _ _ _ H) as (t & b & Hc). cbv zeta in Hc.
  set (info0 := estimates transfers trades balances t b) in Hc.
  destruct Hc as [[_ E] | (row & sorted & Hrow & Hsort & E)];
    subst out; subst info v; cbn [snd fst].
  - split; [reflexivity|]. split; [reflexivity|]. split; [reflexivity|].
    split; [apply Hband|]. split; [reflexivity | discriminate].
  - split; [reflexivity|]. split; [reflexivity|]. split; [reflexivity|].
    split; [apply Hband|]. split; [discriminate|]. intros _.
    apply injection_some in Hrow. destruct Hrow as (e & He & _ & _ & Erow).
    exists e. split; [exact He|].
    cbn [deposit_verification_summary dv_earliest_timestamp].
    change (earliest_timestamp info0)
      with (earliest_of transfers trades balances) in He.
    destruct (earliest_of_lower _ _ _ e He) as (L1 & L2 & L3).
    destruct (sort_values_sound Transfers.timestamp _ _ Hsort) as [Hp _].
    destruct (reset_index_labels sorted) as [_ Hr].
    assert (Hperm : Permutation (Frame.rows_of (Frame.reset_index sorted))
                      (row :: Frame.rows_of transfers)).
    { rewrite Hr.
      rewrite <- (rows_of_of_rows (row :: Frame.rows_of transfers)).
      now apply Permutation_map. }
    assert (Hts : Transfers.timestamp row = Some (e - 1000000)%Z)
      by (rewrite Erow; reflexivity).
    unfold earliest_of.
    assert (E1 : column_min
                   (List.map Transfers.timestamp
                      (Frame.rows_of (Frame.reset_index sorted)))
                 = Some (e - 1000000)%Z).
    { apply column_min_unique.
      - rewrite <- Hts. apply in_map.
        apply (Permutation_in _ (Permutation_sym Hperm)). now left.
      - intros x Hx. apply in_map_iff in Hx. destruct Hx as (r & Hx & Hin).
        apply (Permutation_in _ Hperm) in Hin.
        destruct Hin as [<- | Hin]; [rewrite Hts in Hx; injection Hx; lia|].
        pose proof (L1 r x Hin Hx). lia. }
    rewrite E1.
    pose proof (column_min_spec
                  (List.map Trades.timestamp (Frame.rows_of trades))) as H2.
    pose proof (column_min_spec
                  (List.map Balances.timestamp (Frame.rows_of balances)))
      as H3.
    destruct (column_min (List.map Trades.timestamp _)) as [m2|];
      destruct (column_min (List.map Balances.timestamp _)) as [m3|];
      cbn [min_opt]; f_equal.
    + destruct H2 as [H2 _], H3 as [H3 _].
      apply in_map_iff in H2. destruct H2 as (r2 & E2 & I2).
      apply in_map_iff in H3. destruct H3 as (r3 & E3 & I3).
      pose proof (L2 r2 m2 I2 E2). pose proof (L3 r3 m3 I3 E3). lia.
    + destruct H2 as [H2 _].
      apply in_map_iff in H2. destruct H2 as (r2 & E2 & I2).
      pose proof (L2 r2 m2 I2 E2). lia.
    + destruct H3 as [H3 _].
      apply in_map_iff in H3. destruct H3 as (r3 & E3 & I3).
      pose proof (L3 r3 m3 I3 E3). lia.
Qed.

End DepositInference.

Lemma recovered_is_an_outcome :
  Deposits.infer_initial_deposit_if_missing [] [] Cases.account_table
    Cases.recovered.
Proof. apply inference_total. Qed.

(** Witness of [inferred_deposit_is_largest_estimate]: with nothing but a
    snapshot worth 10, the inferred deposit is at least the earliest
    equity. *)
Lemma largest_estimate_witness :
  (Deposits.earliest_equity (snd Cases.recovered)
   <= Deposits.inferred_initial_deposit (snd Cases.recovered))%Q.
Proof.
  exact (proj1 (proj2 (inferred_deposit_is_largest_estimate [] []
                         Cases.account_table Cases.recovered
                         recovered_is_an_outcome))).
Defined.

(** Witness of [inference_injects_only_without_deposits]: no transfer was
    found, so what comes back carries the timestamp of the snapshot as its
    earliest. *)
Lemma injects_without_deposits_witness :
  Deposits.earliest_timestamp (snd Cases.recovered)
  = Deposits.earliest_of [] [] Cases.account_table.
Proof.
  exact (proj2 (proj2 (inference_injects_only_without_deposits [] []
                         Cases.account_table Cases.recovered
                         recovered_is_an_outcome))).
Defined.

(** Witness of [injected_deposit_heads_the_table]: the snapshot is dated
    1000, the table that comes back holds one row, and the totals count
    the inferred deposit. *)
Lemma injected_deposit_witness :
  exists e,
    Deposits.earliest_of [] [] Cases.account_table = Some e
    /\ Frame.labels_of (fst Cases.recovered) = [0%nat]
    /\ (Deposits.total_deposits (snd Cases.recovered)
        == 0 + Deposits.inferred_initial_deposit (snd Cases.recovered))%Q.
Proof.
  destruct (injected_deposit_heads_the_table [] [] Cases.account_table
              Cases.recovered recovered_is_an_outcome eq_refl)
    as (e & He & _ & _ & _ & Hl & Hd & _).
  exists e. split; [exact He|]. split; [exact Hl | exact Hd].
Defined.

(** Witness of [verification_agrees_with_inference], with the target 600
    and the tolerance 75 of [main]. *)
Lemma verification_witness :
  Deposits.dv_total_deposits
    (Deposits.deposit_verification_summary (fst Cases.recovered) []
       Cases.account_table 600 75)
  = Deposits.total_deposits (snd Cases.recovered).
Proof.
  exact (proj1 (verification_agrees_with_inference [] [] Cases.account_table
                  Cases.recovered 600 75 recovered_is_an_outcome)).
Defined.

(** ** Token sales ([extractors/airdrops.py], [legacy/reports.py]) *)

Section TokenSales.
Context {R : Py.Runtime}.
Import Py.

Lemma Qsum_nonneg (l : list Q) :
  Forall (fun x => (0 <= x)%Q) l -> (0 <= Qsum l)%Q.
Proof.
  induction 1 as [|x l Hx _ IH]; [unfold Qsum; simpl; lra|].
  rewrite Qsum_cons. lra.
Qed.

Lemma filter_idem {A : Type} (p : A -> bool) (l : list A) :
  List.filter p (List.filter p l) = List.filter p l.
Proof.
  induction l as [|x l IH]; simpl; [reflexivity|].
  destruct (p x) eqn:E; simpl; [rewrite E; f_equal|]; exact IH.
Qed.

(** X20. The summary of the token sales reads the sells on "LIT" markets and
    nothing else: it is the summary of the table cut down to those rows.
    The price it reports is the proceeds divided by the quantity sold
    whenever the quantity is not 0, and is 0 otherwise; the profit is the
    proceeds less the fees of those sells; and nothing is negative when no
    size and no notional is. *)
Theorem token_sales_read_token_sells_only
    (trades : Frame.DataFrame Trades.TradeRow) :
  let sells := List.filter Airdrops.is_token_sale (Frame.rows_of trades) in
  let s := Airdrops.summarize_token_sales trades in
  Airdrops.summarize_token_sales (Frame.of_rows sells) = s
  /\ (~ (Airdrops.qty_sold s == 0)%Q ->
      Airdrops.vwap_sell_price s
      = (Airdrops.proceeds_quote s / Airdrops.qty_sold s)%Q)
  /\ ((Airdrops.qty_sold s == 0)%Q -> Airdrops.vwap_sell_price s = 0%Q)
  /\ (Airdrops.token_sale_pnl_quote s
      == Airdrops.proceeds_quote s
         - Qsum (List.map Trades.fee_quote sells))%Q
  /\ (Forall (fun r => (0 <= Trades.size r)%Q
                       /\ (0 <= Trades.notional_quote r)%Q)
        (Frame.rows_of trades) ->
      (0 <= Airdrops.qty_sold s)%Q /\ (0 <= Airdrops.proceeds_quote s)%Q
      /\ (0 <= Airdrops.vwap_sell_price s)%Q).
Proof.
  intros sells s.
  assert (Es : s = match sells with
                   | [] => Airdrops.no_sales
                   | _ :: _ =>
                       let qty := Qsum (List.map Trades.size sells) in
                       let proceeds :=
                         Qsum (List.map Trades.notional_quote sells) in
                       {| Airdrops.qty_sold := qty;
                          Airdrops.vwap_sell_price :=
                            if Qeq_bool qty 0 then 0%Q
                            else (proceeds / qty)%Q;
                          Airdrops.proceeds_quote := proceeds;
                          Airdrops.token_sale_pnl_quote :=
                            (proceeds
                             - Qsum (List.map Trades.fee_quote sells))%Q |}
                   end).
  { subst s sells. unfold Airdrops.summarize_token_sales.
    destruct trades as [|x trades]; [reflexivity|].
    destruct (List.filter _ _); reflexivity. }
  split; [|split; [|split; [|split]]].
  - rewrite Es. unfold Airdrops.summarize_token_sales.
    destruct sells as [|x rest] eqn:E; [reflexivity|].
    assert (Hf : List.filter Airdrops.is_token_sale (x :: rest) = x :: rest).
    { rewrite <- E. subst sells. apply filter_idem. }
    remember (Frame.of_rows (x :: rest)) as df eqn:Edf.
    destruct df as [|ir df]; [discriminate|].
    rewrite Edf, rows_of_of_rows, Hf. reflexivity.
  - rewrite Es. destruct sells as [|x rest]; cbn.
    + intros H. now destruct H.
    + destruct (Qeq_bool _ 0) eqn:E.
      * apply Qeq_bool_iff in E. intros H. now destruct H.
      * reflexivity.
  - rewrite Es. destruct sells as [|x rest]; cbn; [reflexivity|].
    intros H. apply Qeq_bool_iff in H. now rewrite H.
  - rewrite Es. destruct sells as [|x rest]; cbn; [|reflexivity].
    unfold Qsum. simpl. ring.
  - intros Hall.
    assert (Hsells : Forall (fun r => (0 <= Trades.size r)%Q
                                      /\ (0 <= Trades.notional_quote r)%Q)
                       sells).
    { apply List.Forall_forall. intros r Hr. subst sells.
      apply filter_In in Hr. rewrite List.Forall_forall in Hall.
      now apply Hall. }
    assert (Hq : (0 <= Qsum (List.map Trades.size sells))%Q).
    { apply Qsum_nonneg, List.Forall_forall. intros q Hq.
      apply in_map_iff in Hq. destruct Hq as (r & <- & Hr).
      rewrite List.Forall_forall in Hsells. now apply Hsells. }
    assert (Hp : (0 <= Qsum (List.map Trades.notional_quote sells))%Q).
    { apply Qsum_nonneg, List.Forall_forall. intros q Hq'.
      apply in_map_iff in Hq'. destruct Hq' as (r & <- & Hr).
      rewrite List.Forall_forall in Hsells. now apply Hsells. }
    rewrite Es. destruct sells as [|x rest];
      cbn [Airdrops.qty_sold Airdrops.proceeds_quote
           Airdrops.vwap_sell_price Airdrops.no_sales].
    + repeat split; lra.
    + split; [exact Hq|]. split; [exact Hp|].
      set (qty := Qsum (List.map Trades.size (x :: rest))) in *.
      set (proceeds := Qsum (List.map Trades.notional_quote (x :: rest))) in *.
      destruct (Qeq_bool qty 0) eqn:E; [lra|].
      apply Qeq_bool_false in E.
      assert (Hpos : (0 < qty)%Q).
      { destruct (Qlt_le_dec 0 qty); [assumption|].
        exfalso. apply E. lra. }
      apply Qle_shift_div_l; [exact Hpos | lra].
Qed.

Lemma upper_lower_ascii (c : ascii) :
  upper_ascii (lower_ascii c) = upper_ascii c.
Proof. destruct c as [[] [] [] [] [] [] [] []]; reflexivity. Qed.

Lemma upper_upper_ascii (c : ascii) :
  upper_ascii (upper_ascii c) = upper_ascii c.
Proof. destruct c as [[] [] [] [] [] [] [] []]; reflexivity. Qed.

Lemma lower_keeps_ascii (s : string) :
  is_ascii s = true -> is_ascii (map_string lower_ascii s) = true.
Proof.
  induction s as [|c s IH]; cbn [is_ascii map_string]; [reflexivity|].
  intros H. apply andb_prop in H. destruct H as [Hc Hs].
  rewrite (IH Hs), andb_true_r.
  revert Hc. destruct c as [[] [] [] [] [] [] [] []]; now vm_compute.
Qed.

Lemma upper_keeps_ascii (s : string) :
  is_ascii s = true -> is_ascii (map_string upper_ascii s) = true.
Proof.
  induction s as [|c s IH]; cbn [is_ascii map_string]; [reflexivity|].
  intros H. apply andb_prop in H. destruct H as [Hc Hs].
  rewrite (IH Hs), andb_true_r.
  revert Hc. destruct c as [[] [] [] [] [] [] [] []]; now vm_compute.
Qed.

Lemma map_upper_lower (s : string) :
  map_string upper_ascii (map_string lower_ascii s)
  = map_string upper_ascii s.
Proof.
  induction s as [|c s IH]; simpl; [reflexivity|].
  now rewrite upper_lower_ascii, IH.
Qed.

Lemma map_upper_upper (s : string) :
  map_string upper_ascii (map_string upper_ascii s)
  = map_string upper_ascii s.
Proof.
  induction s as [|c s IH]; simpl; [reflexivity|].
  now rewrite upper_upper_ascii, IH.
Qed.

(** On an ASCII text, the upper case of the lower case and of the upper
    case is the upper case. *)
Lemma upper_lower (s : string) :
  is_ascii s = true -> upper (lower s) = upper s.
Proof.
  intros H. unfold upper, lower. rewrite H, (lower_keeps_ascii s H).
  apply map_upper_lower.
Qed.

Lemma upper_upper (s : string) :
  is_ascii s = true -> upper (upper s) = upper s.
Proof.
  intros H. unfold upper. rewrite H, (upper_keeps_ascii s H).
  apply map_upper_upper.
Qed.

(** X21. For a keyword of ASCII characters, the token sell summary of the
    report does not depend on the letter case of the keyword.  The price it
    reports is the proceeds divided by the quantity sold when the quantity
    is above 0, and is 0 otherwise; the profit it reports is the proceeds,
    with no fee taken off. *)
Theorem token_sell_summary_ignores_keyword_case
    (unified_df : list Reports.UnifiedRow) (token_keyword : string) :
  is_ascii token_keyword = true ->
  let s := Reports._token_sell_summary unified_df token_keyword in
  Reports._token_sell_summary unified_df (lower token_keyword) = s
  /\ Reports._token_sell_summary unified_df (upper token_keyword) = s
  /\ ((0 < Reports.ts_token_sold_qty s)%Q ->
      Reports.ts_token_vwap_sell_price s
      = (Reports.ts_token_sale_proceeds s / Reports.ts_token_sold_qty s)%Q)
  /\ ((Reports.ts_token_sold_qty s <= 0)%Q ->
      Reports.ts_token_vwap_sell_price s = 0%Q)
  /\ Reports.ts_token_sales_pnl s = Reports.ts_token_sale_proceeds s.
Proof.
  intros Hascii s. subst s. unfold Reports._token_sell_summary.
  unfold Reports.contains_nocase.
  rewrite (upper_lower _ Hascii), (upper_upper _ Hascii).
  split; [reflexivity|]. split; [reflexivity|].
  cbn [Reports.ts_token_sold_qty Reports.ts_token_vwap_sell_price
       Reports.ts_token_sale_proceeds Reports.ts_token_sales_pnl].
  set (qty := Reports.column_sum Reports.quantity _).
  set (proceeds := Reports.column_sum Reports.quote_value _).
  split; [|split; [|reflexivity]].
  - intros Hpos. now rewrite (proj2 (Qltb_lt 0 qty) Hpos).
  - intros Hle. now rewrite (proj2 (Qltb_ge 0 qty) Hle).
Qed.

End TokenSales.

(** Witness of [token_sell_summary_ignores_keyword_case]: the sale on
    "Lit-USDC" is found under "LIT" as it is under "lit". *)
Lemma keyword_case_witness :
  Reports._token_sell_summary (R := Samples.runtime) [Cases.unified_sale] "LIT"
  = Reports._token_sell_summary (R := Samples.runtime) [Cases.unified_sale]
      "lit".
Proof.
  exact (proj1 (proj2 (token_sell_summary_ignores_keyword_case
                         (R := Samples.runtime) [Cases.unified_sale] "lit"
                         eq_refl))).
Defined.

(** ** The estimate of the beginning equity ([legacy/reports.py]) *)

Section BeginningEquity.
Context {R : Py.Runtime}.
Import Py Reports.

Lemma max_capital_proxy_nonneg (df : list UnifiedRow) :
  (0 <= max_capital_proxy df)%Q.
Proof.
  unfold max_capital_proxy. cbv zeta.
  destruct (cumsum (signed_column df)); [lra | apply Qabs_nonneg].
Qed.

Lemma estimate_nonneg (df : list UnifiedRow) (e d p : Q) :
  (0 <= estimated_beginning_equity (infer_initial_capital df e d p))%Q.
Proof.
  pose proof (max_capital_proxy_nonneg df) as Hp.
  unfold infer_initial_capital.
  destruct (Qltb (e - d - p) 0) eqn:E1; destruct (Qeq_bool d 0);
    try destruct (Qltb _ (max_capital_proxy df)) eqn:E2; simpl;
    try exact Hp; try (apply Qltb_ge in E1; exact E1).
Qed.

(** X22. The estimated beginning equity is never negative, whatever the table
    and the balance snapshot hold, so the total profit of the report never
    exceeds the ending equity. *)
Theorem beginning_equity_never_negative (unified_df : list UnifiedRow)
    (balance_snapshot : dict) (token_keyword : string) :
  let report := build_profit_report unified_df balance_snapshot token_keyword in
  (0 <= beginning_equity_estimate (summary report))%Q
  /\ (0 <= estimated_beginning_equity (initial_capital_inference report))%Q
  /\ (total_profit (summary report) <= ending_equity (summary report))%Q.
Proof.
  intros report. subst report. unfold build_profit_report. cbv zeta.
  cbn [summary initial_capital_inference beginning_equity_estimate
       total_profit ending_equity].
  match goal with
  | |- context [infer_initial_capital ?df ?e ?d ?p] =>
      pose proof (estimate_nonneg df e d p) as H;
      set (est := estimated_beginning_equity (infer_initial_capital df e d p))
        in *
  end.
  repeat split; try exact H. lra.
Qed.

(** X23. When the reconciliation estimate [e - d - p] is not negative: with net
    deposits other than 0 it is returned as it is, with the method
    "reconciliation" and the confidence "medium", and the caveat list is
    empty exactly when the exposure proxy is 0; with net deposits of 0 the
    larger of the estimate and the proxy is returned, and the caveats open
    with the note on the missing deposits. *)
Theorem reconciliation_kept_unless_proxy_larger (df : list UnifiedRow)
    (e d p : Q) :
  (0 <= e - d - p)%Q ->
  let r := infer_initial_capital df e d p in
  (~ (d == 0)%Q ->
   estimated_beginning_equity r = (e - d - p)%Q
   /\ method r = "reconciliation" /\ confidence r = "medium"
   /\ (caveats r = [] <-> (max_capital_proxy df <= 0)%Q))
  /\ ((d == 0)%Q ->
      (e - d - p <= estimated_beginning_equity r)%Q
      /\ (max_capital_proxy df <= estimated_beginning_equity r)%Q
      /\ (estimated_beginning_equity r = (e - d - p)%Q
          \/ estimated_beginning_equity r = max_capital_proxy df)
      /\ (method r = "reconciliation"
          <-> (max_capital_proxy df <= e - d - p)%Q)
      /\ hd_error (caveats r)
         = Some "No explicit deposits/withdrawals found; initial capital estimate has high uncertainty.").
Proof.
  intros Hrec r. subst r. unfold infer_initial_capital.
  rewrite (proj2 (Qltb_ge (e - d - p) 0) Hrec).
  split.
  - intros Hd. apply Qeq_bool_false in Hd. rewrite Hd. cbv zeta iota beta.
    destruct (Qltb 0 (max_capital_proxy df)) eqn:E;
      cbn [estimated_beginning_equity method confidence caveats app].
    + apply Qltb_lt in E. repeat split; try discriminate. intros H. lra.
    + apply Qltb_ge in E. repeat split; auto.
  - intros Hd. apply Qeq_bool_iff in Hd. rewrite Hd. cbv zeta iota beta.
    destruct (Qltb (e - d - p) (max_capital_proxy df)) eqn:E1;
      destruct (Qltb 0 (max_capital_proxy df)) eqn:E2;
      cbn [estimated_beginning_equity method confidence caveats app
           hd_error];
      try (apply Qltb_lt in E1); try (apply Qltb_ge in E1);
      repeat split; auto; try lra; try discriminate; intros; lra.
Qed.

End BeginningEquity.

(** Witness of [reconciliation_kept_unless_proxy_larger]: an ending equity
    of 10 with net deposits of 5 and a profit of 2 leaves 3 to begin with. *)
Lemma reconciliation_kept_witness :
  Reports.estimated_beginning_equity
    (Reports.infer_initial_capital (R := Samples.runtime) Samples.inflows
       10 5 2)
  = (10 - 5 - 2)%Q.
Proof.
  apply (reconciliation_kept_unless_proxy_larger (R := Samples.runtime)
           Samples.inflows 10 5 2).
  - vm_compute. discriminate.
  - vm_compute. discriminate.
Defined.

(** ** The reconstructed history ([transform.build_reconstructed_schema]) *)

Section ReconstructedHistory.
Import Py Transform.

Lemma length_omap_filter {A B : Type} (f : A -> option B) (p : A -> bool)
    (l : list A) :
  (forall x, p x = match f x with Some _ => true | None => false end) ->
  length (omap f l) = length (List.filter p l).
Proof.
  intros H. induction l as [|x l IH]; cbn; [reflexivity|].
  rewrite (H x). destruct (f x); cbn; now rewrite IH.
Qed.

Lemma trade_rows_well_formed (trades : Frame.DataFrame Trades.TradeRow)
    (fx : Q) (label : string) :
  Forall (fun r => timestamp r <> None /\ exchange r = label
                      /\ fx_rate r = fx
                      /\ In (kind r)
                           ["청산"; "매수"; "매도"; "거래"; "입금"; "출금";
                            "이체"])
    (_build_trade_rows trades fx label).
Proof.
  apply List.Forall_forall. intros r Hr. unfold _build_trade_rows in Hr.
  apply in_omap in Hr. destruct Hr as ([i t] & _ & Ht). cbn [snd] in Ht.
  destruct (Trades.timestamp t); [|discriminate]. injection Ht as <-.
  cbn [timestamp exchange fx_rate kind].
  split; [discriminate|]. split; [reflexivity|]. split; [reflexivity|].
  unfold _event_type_from_trade.
  destruct (Trades.liquidation t); [simpl; auto|].
  destruct (String.eqb _ "buy"); [simpl; auto|].
  destruct (String.eqb _ "sell"); simpl; auto.
Qed.

Lemma transfer_rows_well_formed
    (transfers : Frame.DataFrame Transfers.TransferRow)
    (fx : Q) (label : string) :
  Forall (fun r => timestamp r <> None /\ exchange r = label
                      /\ fx_rate r = fx
                      /\ In (kind r)
                           ["청산"; "매수"; "매도"; "거래"; "입금"; "출금";
                            "이체"])
    (_build_transfer_rows transfers fx label).
Proof.
  apply List.Forall_forall. intros r Hr. unfold _build_transfer_rows in Hr.
  apply in_omap in Hr. destruct Hr as ([i x] & _ & Hx). cbn [snd] in Hx.
  destruct (Transfers.timestamp x); [|discriminate]. injection Hx as <-.
  cbn [timestamp exchange fx_rate kind].
  split; [discriminate|]. split; [reflexivity|]. split; [reflexivity|].
  unfold type_map.
  destruct (String.eqb _ "deposit"); [simpl; auto 10|].
  destruct (String.eqb _ "withdraw"); simpl; auto 10.
Qed.

(** X24. The reconstructed history holds one row for every trade and every
    transfer that carries a timestamp, and none for the others.  Every row
    is dated, names the exchange and the rate given, and has one of the
    seven event types; the rows are in ascending order of time and numbered
    0, 1, ... in that order. *)
Theorem reconstructed_history_is_dated_and_ordered
    (trades : Frame.DataFrame Trades.TradeRow)
    (transfers : Frame.DataFrame Transfers.TransferRow)
    (fx : Q) (label : string) (out : Frame.DataFrame OutputRow) :
  build_reconstructed_schema trades transfers fx label out ->
  length out
  = (length (List.filter (Frame.present Trades.timestamp) trades)
     + length (List.filter (Frame.present Transfers.timestamp) transfers))%nat
  /\ Forall (fun r => timestamp r <> None /\ exchange r = label
                      /\ fx_rate r = fx
                      /\ In (kind r)
                           ["청산"; "매수"; "매도"; "거래"; "입금"; "출금";
                            "이체"])
       (Frame.rows_of out)
  /\ StronglySorted (Frame.le_ts timestamp) (Frame.rows_of out)
  /\ Frame.labels_of out = seq 0 (length out).
Proof.
  unfold build_reconstructed_schema. cbv zeta.
  set (rows := _build_trade_rows trades fx label
               ++ _build_transfer_rows transfers fx label).
  assert (Hlen : length rows
                 = (length (List.filter (Frame.present Trades.timestamp) trades)
                    + length (List.filter (Frame.present Transfers.timestamp)
                                transfers))%nat).
  { subst rows. rewrite length_app. f_equal.
    - unfold _build_trade_rows. apply length_omap_filter.
      intros [i t]. unfold Frame.present. cbn [snd].
      now destruct (Trades.timestamp t).
    - unfold _build_transfer_rows. apply length_omap_filter.
      intros [i x]. unfold Frame.present. cbn [snd].
      now destruct (Transfers.timestamp x). }
  assert (Hwf : Forall (fun r => timestamp r <> None /\ exchange r = label
                      /\ fx_rate r = fx
                      /\ In (kind r)
                           ["청산"; "매수"; "매도"; "거래"; "입금"; "출금";
                            "이체"]) rows).
  { subst rows. apply Forall_app. split;
      [apply trade_rows_well_formed | apply transfer_rows_well_formed]. }
  destruct rows as [|r rest].
  - intros ->. rewrite <- Hlen. repeat split; constructor.
  - intros (sorted & Hs & ->).
    destruct (sort_values_sound timestamp _ _ Hs) as [Hp Hsorted].
    destruct (Frame.reset_index sorted) as [|x y] eqn:E.
    + assert (Hrows : Permutation (Frame.rows_of sorted) (r :: rest)).
      { rewrite <- (rows_of_of_rows (r :: rest)). now apply Permutation_map. }
      destruct (reset_index_labels sorted) as [_ Hr]. rewrite E in Hr.
      rewrite <- Hr in Hrows. apply Permutation_nil in Hrows. discriminate.
    + rewrite <- E. clear E x y.
      destruct (reset_index_labels sorted) as [Hl Hr].
      assert (Hrows : Permutation (Frame.rows_of sorted) (r :: rest)).
      { rewrite <- (rows_of_of_rows (r :: rest)). now apply Permutation_map. }
      split; [|split; [|split]].
      * unfold Frame.reset_index. rewrite length_of_rows, <- Hlen.
        now apply Permutation_length.
      * rewrite Hr. eapply Permutation_Forall; [symmetry; exact Hrows|].
        exact Hwf.
      * now rewrite Hr.
      * exact Hl.
Qed.

End ReconstructedHistory.

Lemma history_is_an_outcome :
  Transform.build_reconstructed_schema Samples.ordered_trades
    (fst Cases.recovered) 1 "DEX" Cases.history.
Proof.
  unfold Transform.build_reconstructed_schema. cbv zeta.
  remember (Transform._build_trade_rows Samples.ordered_trades 1 "DEX"
            ++ Transform._build_transfer_rows (fst Cases.recovered) 1 "DEX")
    as rows eqn:E.
  destruct rows as [|r rest]; [vm_compute in E; discriminate|].
  rewrite E. eexists. split; [apply sort_values_total | reflexivity].
Qed.

(** Witness of [reconstructed_history_is_dated_and_ordered]: three trades
    and the inferred deposit give four rows, numbered 0 to 3. *)
Lemma reconstructed_history_witness :
  length Cases.history = (3 + 1)%nat
  /\ Frame.labels_of Cases.history = seq 0 (length Cases.history).
Proof.
  destruct (reconstructed_history_is_dated_and_ordered Samples.ordered_trades
              (fst Cases.recovered) 1 "DEX" Cases.history
              history_is_an_outcome) as (Hlen & _ & _ & Hl).
  split; [exact Hlen | exact Hl].
Defined.

(** ** The airdrop table ([extractors/airdrops.py]) *)

Section AirdropRows.
Context {R : Py.Runtime}.
Import Py Collect.

Lemma token_asset_not_empty (asset : string) :
  Airdrops._looks_like_token asset = true -> asset <> "".
Proof. intros H ->. discriminate H. Qed.

Lemma omap_in {A B : Type} (f : A -> option B) (l : list A) (x : A) (y : B) :
  In x l -> f x = Some y -> In y (omap f l).
Proof.
  induction l as [|x' l IH]; cbn; [contradiction|].
  intros [-> | Hx] Hf.
  - rewrite Hf. now left.
  - destruct (f x'); [right|]; now apply IH.
Qed.

Lemma rows_from_transfers_spec
    (transfers : Frame.DataFrame Transfers.TransferRow)
    (r : Airdrops.AirdropRow) :
  In r (Airdrops.rows_from_transfers transfers) ->
  In (Airdrops.event_type r) ["airdrop"; "token_transfer"]
  /\ Airdrops.asset r <> "".
Proof.
  unfold Airdrops.rows_from_transfers. intros Hr.
  apply in_omap in Hr. destruct Hr as ([i x] & _ & Hx). cbn [snd] in Hx.
  destruct (Airdrops._looks_like_token (Transfers.asset x)) eqn:E;
    [|discriminate].
  injection Hx as <-. cbn [Airdrops.event_type Airdrops.asset]. split.
  - destruct (String.eqb _ "deposit"); simpl; auto.
  - now apply token_asset_not_empty.
Qed.

Lemma row_from_log_spec (endpoint_name : string) (log : dict)
    (r : Airdrops.AirdropRow) :
  Airdrops.row_from_log endpoint_name log = Some r ->
  In (Airdrops.event_type r) ["airdrop"; "token_transfer"]
  /\ Airdrops.asset r <> ""
  /\ ~ (Airdrops.quantity r == 0)%Q
  /\ Airdrops.source r = endpoint_name.
Proof.
  unfold Airdrops.row_from_log. cbv zeta.
  destruct (match Transfers.first_some _ _ with
            | Some aq => aq
            | None => ("", 0%Q)
            end) as [asset qty].
  destruct ((contains "airdrop" _ || Airdrops._looks_like_token asset)
            && negb (Qeq_bool qty 0)) eqn:E; [|discriminate].
  intros [= <-].
  cbn [Airdrops.event_type Airdrops.asset Airdrops.quantity Airdrops.source].
  apply andb_prop in E. destruct E as [_ Eq].
  apply negb_true_iff, Qeq_bool_false in Eq.
  split; [|split; [|split; [exact Eq | reflexivity]]].
  - destruct (contains "airdrop" _); simpl; auto.
  - destruct (String.eqb_spec asset ""); [discriminate | assumption].
Qed.

Lemma in_explorer_airdrops (param : string) (outcome : fetched (list dict))
    (r : Airdrops.AirdropRow) :
  In r (fst (explorer_airdrops param outcome)) ->
  exists log,
    Airdrops.row_from_log ("explorer.airdrop[" ++ param ++ "]") log = Some r.
Proof.
  unfold explorer_airdrops. cbv zeta.
  destruct outcome as [e | logs]; [intros []|].
  rewrite fst_loop_status. intros Hr. apply run_loop_in in Hr.
  destruct Hr as (log & _ & Hlog). exists log.
  destruct (Airdrops.row_from_log_error log); [discriminate|].
  destruct (Airdrops.row_from_log _ log); [|discriminate].
  now injection Hlog as <-.
Qed.

(** X25. Every row of the airdrop table is an "airdrop" or a "token_transfer"
    and names an asset.  Every deposit of a token asset in the transfer
    table is gathered as an airdrop of the amount deposited, and every row
    gathered that was not read off the transfer table has a quantity other
    than 0 and names the explorer endpoint it came from. *)
Theorem airdrop_table_rows
    (transfers : Frame.DataFrame Transfers.TransferRow)
    (explorer : string -> fetched (list dict))
    (account_index : Z) (l1_address : string) :
  let rows := fst (airdrops_rows transfers explorer account_index l1_address) in
  (forall out,
      Airdrops.fetch_airdrops_and_token_transfers rows out ->
      Forall (fun r => In (Airdrops.event_type r) ["airdrop"; "token_transfer"]
                       /\ Airdrops.asset r <> "")
        (Frame.rows_of out))
  /\ (forall x,
        In x (Frame.rows_of transfers) ->
        Airdrops._looks_like_token (Transfers.asset x) = true ->
        Transfers.event_type x = "deposit" ->
        exists r,
          In r rows /\ Airdrops.event_type r = "airdrop"
          /\ Airdrops.quantity r = Transfers.amount_quote x
          /\ Airdrops.timestamp r = Transfers.timestamp x
          /\ Airdrops.asset r = Transfers.asset x)
  /\ (forall r,
        In r rows ->
        In r (Airdrops.rows_from_transfers transfers)
        \/ (~ (Airdrops.quantity r == 0)%Q
            /\ exists param,
                 In param (explorer_params account_index l1_address)
                 /\ Airdrops.source r
                    = ("explorer.airdrop[" ++ param ++ "]")%string)).
Proof.
  intros rows. split; [|split].
  - intros out H. eapply merge_rows_forall; [exact H|].
    apply List.Forall_forall. intros r Hr. subst rows.
    unfold airdrops_rows in Hr. cbn [fst] in Hr.
    apply in_app_or in Hr. destruct Hr as [Hr | Hr].
    + now apply rows_from_transfers_spec in Hr.
    + apply in_concat_fst in Hr. destruct Hr as (p & Hp & Hr).
      apply in_map_iff in Hp. destruct Hp as (param & <- & _).
      apply in_explorer_airdrops in Hr. destruct Hr as (log & Hlog).
      apply row_from_log_spec in Hlog. tauto.
  - intros x Hx Htoken Hdep. subst rows. unfold airdrops_rows. cbn [fst].
    apply in_map_iff in Hx. destruct Hx as ([i x'] & Ex & Hin).
    cbn [snd] in Ex. subst x'.
    eexists. split.
    + apply in_or_app. left. unfold Airdrops.rows_from_transfers.
      apply (omap_in _ _ (i, x)); [exact Hin|].
      cbn [snd]. rewrite Htoken. reflexivity.
    + cbn [Airdrops.event_type Airdrops.quantity Airdrops.timestamp
           Airdrops.asset].
      rewrite Hdep. repeat split; reflexivity.
  - intros r Hr. subst rows. unfold airdrops_rows in Hr. cbn [fst] in Hr.
    apply in_app_or in Hr. destruct Hr as [Hr | Hr]; [now left | right].
    apply in_concat_fst in Hr. destruct Hr as (p & Hp & Hr).
    apply in_map_iff in Hp. destruct Hp as (param & <- & Hparam).
    apply in_explorer_airdrops in Hr. destruct Hr as (log & Hlog).
    apply row_from_log_spec in Hlog. destruct Hlog as (_ & _ & Hq & Hs).
    split; [exact Hq|]. exists param. auto.
Qed.

End AirdropRows.

(** ** When an extractor returns, and when the guard lets the run go on *)

Section ExtractorsReturn.
Context {row : Type}.
Variable same : row -> row -> bool.
Variable hashable_key : row -> bool.
Variable ts : row -> option Z.
Import Frame.

Lemma merge_rows_returns_iff (rows : list row) :
  (exists out, merge_rows same hashable_key ts rows out)
  <-> forallb hashable_key rows = true.
Proof.
  split; [|apply merge_rows_total].
  intros (out & H).
  destruct (merge_rows_sound same hashable_key ts rows out H)
    as (deduped & Hd & _).
  unfold drop_duplicates in Hd.
  rewrite forallb_rows, rows_of_of_rows in Hd.
  now destruct (forallb hashable_key rows).
Qed.

Lemma merge_rows_nonempty (rows : list row) (out : DataFrame row) :
  merge_rows same hashable_key ts rows out -> rows <> [] -> out <> [].
Proof.
  intros H Hne.
  destruct (exists_last Hne) as (front & r & E).
  pose proof (proj2 (proj2 (merge_rows_keeps same hashable_key ts rows out H))
                front r E) as Hin.
  intros ->. contradiction.
Qed.

End ExtractorsReturn.

(** X26. An extractor returns a table exactly when no row gathered carries a
    list or a dictionary as its transaction hash, which the deduplication
    cannot hash: this is so for trades and for transfers.  The balance and
    the airdrop extractor, whose key columns hold no such cell, always
    return. *)
Theorem extractors_return_unless_hash_unhashable :
  (forall rows,
      (exists out, Trades.fetch_trades rows out)
      <-> Forall (fun r => Py.hashable (Trades.tx_hash r) = true) rows)
  /\ (forall rows,
        (exists out, Transfers.fetch_transfers rows out)
        <-> Forall (fun r => Py.hashable (Transfers.tx_hash r) = true) rows)
  /\ (forall rows, exists out, Balances.fetch_balance_history rows out)
  /\ (forall rows,
        exists out, Airdrops.fetch_airdrops_and_token_transfers rows out).
Proof.
  split; [|split; [|split]]; intros rows.
  - unfold Trades.fetch_trades. rewrite merge_rows_returns_iff.
    rewrite forallb_forall, List.Forall_forall. reflexivity.
  - unfold Transfers.fetch_transfers. rewrite merge_rows_returns_iff.
    rewrite forallb_forall, List.Forall_forall. reflexivity.
  - apply merge_rows_total. apply forallb_forall. reflexivity.
  - apply merge_rows_total. apply forallb_forall. reflexivity.
Qed.

Section GuardAndRows.
Context {R : Py.Runtime}.
Import Py Collect Main.

Lemma guard_returns_on_data {transfer trade : Type}
    (statuses : list EndpointStatus)
    (transfers : Frame.DataFrame transfer) (trades : Frame.DataFrame trade) :
  (forall n, In n core -> attempted statuses n) ->
  transfers <> [] \/ trades <> [] ->
  _ensure_api_coverage statuses transfers trades = Returns.
Proof.
  intros Hatt Hdata. unfold _ensure_api_coverage. cbv zeta.
  rewrite (filter_none (fun n => negb (is_in (by_name_of statuses) n)) core).
  - assert (E : Frame.empty transfers && Frame.empty trades = false).
    { destruct transfers, trades; simpl; try reflexivity.
      destruct Hdata as [H | H]; now destruct H. }
    rewrite E. reflexivity.
  - intros n Hn. apply negb_false_iff. apply is_in_attempted, Hatt, Hn.
Qed.

(** X27. As soon as one transfer or one trade was gathered and the two tables
    were built, the guard lets the run go on, whatever the endpoints
    reported. *)
Theorem guard_passes_once_a_row_is_gathered
    (paginate ex_t : string -> fetched (list dict))
    (t a : fetched (list dict)) (ex_tr : string -> fetched (list dict))
    (account_index : Z) (l1_address : string) (market_map : gmap Z string)
    (st_balances st_airdrops : list EndpointStatus)
    (transfers : Frame.DataFrame Transfers.TransferRow)
    (trades : Frame.DataFrame Trades.TradeRow) :
  let gathered_transfers :=
    Collect.transfers_rows paginate ex_t account_index l1_address in
  let gathered_trades :=
    Collect.trades_rows t a ex_tr account_index l1_address market_map in
  Transfers.fetch_transfers (fst gathered_transfers) transfers ->
  Trades.fetch_trades (fst gathered_trades) trades ->
  fst gathered_transfers <> [] \/ fst gathered_trades <> [] ->
  _ensure_api_coverage
    (endpoint_statuses (snd gathered_transfers) (snd gathered_trades)
       st_balances st_airdrops)
    transfers trades
  = Returns.
Proof.
  intros gathered_transfers gathered_trades Htr Ht Hrows.
  apply guard_returns_on_data.
  - intros n Hn. now apply core_always_attempted.
  - destruct Hrows as [H | H]; [left | right];
      eapply merge_rows_nonempty; eauto.
Qed.

End GuardAndRows.

Lemma one_fill_table :
  Trades.fetch_trades
    (fst (Collect.trades_rows (R := Samples.runtime)
            (Collect.Fetched [Cases.maker_buy_fill]) (Collect.Failed "HTTP 401")
            Cases.no_history 5 "" Cases.symbols))
    [(0%nat, Cases.one_fill)].
Proof.
  unfold Trades.fetch_trades, Frame.merge_rows. simpl.
  exists [(0%nat, Cases.one_fill)], [(0%nat, Cases.one_fill)].
  split; [reflexivity|]. split; [|reflexivity].
  exact (sort_values_total Trades.timestamp [(0%nat, Cases.one_fill)]).
Qed.

(** Witness of [guard_passes_once_a_row_is_gathered]: every endpoint fails
    but "trades", which returns one fill. *)
Lemma guard_passes_witness :
  Main._ensure_api_coverage
    (Collect.endpoint_statuses
       (snd (Collect.transfers_rows (R := Samples.runtime) Cases.no_history
               Cases.no_history 5 ""))
       (snd (Collect.trades_rows (R := Samples.runtime)
               (Collect.Fetched [Cases.maker_buy_fill])
               (Collect.Failed "HTTP 401") Cases.no_history 5 ""
               Cases.symbols))
       [] [])
    ([] : Frame.DataFrame Transfers.TransferRow)
    [(0%nat, Cases.one_fill)]
  = Main.Returns.
Proof.
  apply (guard_passes_once_a_row_is_gathered (R := Samples.runtime)
           Cases.no_history Cases.no_history
           (Collect.Fetched [Cases.maker_buy_fill]) (Collect.Failed "HTTP 401")
           Cases.no_history 5 "" Cases.symbols [] [] []
           [(0%nat, Cases.one_fill)]).
  - reflexivity.
  - exact one_fill_table.
  - right. discriminate.
Defined.

(** ** The legacy token helpers ([legacy/extractors_tokens.py]) *)

Section LegacyHelpers.
Context {R : Py.Runtime}.
Import Py.

(** X28. For the keyword "LIT" in any letter case, the legacy sell summary
    reports the quantity, the price and the proceeds that
    [summarize_token_sales] reports. *)
Theorem legacy_sell_summary_agrees
    (trades : Frame.DataFrame Trades.TradeRow) (token_keyword : string) :
  upper token_keyword = "LIT" ->
  let legacy := LegacyTokens.token_sell_summary trades token_keyword in
  let current := Airdrops.summarize_token_sales trades in
  LegacyTokens.qty_sold legacy = Airdrops.qty_sold current
  /\ LegacyTokens.vwap legacy = Airdrops.vwap_sell_price current
  /\ LegacyTokens.proceeds_quote legacy = Airdrops.proceeds_quote current.
Proof.
  intros Hk legacy current. subst legacy current.
  unfold LegacyTokens.token_sell_summary, Airdrops.summarize_token_sales.
  rewrite Hk. destruct trades as [|ir trades]; [repeat split|].
  cbv zeta. unfold LegacyTokens.str_contains.
  cbn [is_literal_pattern regex_special list_ascii_of_string existsb
       Ascii.eqb Bool.eqb negb andb orb].
  change (fun t : Trades.TradeRow =>
            contains "LIT" (upper (Trades.market t))
            && String.eqb (Trades.side t) "sell")
    with Airdrops.is_token_sale.
  destruct (List.filter Airdrops.is_token_sale _); repeat split.
Qed.

(** X29. The table of token transfers holds the rows of the transfer table whose
    asset is not "USDC" in any letter case, in their order and numbered
    0, 1, ...; what it returns it returns again when applied to it. *)
Theorem token_transfers_exclude_usdc
    (transfers : Frame.DataFrame Transfers.TransferRow) :
  let out := LegacyTokens.infer_token_transfers transfers in
  Frame.rows_of out
  = List.filter (fun r => negb (String.eqb (upper (Transfers.asset r)) "USDC"))
      (Frame.rows_of transfers)
  /\ Forall (fun r => upper (Transfers.asset r) <> "USDC") (Frame.rows_of out)
  /\ Frame.labels_of out = seq 0 (length out)
  /\ LegacyTokens.infer_token_transfers out = out.
Proof.
  intros out. subst out. unfold LegacyTokens.infer_token_transfers.
  set (p := fun r => negb (String.eqb (upper (Transfers.asset r)) "USDC")).
  change (fun ir : nat * Transfers.TransferRow =>
            negb (String.eqb (upper (Transfers.asset (snd ir))) "USDC"))
    with (fun ir : nat * Transfers.TransferRow => p (snd ir)).
  destruct (reset_index_labels
              (List.filter (fun ir => p (snd ir)) transfers)) as [Hl Hr].
  assert (Hrows : Frame.rows_of
                    (Frame.reset_index
                       (List.filter (fun ir => p (snd ir)) transfers))
                  = List.filter p (Frame.rows_of transfers)).
  { rewrite Hr. apply rows_of_filter. }
  split; [exact Hrows|]. split; [|split; [exact Hl|]].
  - rewrite Hrows. apply List.Forall_forall. intros r Hr'.
    apply filter_In in Hr'. destruct Hr' as [_ Hp]. subst p. cbv beta in Hp.
    apply negb_true_iff, String.eqb_neq in Hp. exact Hp.
  - unfold Frame.reset_index at 1 3. f_equal.
    rewrite rows_of_filter, Hrows, filter_idem.
    rewrite <- (rows_of_filter p). reflexivity.
Qed.

End LegacyHelpers.

(** Witness of [legacy_sell_summary_agrees]: with the keyword "lit", both
    report the 4 tokens sold. *)
Lemma legacy_sell_summary_witness :
  LegacyTokens.qty_sold
    (LegacyTokens.token_sell_summary (R := Samples.runtime)
       Cases.token_trades "lit")
  = Airdrops.qty_sold
      (Airdrops.summarize_token_sales (R := Samples.runtime)
         Cases.token_trades).
Proof.
  apply (legacy_sell_summary_agrees (R := Samples.runtime)
           Cases.token_trades "lit").
  reflexivity.
Defined.
